(** * poly-websockets: group sockets, handler dispatch and derived price updates

    A shallow embedding of the open and message handlers of the two group
    sockets (classes MarketGroupSocket and UserGroupSocket), of the handler
    wrapping of the two subscription managers (classes WSSubscriptionManager
    and UserWSSubscriptionManager) and of the constructor defaults of class
    BaseSubscriptionManager, and of the life of a socket object in class
    BaseGroupSocket (connect, the listeners it binds, the heartbeat). The
    order book cache, the two group registries and the event declarations
    are imported by these classes but are not among the sources, and
    neither is class MarketWSSubscriptionManager, which the package
    exports; they are modelled from the specification and marked as such.

    Handlers are closures in the source; a socket only ever asks whether a
    handler is present ([handlers.onX?.(...)]) and then calls it, so a run of
    a socket method is described by the state it leaves and by the ordered
    list of effects it performed (handler invocations, book cache calls,
    websocket sends, log lines). A callback is taken to return: the sources
    await every callback without a catch, so one that throws or rejects
    ends the method there; such runs are not followed here. *)

From Stdlib Require Import ZArith String Ascii List Bool Lia DecimalString.
From stdpp Require Import base gmap strings list.
Import ListNotations.

Open Scope string_scope.
Open Scope list_scope.
Open Scope Z_scope.

(** ** JavaScript primitives used by the sources *)

Module JS.

Definition isDigit (c : ascii) : bool :=
  (48 <=? nat_of_ascii c)%nat && (nat_of_ascii c <=? 57)%nat.

Fixpoint takeDigits (l : list ascii) : list ascii * list ascii :=
  match l with
  | c :: r =>
      if isDigit c
      then let '(ds, rest) := takeDigits r in (c :: ds, rest)
      else ([], l)
  | [] => ([], [])
  end.

Fixpoint dropLeadingZeros (l : list ascii) : list ascii :=
  match l with
  | c :: r => if Ascii.eqb c "0" then dropLeadingZeros r else l
  | [] => []
  end.

Definition dropTrailingZeros (l : list ascii) : list ascii :=
  rev (dropLeadingZeros (rev l)).

(** The printed form of a decimal number given by its sign, the digits of
    its integer part and the digits of its fraction: what
    [Number.prototype.toString] prints for a number that is written exactly
    with a few decimal digits (no exponent, no trailing zeros, a lone 0
    before the point, no sign on zero). *)
Definition printDecimal (negative : bool) (int frac : list ascii) : string :=
  let i := dropLeadingZeros int in
  let f := dropTrailingZeros frac in
  let isZero := match i, f with [], [] => true | _, _ => false end in
  string_of_list_ascii
    ((if negative && negb isZero then ["-"%char] else [])
       ++ (match i with [] => ["0"%char] | _ => i end)
       ++ (match f with [] => [] | _ => "."%char :: f end)).

(** A decimal literal in full: an optional sign, digits, an optional point
    and digits, with a digit somewhere and nothing before or after. *)
Definition readDecimal (s : string)
  : option (bool * list ascii * list ascii) :=
  let l := list_ascii_of_string s in
  let '(negative, l1) :=
    match l with
    | c :: r =>
        if Ascii.eqb c "-" then (true, r)
        else if Ascii.eqb c "+" then (false, r)
        else (false, l)
    | [] => (false, l)
    end in
  let '(int, l2) := takeDigits l1 in
  let '(frac, l3) :=
    match l2 with
    | c :: r => if Ascii.eqb c "." then takeDigits r else ([], l2)
    | [] => ([], [])
    end in
  match l3, int, frac with
  | _ :: _, _, _ => None
  | [], [], [] => None
  | [], _, _ => Some (negative, int, frac)
  end.

(** How many zeros open a list of digits. *)
Fixpoint leadingZeros (l : list ascii) : nat :=
  match l with
  | c :: r => if Ascii.eqb c "0" then S (leadingZeros r) else 0%nat
  | [] => 0%nat
  end.

(** The strings on which [parseFloat(s).toString()] is a matter of text: a
    decimal literal in full with at most 15 significant digits, which is
    either 0 or at least 0.000001. Such a literal is read into the nearest
    double and that double prints back as the same decimal, in positional
    notation and in its shortest form. *)
Definition plainDecimal (s : string) : bool :=
  match readDecimal s with
  | Some (_, int, frac) =>
      let i := dropLeadingZeros int in
      let f := dropTrailingZeros frac in
      (length i + length f <=? 15)%nat
      && match i, f with
         | [], _ :: _ => (leadingZeros f <=? 5)%nat
         | _, _ => true
         end
  | None => false
  end.

(** What [parseFloat(s).toString()] prints for a plain decimal. *)
Definition printPlain (s : string) : string :=
  match readDecimal s with
  | Some (negative, int, frac) => printDecimal negative int frac
  | None => "NaN"
  end.

(** The JavaScript engine, for what this development does not compute:
    [parseFloat(s).toString()] on a string that is not a plain decimal
    (there the engine reads leading blanks, exponents, Infinity and
    trailing text, rounds to the nearest double and prints the shortest
    literal that reads back, with an exponent for small and large
    values). *)
Class Engine := { parseFloat_toString_beyond : string -> string }.

(** [parseFloat(s).toString()] *)
Definition parseFloat_toString {engine : Engine} (s : string) : string :=
  if plainDecimal s then printPlain s else parseFloat_toString_beyond s.

(** A JavaScript number, a double: [m * 2^e] when finite. The sources test
    the numbers of the options for truth and hand them on. *)
Inductive number :=
| Real (m e : Z)
| NegZero
| Infinity
| NegInfinity
| NaN.

(** The number an integer literal denotes. *)
Definition ofZ (z : Z) : number := Real z 0.

(** A number where [||] reads a condition: 0, -0 and NaN are false. *)
Definition truthy (n : number) : bool :=
  match n with
  | Real m _ => negb (m =? 0)
  | NegZero | NaN => false
  | Infinity | NegInfinity => true
  end.

(** [Number.MAX_SAFE_INTEGER] *)
Definition MAX_SAFE_INTEGER : number := ofZ (2 ^ 53 - 1).

(** [_.size(v)] of lodash on a value that is a string or undefined. *)
Definition _size (v : option string) : nat :=
  match v with
  | Some s => String.length s
  | None => 0%nat
  end.

(** [set.has(v)] on a [Set<string>], kept as the list of its members in
    insertion order; an undefined argument is in no set of strings. *)
Definition has (set : list string) (v : option string) : bool :=
  match v with
  | Some s => existsb (String.eqb s) set
  | None => false
  end.

(** [for (const x of xs) body], the body threading a state and performing
    effects. *)
Fixpoint forEach {A S E : Type} (body : S -> A -> S * list E) (s : S) (xs : list A)
  : S * list E :=
  match xs with
  | [] => (s, [])
  | x :: r =>
      let '(s1, t1) := body s x in
      let '(s2, t2) := forEach body s1 r in
      (s2, t1 ++ t2)
  end.

End JS.

(** Modelled from the spec: the [WebSocketStatus] enum of
    types/WebSocketSubscriptions (not among the sources), section 3: one of
    PENDING, ALIVE, DEAD, CLEANUP. *)
Inductive WebSocketStatus := PENDING | ALIVE | DEAD | CLEANUP.

(** A websocket handle of the [ws] library. The sources call [send] and
    [close] on it; the handle says whether each call throws. *)
Record WebSocket := { sendThrows : bool; closeThrows : bool }.

(** ** Fixed-point decimals *)

Module Decimal.

Definition digitsOf (n : N) : list ascii :=
  list_ascii_of_string (NilZero.string_of_uint (N.to_uint n)).

Definition padLeft (width : nat) (l : list ascii) : list ascii :=
  repeat "0"%char (width - length l) ++ l.

(** The decimal writing of [m / 10^scale]. *)
Definition render (scale : nat) (m : Z) : string :=
  let a := Z.abs_N m in
  let p := (10 ^ N.of_nat scale)%N in
  JS.printDecimal (m <? 0) (digitsOf (a / p)) (padLeft scale (digitsOf (a mod p))).

End Decimal.

(** ** class BaseSubscriptionManager *)

Module BaseSubscriptionManager.

Definition BURST_LIMIT_PER_SECOND : JS.number := JS.ofZ 5.

(** [ms('10s')] *)
Definition DEFAULT_RECONNECT_AND_CLEANUP_INTERVAL_MS : JS.number := JS.ofZ 10000.

Definition DEFAULT_MAX_MARKETS_PER_WS : JS.number := JS.ofZ 100.

(** The options record both managers accept (the user one adds [auth],
    which the base class does not read). An omitted option is undefined. *)
Record Options := {
  reconnectAndCleanupIntervalMs : option JS.number;
  maxMarketsPerWS : option JS.number
}.

(** [{}] *)
Definition noOptions : Options :=
  {| reconnectAndCleanupIntervalMs := None; maxMarketsPerWS := None |}.

(** The fields the constructor sets from the options. *)
Record Settings := {
  this_reconnectAndCleanupIntervalMs : JS.number;
  this_maxMarketsPerWS : JS.number
}.

(** [a || rest] where [a] is a number or undefined: [a] when it is a
    number that counts as true, [rest] otherwise. *)
Definition orElse (a : option JS.number) (rest : JS.number) : JS.number :=
  match a with
  | Some n => if JS.truthy n then n else rest
  | None => rest
  end.

(** The constructor, given the subclass's two option accessors; the third
    argument [defaultOptions] is [{}] when the subclass passes none. *)
Definition constructor
    (getReconnectAndCleanupIntervalMs getMaxMarketsPerWS :
       Options -> option JS.number)
    (options : Options) (defaultOptions : Options) : Settings :=
  {| this_reconnectAndCleanupIntervalMs :=
       orElse (getReconnectAndCleanupIntervalMs options)
         (orElse (reconnectAndCleanupIntervalMs defaultOptions)
            DEFAULT_RECONNECT_AND_CLEANUP_INTERVAL_MS);
     this_maxMarketsPerWS :=
       orElse (getMaxMarketsPerWS options)
         (orElse (maxMarketsPerWS defaultOptions)
            DEFAULT_MAX_MARKETS_PER_WS) |}.

(** [actOnSubscribedEvents(events, action)]: nothing at all without an
    action; otherwise the action runs on what [filterSubscribedEvents]
    keeps, whatever that is. The result is the lines the filter logged and
    the action's outcome when it ran. *)
Definition actOnSubscribedEvents {T R L : Type}
    (filterSubscribedEvents : list T -> list T * list L)
    (events : list T) (action : option (list T -> R)) : list L * option R :=
  match action with
  | None => ([], None)
  | Some act =>
      let '(subscribedEvents, logged) := filterSubscribedEvents events in
      (logged, Some (act subscribedEvents))
  end.

End BaseSubscriptionManager.

(** ** The market channel *)

Module Market.

(** *** Market events (types/PolymarketWebSocket) *)

(** Modelled from the spec: the event declarations of
    types/PolymarketWebSocket.ts are not among the sources. A level is
    [{price, size}]; both are decimals with at most 4 fractional digits,
    held as their count of 1/10000. *)
Record PriceLevel := { level_price : Z; level_size : Z }.

(** Modelled from the spec: the side of a delta (declaration not among the
    sources). *)
Inductive Side := BUY | SELL.

(** Modelled from the spec: one delta [{price, size, side}] of a
    price_change event (declaration not among the sources). *)
Record PriceChangeItem := {
  change_price : Z;
  change_size : Z;
  change_side : Side
}.

(** Modelled from the spec: a parsed market event, with the key fields of
    the four kinds (declaration not among the sources). The feed is
    untyped JSON, so [asset_id] and [event_type] may be missing. *)
Record PolymarketWSEvent := {
  asset_id : option string;
  event_type : option string;
  timestamp : string;
  hash : string;
  bids : list PriceLevel;
  asks : list PriceLevel;
  changes : list PriceChangeItem;
  old_tick_size : string;
  new_tick_size : string;
  price : string;
  trade_size : string;
  side : string
}.

(** Modelled from the spec: events are discriminated by [event_type]
    (section 6); the type guards of types/PolymarketWebSocket are not among
    the sources. *)
Definition hasEventType (kind : string) (event : PolymarketWSEvent) : bool :=
  match event_type event with
  | Some k => String.eqb k kind
  | None => false
  end.

(** Modelled from the spec: the type guard [isBookEvent] (not among the
    sources): [event_type] is "book". *)
Definition isBookEvent : PolymarketWSEvent -> bool := hasEventType "book".

(** Modelled from the spec: the type guard [isLastTradePriceEvent] (not
    among the sources): [event_type] is "last_trade_price". *)
Definition isLastTradePriceEvent : PolymarketWSEvent -> bool :=
  hasEventType "last_trade_price".

(** Modelled from the spec: the type guard [isTickSizeChangeEvent] (not
    among the sources): [event_type] is "tick_size_change". *)
Definition isTickSizeChangeEvent : PolymarketWSEvent -> bool :=
  hasEventType "tick_size_change".

(** Modelled from the spec: the type guard [isPriceChangeEvent] (not among
    the sources): [event_type] is "price_change". *)
Definition isPriceChangeEvent : PolymarketWSEvent -> bool :=
  hasEventType "price_change".

(** The synthetic event [MarketGroupSocket] builds, field by field. *)
Record PolymarketPriceUpdateEvent := {
  pu_asset_id : option string;
  pu_event_type : string;
  pu_triggeringEvent : PolymarketWSEvent;
  pu_timestamp : string;
  pu_book : list PriceLevel * list PriceLevel;
  pu_price : string;
  pu_midpoint : string;
  pu_spread : string
}.

(** Both event types carry an [asset_id]; the manager's filter is generic
    in the event type. *)
Class HasAssetId (T : Type) := assetIdOf : T -> option string.
#[export] Instance PolymarketWSEvent_asset : HasAssetId PolymarketWSEvent := asset_id.
#[export] Instance PolymarketPriceUpdateEvent_asset :
  HasAssetId PolymarketPriceUpdateEvent := pu_asset_id.

(** *** class OrderBookCache *)

Module OrderBookCache.

(** Modelled from the spec: the [BookEntry] of OrderBookCache (not among
    the sources), section 3: bids, asks, the last midpoint, spread
    and price as strings (empty until set), the feed's hash and the
    snapshot's timestamp. *)
Record BookEntry := {
  book_bids : list PriceLevel;
  book_asks : list PriceLevel;
  book_price : string;
  book_midpoint : string;
  book_spread : string;
  book_hash : string;
  book_timestamp : string
}.

(** Modelled from the spec: the two failures of the cache's methods
    (4.1, 7); OrderBookCache is not among the sources. *)
Inductive CacheError := BookNotFound | IncompleteBook.

(** What a method that may throw gives. *)
Inductive Result (A : Type) :=
| Ok (value : A)
| Throw (err : CacheError).
Arguments Ok {A} value.
Arguments Throw {A} err.

(** Modelled from the spec: the cache is a mapping asset_id -> BookEntry
    (4.1); an undefined asset id has no entry. *)
Definition lookupEntry (cache : gmap string BookEntry) (assetId : option string)
  : option BookEntry :=
  match assetId with
  | Some a => cache !! a
  | None => None
  end.

(** Modelled from the spec: the best bid is the highest bid price, if
    the side has a level (section 3). *)
Definition highest (levels : list PriceLevel) : option Z :=
  match levels with
  | [] => None
  | l :: r => Some (fold_left Z.max (map level_price r) (level_price l))
  end.

(** Modelled from the spec: the best ask is the lowest ask price, if the
    side has a level (section 3). *)
Definition lowest (levels : list PriceLevel) : option Z :=
  match levels with
  | [] => None
  | l :: r => Some (fold_left Z.min (map level_price r) (level_price l))
  end.

(** Modelled from the spec (glossary): spread = bestAsk - bestBid, defined
    when both sides have a level; in 1/10000. *)
Definition spreadOf (entry : BookEntry) : option Z :=
  match highest (book_bids entry), lowest (book_asks entry) with
  | Some bestBid, Some bestAsk => Some (bestAsk - bestBid)
  | _, _ => None
  end.

(** Modelled from the spec (glossary): midpoint = (bestBid + bestAsk) / 2,
    defined when both sides have a level; in 1/100000, so that the half is
    exact. *)
Definition midpointOf (entry : BookEntry) : option Z :=
  match highest (book_bids entry), lowest (book_asks entry) with
  | Some bestBid, Some bestAsk => Some ((bestBid + bestAsk) * 5)
  | _, _ => None
  end.

(** Modelled from the spec: [replaceBook(event)] of OrderBookCache (4.1):
    the entry's bids, asks, hash and timestamp become the snapshot's,
    midpoint and spread are recomputed when both sides exist and left empty
    otherwise; the stored price is kept. *)
Definition replaceBook (cache : gmap string BookEntry) (event : PolymarketWSEvent)
  : gmap string BookEntry :=
  match asset_id event with
  | None => cache
  | Some a =>
      let snapshot :=
        {| book_bids := bids event; book_asks := asks event;
           book_price := from_option book_price "" (cache !! a);
           book_midpoint := ""; book_spread := "";
           book_hash := hash event; book_timestamp := timestamp event |} in
      <[a := {| book_bids := bids event; book_asks := asks event;
                book_price := book_price snapshot;
                book_midpoint :=
                  from_option (Decimal.render 5) "" (midpointOf snapshot);
                book_spread :=
                  from_option (Decimal.render 4) "" (spreadOf snapshot);
                book_hash := hash event;
                book_timestamp := timestamp event |}]> cache
  end.

(** Modelled from the spec: a level is put where the order of its side
    wants it (4.1, "preserve sort order"). *)
Fixpoint insertLevel (before : Z -> Z -> bool) (level : PriceLevel)
    (levels : list PriceLevel) : list PriceLevel :=
  match levels with
  | [] => [level]
  | l :: r =>
      if before (level_price level) (level_price l)
      then level :: levels
      else l :: insertLevel before level r
  end.

(** Modelled from the spec: one delta on one side (4.1): the level at
    that price goes; unless the size is 0 the new level takes its place in
    the order of the side. *)
Definition upsertLevel (before : Z -> Z -> bool) (p s : Z)
    (levels : list PriceLevel) : list PriceLevel :=
  let others := List.filter (fun l => negb (level_price l =? p)) levels in
  if s =? 0 then others
  else insertLevel before {| level_price := p; level_size := s |} others.

(** Modelled from the spec: a BUY delta goes to the bids (descending), a
    SELL delta to the asks (ascending) (3, 4.1). *)
Definition applyChange (entry : BookEntry) (change : PriceChangeItem) : BookEntry :=
  match change_side change with
  | BUY =>
      {| book_bids :=
           upsertLevel (fun p q => q <? p) (change_price change)
             (change_size change) (book_bids entry);
         book_asks := book_asks entry; book_price := book_price entry;
         book_midpoint := book_midpoint entry; book_spread := book_spread entry;
         book_hash := book_hash entry; book_timestamp := book_timestamp entry |}
  | SELL =>
      {| book_bids := book_bids entry;
         book_asks :=
           upsertLevel (fun p q => p <? q) (change_price change)
             (change_size change) (book_asks entry);
         book_price := book_price entry;
         book_midpoint := book_midpoint entry; book_spread := book_spread entry;
         book_hash := book_hash entry; book_timestamp := book_timestamp entry |}
  end.

(** Modelled from the spec: [upsertPriceChange(event)] of OrderBookCache
    (4.1): each delta is applied, size 0 removes the level, the order of
    the side is preserved; BookNotFound if the asset never had a
    snapshot. *)
Definition upsertPriceChange (cache : gmap string BookEntry)
    (event : PolymarketWSEvent) : Result (gmap string BookEntry) :=
  match asset_id event with
  | None => Throw BookNotFound
  | Some a =>
      match cache !! a with
      | None => Throw BookNotFound
      | Some entry => Ok (<[a := fold_left applyChange (changes event) entry]> cache)
      end
  end.

(** Modelled from the spec: the entry once a spread has been computed
    for it: [spread] is the last computed value (section 3). *)
Definition withSpread (entry : BookEntry) (spread : string) : BookEntry :=
  {| book_bids := book_bids entry; book_asks := book_asks entry;
     book_price := book_price entry;
     book_midpoint := book_midpoint entry; book_spread := spread;
     book_hash := book_hash entry; book_timestamp := book_timestamp entry |}.

(** Modelled from the spec: the entry once a midpoint has been computed
    for it: [midpoint] is the last computed value (section 3). *)
Definition withMidpoint (entry : BookEntry) (midpoint : string) : BookEntry :=
  {| book_bids := book_bids entry; book_asks := book_asks entry;
     book_price := book_price entry;
     book_midpoint := midpoint; book_spread := book_spread entry;
     book_hash := book_hash entry; book_timestamp := book_timestamp entry |}.

(** Modelled from the spec: [spreadOver(asset_id, threshold)] of
    OrderBookCache (4.1): true iff spread >= threshold, the spread being
    that of the book as it stands; the entry keeps the spread just
    computed (section 3, "last computed"; the book-apply scenario of
    section 8 has the update carry the spread of the book after the
    deltas). BookNotFound or IncompleteBook (one side empty). The threshold
    is in 1/10000. *)
Definition spreadOver (cache : gmap string BookEntry) (assetId : option string)
    (threshold : Z) : Result (gmap string BookEntry * bool) :=
  match assetId with
  | None => Throw BookNotFound
  | Some a =>
      match cache !! a with
      | None => Throw BookNotFound
      | Some entry =>
          match spreadOf entry with
          | None => Throw IncompleteBook
          | Some s =>
              Ok (<[a := withSpread entry (Decimal.render 4 s)]> cache,
                  threshold <=? s)
          end
      end
  end.

(** Modelled from the spec: [midpoint(asset_id)] of OrderBookCache
    (4.1): the current midpoint as a string, which the entry keeps as its
    last computed midpoint (section 3); IncompleteBook if either side is
    empty. *)
Definition midpoint (cache : gmap string BookEntry) (assetId : option string)
  : Result (gmap string BookEntry * string) :=
  match assetId with
  | None => Throw BookNotFound
  | Some a =>
      match cache !! a with
      | None => Throw BookNotFound
      | Some entry =>
          match midpointOf entry with
          | None => Throw IncompleteBook
          | Some m =>
              Ok (<[a := withMidpoint entry (Decimal.render 5 m)]> cache,
                  Decimal.render 5 m)
          end
      end
  end.

(** Modelled from the spec: [getBookEntry(asset_id)] of OrderBookCache
    (4.1): the entry or null. *)
Definition getBookEntry (cache : gmap string BookEntry) (assetId : option string)
  : option BookEntry :=
  lookupEntry cache assetId.

End OrderBookCache.

Import OrderBookCache.

(** *** [WebSocketGroup] (types/WebSocketSubscriptions) *)

(** The fields of a group the sources read and write. *)
Record WebSocketGroup := {
  groupId : string;
  assetIds : list string;
  status : WebSocketStatus;
  wsClient : option WebSocket
}.

(** The [Error] values the socket builds, by their message template. *)
Inductive Error :=
| NotJSON (data : string)
| UnknownEvent (event : PolymarketWSEvent).

(** [WebSocketHandlers]: every callback is optional; [R] is whatever a
    callback does. *)
Record WebSocketHandlers (R : Type) := {
  onBook : option (list PolymarketWSEvent -> R);
  onLastTradePrice : option (list PolymarketWSEvent -> R);
  onTickSizeChange : option (list PolymarketWSEvent -> R);
  onPriceChange : option (list PolymarketWSEvent -> R);
  onPolymarketPriceUpdate : option (list PolymarketPriceUpdateEvent -> R);
  onWSClose : option (string -> Z -> string -> R);
  onWSOpen : option (string -> list string -> R);
  onError : option (Error -> R)
}.
Arguments onBook {R} _.
Arguments onLastTradePrice {R} _.
Arguments onTickSizeChange {R} _.
Arguments onPriceChange {R} _.
Arguments onPolymarketPriceUpdate {R} _.
Arguments onWSClose {R} _.
Arguments onWSOpen {R} _.
Arguments onError {R} _.

(** The subscription payload, before [JSON.stringify]. *)
Record SubscriptionMessage := {
  assets_ids : list string;
  type : string;
  initial_dump : bool
}.

(** What a socket method does, in order. [Uncaught] is an exception that
    leaves the method (its promise rejects): nothing follows it. *)
Inductive Effect :=
| CallOnBook (events : list PolymarketWSEvent)
| CallOnLastTradePrice (events : list PolymarketWSEvent)
| CallOnTickSizeChange (events : list PolymarketWSEvent)
| CallOnPriceChange (events : list PolymarketWSEvent)
| CallOnPolymarketPriceUpdate (events : list PolymarketPriceUpdateEvent)
| CallOnWSOpen (groupId : string) (keys : list string)
| CallOnError (err : Error)
| CacheReplaceBook (event : PolymarketWSEvent)
| CacheUpsertPriceChange (event : PolymarketWSEvent)
| WsSend (message : SubscriptionMessage)
| StartPingInterval
| LogWarn (message : string)
| LogDebug (message : string) (asset : option string)
| Uncaught (message : string).

(** [await handler?.(args)]: the call happens when the handler is there,
    and is taken to return. *)
Definition invoke {X : Type} (handler : option X) (call : Effect) : list Effect :=
  match handler with
  | Some _ => [call]
  | None => []
  end.

(** *** class MarketGroupSocket *)

Definition setGroupStatus (group : WebSocketGroup) (s : WebSocketStatus)
  : WebSocketGroup :=
  {| groupId := groupId group; assetIds := assetIds group;
     status := s; wsClient := wsClient group |}.

Definition getWebSocketClient (group : WebSocketGroup) : option WebSocket :=
  wsClient group.

Definition shouldCleanup (group : WebSocketGroup) : bool :=
  (length (assetIds group) =? 0)%nat.

Definition createSubscriptionMessage (initialDump : bool) (group : WebSocketGroup)
  : SubscriptionMessage :=
  {| assets_ids := assetIds group; type := "market"; initial_dump := initialDump |}.

Definition handleOpen {R : Type} (handlers : WebSocketHandlers R)
    (initialDump : bool) (group : WebSocketGroup) : WebSocketGroup * list Effect :=
  if shouldCleanup group then (setGroupStatus group CLEANUP, [])
  else
    let group := setGroupStatus group ALIVE in
    let opened :=
      invoke (onWSOpen handlers) (CallOnWSOpen (groupId group) (assetIds group))
        ++ [StartPingInterval] in
    match getWebSocketClient group with
    | Some client =>
        if sendThrows client
        then (setGroupStatus group DEAD,
              [LogWarn "Failed to send subscription message on WebSocket open"])
        else (group, WsSend (createSubscriptionMessage initialDump group) :: opened)
    | None => (group, opened)
    end.

(** 0.1, in 1/10000 *)
Definition TEN_CENTS : Z := 1000.

Definition withPrice (entry : BookEntry) (newPrice : string) : BookEntry :=
  {| book_bids := book_bids entry; book_asks := book_asks entry;
     book_price := newPrice;
     book_midpoint := book_midpoint entry; book_spread := book_spread entry;
     book_hash := book_hash entry; book_timestamp := book_timestamp entry |}.

(** [bookEntry.price = newPrice]: the entry is the cache's own object. *)
Definition storePrice (cache : gmap string BookEntry) (assetId : option string)
    (bookEntry : BookEntry) (newPrice : string) : gmap string BookEntry :=
  match assetId with
  | Some a => <[a := withPrice bookEntry newPrice]> cache
  | None => cache
  end.

(** The event both derived-price loops build; [bookEntry.midpoint || '']
    is the entry's midpoint, '' when it has none. *)
Definition priceUpdateEvent (event : PolymarketWSEvent) (bookEntry : BookEntry)
    (newPrice : string) : PolymarketPriceUpdateEvent :=
  {| pu_asset_id := asset_id event;
     pu_event_type := "price_update";
     pu_triggeringEvent := event;
     pu_timestamp := timestamp event;
     pu_book := (book_bids bookEntry, book_asks bookEntry);
     pu_price := newPrice;
     pu_midpoint := book_midpoint bookEntry;
     pu_spread := book_spread bookEntry |}.

(** The tail both derived-price loops share: compare with the stored price,
    store and emit. *)
Definition announce {R : Type} (handlers : WebSocketHandlers R)
    (cache : gmap string BookEntry) (event : PolymarketWSEvent)
    (bookEntry : BookEntry) (newPrice : string)
  : gmap string BookEntry * list Effect :=
  if bool_decide (newPrice <> book_price bookEntry)
  then (storePrice cache (asset_id event) bookEntry newPrice,
        invoke (onPolymarketPriceUpdate handlers)
          (CallOnPolymarketPriceUpdate [priceUpdateEvent event bookEntry newPrice]))
  else (cache, []).

Definition handleBookEvents {R : Type} (handlers : WebSocketHandlers R)
    (cache : gmap string BookEntry) (bookEvents : list PolymarketWSEvent)
  : gmap string BookEntry * list Effect :=
  match bookEvents with
  | [] => (cache, [])
  | _ =>
      let '(cache, replaced) :=
        JS.forEach (fun c event => (replaceBook c event, [CacheReplaceBook event]))
          cache bookEvents in
      (cache, replaced ++ invoke (onBook handlers) (CallOnBook bookEvents))
  end.

Definition handleTickEvents {R : Type} (handlers : WebSocketHandlers R)
    (tickEvents : list PolymarketWSEvent) : list Effect :=
  match tickEvents with
  | [] => []
  | _ => invoke (onTickSizeChange handlers) (CallOnTickSizeChange tickEvents)
  end.

(** The body of the loop of [handlePriceChangeEvents]. *)
Definition priceChangeStep {R : Type} (handlers : WebSocketHandlers R)
    (cache : gmap string BookEntry) (event : PolymarketWSEvent)
  : gmap string BookEntry * list Effect :=
  match upsertPriceChange cache event with
  | Throw _ =>
      (cache,
       [CacheUpsertPriceChange event;
        LogDebug "Skipping derived future price calculation price_change: book not found for asset"
          (asset_id event)])
  | Ok cache =>
      match spreadOver cache (asset_id event) TEN_CENTS with
      | Throw _ =>
          (cache,
           [CacheUpsertPriceChange event;
            LogDebug "Skipping derived future price calculation for price_change: error calculating spread"
              (asset_id event)])
      | Ok (cache, spreadOver10Cents) =>
          if negb spreadOver10Cents then
            match midpoint cache (asset_id event) with
            | Throw _ =>
                (cache,
                 [CacheUpsertPriceChange event;
                  LogDebug "Skipping derived future price calculation for price_change: error calculating midpoint"
                    (asset_id event)])
            | Ok (cache, newPrice) =>
                match getBookEntry cache (asset_id event) with
                | None =>
                    (cache,
                     [CacheUpsertPriceChange event;
                      LogDebug "Skipping derived future price calculation price_change: book not found for asset"
                        (asset_id event)])
                | Some bookEntry =>
                    let '(cache, emitted) :=
                      announce handlers cache event bookEntry newPrice in
                    (cache, CacheUpsertPriceChange event :: emitted)
                end
            end
          else (cache, [CacheUpsertPriceChange event])
      end
  end.

Definition handlePriceChangeEvents {R : Type} (handlers : WebSocketHandlers R)
    (cache : gmap string BookEntry) (priceChangeEvents : list PolymarketWSEvent)
  : gmap string BookEntry * list Effect :=
  match priceChangeEvents with
  | [] => (cache, [])
  | _ =>
      let '(cache, derived) :=
        JS.forEach (priceChangeStep handlers) cache priceChangeEvents in
      (cache,
       invoke (onPriceChange handlers) (CallOnPriceChange priceChangeEvents)
         ++ derived)
  end.

(** The body of the loop of [handleLastTradeEvents]. *)
Definition lastTradeStep {engine : JS.Engine} {R : Type} (handlers : WebSocketHandlers R)
    (cache : gmap string BookEntry) (event : PolymarketWSEvent)
  : gmap string BookEntry * list Effect :=
  match spreadOver cache (asset_id event) TEN_CENTS with
  | Throw _ =>
      (cache,
       [LogDebug "Skipping derived future price calculation for last_trade_price: error calculating spread"
          (asset_id event)])
  | Ok (cache, spreadOver10Cents) =>
      if spreadOver10Cents then
        let newPrice := JS.parseFloat_toString (price event) in
        match getBookEntry cache (asset_id event) with
        | None =>
            (cache,
             [LogDebug "Skipping derived future price calculation last_trade_price: book not found for asset"
                (asset_id event)])
        | Some bookEntry => announce handlers cache event bookEntry newPrice
        end
      else (cache, [])
  end.

Definition handleLastTradeEvents {engine : JS.Engine} {R : Type}
    (handlers : WebSocketHandlers R)
    (cache : gmap string BookEntry) (lastTradeEvents : list PolymarketWSEvent)
  : gmap string BookEntry * list Effect :=
  match lastTradeEvents with
  | [] => (cache, [])
  | _ =>
      let '(cache, derived) :=
        JS.forEach (lastTradeStep handlers) cache lastTradeEvents in
      (cache,
       invoke (onLastTradePrice handlers) (CallOnLastTradePrice lastTradeEvents)
         ++ derived)
  end.

(** The four arrays [handleMessage] fills. *)
Record Buckets := {
  bookEvents : list PolymarketWSEvent;
  lastTradeEvents : list PolymarketWSEvent;
  tickEvents : list PolymarketWSEvent;
  priceChangeEvents : list PolymarketWSEvent
}.

Definition noBuckets : Buckets :=
  {| bookEvents := []; lastTradeEvents := []; tickEvents := [];
     priceChangeEvents := [] |}.

(** The body of the bucketing loop of [handleMessage]. *)
Definition bucketStep {R : Type} (handlers : WebSocketHandlers R)
    (group : WebSocketGroup) (b : Buckets) (event : PolymarketWSEvent)
  : Buckets * list Effect :=
  if negb (JS.has (assetIds group) (asset_id event)) then (b, [])
  else if isBookEvent event then
    ({| bookEvents := bookEvents b ++ [event];
        lastTradeEvents := lastTradeEvents b; tickEvents := tickEvents b;
        priceChangeEvents := priceChangeEvents b |}, [])
  else if isLastTradePriceEvent event then
    ({| bookEvents := bookEvents b;
        lastTradeEvents := lastTradeEvents b ++ [event];
        tickEvents := tickEvents b;
        priceChangeEvents := priceChangeEvents b |}, [])
  else if isTickSizeChangeEvent event then
    ({| bookEvents := bookEvents b; lastTradeEvents := lastTradeEvents b;
        tickEvents := tickEvents b ++ [event];
        priceChangeEvents := priceChangeEvents b |}, [])
  else if isPriceChangeEvent event then
    ({| bookEvents := bookEvents b; lastTradeEvents := lastTradeEvents b;
        tickEvents := tickEvents b;
        priceChangeEvents := priceChangeEvents b ++ [event] |}, [])
  else (b, invoke (onError handlers) (CallOnError (UnknownEvent event))).

(** [handleMessage] from the parsed events on: the size filter, the
    bucketing loop, then the four batch handlers. *)
Definition handleEvents {engine : JS.Engine} {R : Type} (handlers : WebSocketHandlers R)
    (group : WebSocketGroup) (cache : gmap string BookEntry)
    (events : list PolymarketWSEvent) : gmap string BookEntry * list Effect :=
  let events :=
    List.filter (fun event => (0 <? JS._size (asset_id event))%nat) events in
  let '(b, unknown) := JS.forEach (bucketStep handlers group) noBuckets events in
  let '(cache, t1) := handleBookEvents handlers cache (bookEvents b) in
  let t2 := handleTickEvents handlers (tickEvents b) in
  let '(cache, t3) := handlePriceChangeEvents handlers cache (priceChangeEvents b) in
  let '(cache, t4) := handleLastTradeEvents handlers cache (lastTradeEvents b) in
  (cache, unknown ++ t1 ++ t2 ++ t3 ++ t4).

(** An entry of a parsed frame: an object, [null], or another value (a
    number, string, boolean or nested array). The declared type
    [PolymarketWSEvent[]] is a cast of whatever [JSON.parse] gave. *)
Inductive Entry :=
| Object (event : PolymarketWSEvent)
| Null
| Other.

(** What [JSON.parse] gives on a frame: an array, or a single value. *)
Inductive ParsedData :=
| JArray (entries : list Entry)
| JValue (entry : Entry).

(** [event.asset_id] as the callback of the size filter reads it, entry by
    entry: reading a property of [null] throws a TypeError; a number,
    string, boolean or array has no [asset_id], so the filter drops it as
    it drops an object without one. [None] is the TypeError. *)
Fixpoint readEntries (entries : list Entry) : option (list PolymarketWSEvent) :=
  match entries with
  | [] => Some []
  | Object event :: rest => cons event <$> readEntries rest
  | Other :: rest => readEntries rest
  | Null :: _ => None
  end.

(** [handleMessage] after [JSON.parse]. The size filter runs outside the
    [try]: its TypeError leaves the method before anything was done. *)
Definition handleParsed {engine : JS.Engine} {R : Type} (handlers : WebSocketHandlers R)
    (group : WebSocketGroup) (cache : gmap string BookEntry)
    (parsedData : ParsedData) : gmap string BookEntry * list Effect :=
  let entries :=
    match parsedData with
    | JArray entries => entries
    | JValue entry => [entry]
    end in
  match readEntries entries with
  | None =>
      (cache, [Uncaught "Cannot read properties of null (reading 'asset_id')"])
  | Some events => handleEvents handlers group cache events
  end.

Section HandleMessage.

(** [JSON.parse(data.toString())]; [None] when it throws. *)
Variable JSON_parse : string -> option ParsedData.

Definition handleMessage {engine : JS.Engine} {R : Type} (handlers : WebSocketHandlers R)
    (group : WebSocketGroup) (cache : gmap string BookEntry) (data : string)
  : (WebSocketGroup * gmap string BookEntry) * list Effect :=
  match JSON_parse data with
  | None => ((group, cache), invoke (onError handlers) (CallOnError (NotJSON data)))
  | Some parsedData =>
      let '(cache, effects) := handleParsed handlers group cache parsedData in
      ((group, cache), effects)
  end.

End HandleMessage.

(** *** class GroupRegistry *)

(** Modelled from the spec: GroupRegistry is not among the sources; the
    registry guards a list of groups (4.2). *)
Definition GroupRegistry : Type := list WebSocketGroup.

(** Modelled from the spec: the positions, counted from [i], of the
    groups that hold the asset (4.4). *)
Fixpoint indicesFrom (i : nat) (groups : list WebSocketGroup)
    (assetId : option string) : list nat :=
  match groups with
  | [] => []
  | g :: r =>
      if JS.has (assetIds g) assetId
      then i :: indicesFrom (S i) r assetId
      else indicesFrom (S i) r assetId
  end.

(** Modelled from the spec: [getGroupIndicesForAsset] of GroupRegistry
    (not among the sources), 4.4: the positions of the groups that hold the
    asset. *)
Definition getGroupIndicesForAsset (registry : GroupRegistry)
    (assetId : option string) : list nat :=
  indicesFrom 0 registry assetId.

(** *** class WSSubscriptionManager *)

Inductive LogLine :=
| FoundMultipleGroups (asset : option string) (group_indices : list nat).

Fixpoint filterSubscribedEvents {T : Type} `{HasAssetId T}
    (registry : GroupRegistry) (events : list T) : list T * list LogLine :=
  match events with
  | [] => ([], [])
  | event :: rest =>
      let groupIndices := getGroupIndicesForAsset registry (assetIdOf event) in
      let warned :=
        if (1 <? length groupIndices)%nat
        then [FoundMultipleGroups (assetIdOf event) groupIndices]
        else [] in
      let '(kept, logged) := filterSubscribedEvents registry rest in
      (if (0 <? length groupIndices)%nat then event :: kept else kept,
       warned ++ logged)
  end.

(** What a handler of the manager's own record does: the lines its filter
    logged and, when the user's callback ran, what that did. *)
Definition Wrapped (R : Type) : Type := list LogLine * option R.

Definition setupHandlers {R : Type} (registry : GroupRegistry)
    (userHandlers : WebSocketHandlers R) : WebSocketHandlers (Wrapped R) :=
  {| onBook := Some (fun events =>
       BaseSubscriptionManager.actOnSubscribedEvents
         (filterSubscribedEvents registry) events (onBook userHandlers));
     onLastTradePrice := Some (fun events =>
       BaseSubscriptionManager.actOnSubscribedEvents
         (filterSubscribedEvents registry) events (onLastTradePrice userHandlers));
     onTickSizeChange := Some (fun events =>
       BaseSubscriptionManager.actOnSubscribedEvents
         (filterSubscribedEvents registry) events (onTickSizeChange userHandlers));
     onPriceChange := Some (fun events =>
       BaseSubscriptionManager.actOnSubscribedEvents
         (filterSubscribedEvents registry) events (onPriceChange userHandlers));
     onPolymarketPriceUpdate := Some (fun events =>
       BaseSubscriptionManager.actOnSubscribedEvents
         (filterSubscribedEvents registry) events
         (onPolymarketPriceUpdate userHandlers));
     onWSClose :=
       option_map (fun f id code reason => ([], Some (f id code reason)))
         (onWSClose userHandlers);
     onWSOpen :=
       option_map (fun f id keys => ([], Some (f id keys))) (onWSOpen userHandlers);
     onError := option_map (fun f err => ([], Some (f err))) (onError userHandlers) |}.

Definition getReconnectAndCleanupIntervalMs
    (options : BaseSubscriptionManager.Options) : option JS.number :=
  BaseSubscriptionManager.reconnectAndCleanupIntervalMs options.

Definition getMaxMarketsPerWS (options : BaseSubscriptionManager.Options)
  : option JS.number :=
  BaseSubscriptionManager.maxMarketsPerWS options.

(** [new WSSubscriptionManager(userHandlers, options?)]:
    [super(userHandlers, options || {})], no default options passed. *)
Definition constructor (options : option BaseSubscriptionManager.Options)
  : BaseSubscriptionManager.Settings :=
  BaseSubscriptionManager.constructor
    getReconnectAndCleanupIntervalMs getMaxMarketsPerWS
    (default BaseSubscriptionManager.noOptions options)
    BaseSubscriptionManager.noOptions.

(** *** class MarketWSSubscriptionManager *)

(** Modelled from the spec: the default options of class
    MarketWSSubscriptionManager, the market manager the package exports;
    its file is not among the sources. Section 6: maxMarketsPerWS defaults
    to "effectively unbounded" for market, which the sources write
    [Number.MAX_SAFE_INTEGER] ("Polymarket removed the 100 token
    subscription limit"); reconnectAndCleanupIntervalMs defaults to 10000,
    the base class's own default. *)
Definition marketDefaultOptions : BaseSubscriptionManager.Options :=
  {| BaseSubscriptionManager.reconnectAndCleanupIntervalMs := None;
     BaseSubscriptionManager.maxMarketsPerWS := Some JS.MAX_SAFE_INTEGER |}.

(** Modelled from the spec: [new MarketWSSubscriptionManager(userHandlers,
    options?)] (file not among the sources): the constructor of
    BaseSubscriptionManager, which is, given the options and the market
    defaults through the [defaultOptions] argument it has for them. *)
Definition marketConstructor (options : option BaseSubscriptionManager.Options)
  : BaseSubscriptionManager.Settings :=
  BaseSubscriptionManager.constructor
    getReconnectAndCleanupIntervalMs getMaxMarketsPerWS
    (default BaseSubscriptionManager.noOptions options)
    marketDefaultOptions.

End Market.

(** ** The user channel *)

Module User.

(** Modelled from the spec: the user event declarations of
    types/PolymarketWebSocket are not among the sources; order and trade
    events are discriminated by [event_type] and carry a [market]. *)
Record PolymarketUserWSEvent := {
  event_type : option string;
  market : option string;
  id : string
}.

(** An entry of a parsed frame: an object, or anything else (null, a
    number, a string). *)
Inductive Entry :=
| Object (event : PolymarketUserWSEvent)
| NotAnObject.

(** Modelled from the spec: user events are discriminated by
    [event_type] (section 6); the type guards are not among the sources. *)
Definition hasEventType (kind : string) (event : PolymarketUserWSEvent) : bool :=
  match event_type event with
  | Some k => String.eqb k kind
  | None => false
  end.

(** Modelled from the spec: the type guard [isOrderEvent] (not among the
    sources): [event_type] is "order". *)
Definition isOrderEvent : PolymarketUserWSEvent -> bool := hasEventType "order".

(** Modelled from the spec: the type guard [isTradeEvent] (not among the
    sources): [event_type] is "trade". *)
Definition isTradeEvent : PolymarketUserWSEvent -> bool := hasEventType "trade".

Record ApiCredentials := { apiKey : string; secret : string; passphrase : string }.

(** [UserWebSocketGroup] (types/WebSocketSubscriptions): the fields the
    sources read and write; an absent [subscribeToAll] is false. *)
Record UserWebSocketGroup := {
  groupId : string;
  marketIds : list string;
  status : WebSocketStatus;
  wsClient : option WebSocket;
  auth : ApiCredentials;
  subscribeToAll : bool
}.

Inductive Error :=
| NotJSON (data : string)
| ErrorClosing (groupId : string).

Record UserWebSocketHandlers (R : Type) := {
  onOrder : option (list PolymarketUserWSEvent -> R);
  onTrade : option (list PolymarketUserWSEvent -> R);
  onWSClose : option (string -> Z -> string -> R);
  onWSOpen : option (string -> list string -> R);
  onError : option (Error -> R)
}.
Arguments onOrder {R} _.
Arguments onTrade {R} _.
Arguments onWSClose {R} _.
Arguments onWSOpen {R} _.
Arguments onError {R} _.

Record SubscriptionMessage := {
  markets : list string;
  type : string;
  message_auth : ApiCredentials
}.

Inductive Effect :=
| CallOnOrder (events : list PolymarketUserWSEvent)
| CallOnTrade (events : list PolymarketUserWSEvent)
| CallOnWSOpen (groupId : string) (keys : list string)
| CallOnError (err : Error)
| WsSend (message : SubscriptionMessage)
| WsClose (groupId : string)
| StartPingInterval
| LogWarn (message : string).

Definition invoke {X : Type} (handler : option X) (call : Effect) : list Effect :=
  match handler with
  | Some _ => [call]
  | None => []
  end.

(** *** class UserGroupSocket *)

Definition setGroupStatus (group : UserWebSocketGroup) (s : WebSocketStatus)
  : UserWebSocketGroup :=
  {| groupId := groupId group; marketIds := marketIds group; status := s;
     wsClient := wsClient group; auth := auth group;
     subscribeToAll := subscribeToAll group |}.

Definition getWebSocketClient (group : UserWebSocketGroup) : option WebSocket :=
  wsClient group.

Definition shouldCleanup (group : UserWebSocketGroup) : bool :=
  (length (marketIds group) =? 0)%nat && negb (subscribeToAll group).

Definition createSubscriptionMessage (group : UserWebSocketGroup)
  : SubscriptionMessage :=
  {| markets := marketIds group; type := "USER";
     message_auth :=
       {| apiKey := apiKey (auth group); secret := secret (auth group);
          passphrase := passphrase (auth group) |} |}.

Definition handleOpen {R : Type} (handlers : UserWebSocketHandlers R)
    (group : UserWebSocketGroup) : UserWebSocketGroup * list Effect :=
  if shouldCleanup group then (setGroupStatus group CLEANUP, [])
  else
    match getWebSocketClient group with
    | None => (setGroupStatus group DEAD, [])
    | Some client =>
        if sendThrows client
        then (setGroupStatus group DEAD,
              [LogWarn "Failed to send subscription message on WebSocket open"])
        else
          let group := setGroupStatus group ALIVE in
          (group,
           WsSend (createSubscriptionMessage group)
             :: invoke (onWSOpen handlers)
                  (CallOnWSOpen (groupId group) (marketIds group))
             ++ [StartPingInterval])
    end.

(** [event && typeof event === 'object' && event.event_type] *)
Definition validStructure (entry : Entry) : option PolymarketUserWSEvent :=
  match entry with
  | Object event =>
      match event_type event with
      | Some k => if (0 <? String.length k)%nat then Some event else None
      | None => None
      end
  | NotAnObject => None
  end.

Record Buckets := {
  orderEvents : list PolymarketUserWSEvent;
  tradeEvents : list PolymarketUserWSEvent
}.

(** The body of the bucketing loop of [handleMessage]. *)
Definition bucketStep (b : Buckets) (event : PolymarketUserWSEvent) : Buckets :=
  if isOrderEvent event then
    {| orderEvents := orderEvents b ++ [event]; tradeEvents := tradeEvents b |}
  else if isTradeEvent event then
    {| orderEvents := orderEvents b; tradeEvents := tradeEvents b ++ [event] |}
  else b.

(** [handleMessage] from the parsed entries on. *)
Definition handleEntries {R : Type} (handlers : UserWebSocketHandlers R)
    (entries : list Entry) : list Effect :=
  let events := omap validStructure entries in
  let b := fold_left bucketStep events {| orderEvents := []; tradeEvents := [] |} in
  (if (0 <? length (orderEvents b))%nat
   then invoke (onOrder handlers) (CallOnOrder (orderEvents b)) else [])
    ++ (if (0 <? length (tradeEvents b))%nat
        then invoke (onTrade handlers) (CallOnTrade (tradeEvents b)) else []).

Inductive ParsedData :=
| JArray (entries : list Entry)
| JValue (entry : Entry).

Section HandleMessage.

(** [JSON.parse(data.toString())]; [None] when it throws. *)
Variable JSON_parse : string -> option ParsedData.

Definition handleMessage {R : Type} (handlers : UserWebSocketHandlers R)
    (group : UserWebSocketGroup) (data : string)
  : UserWebSocketGroup * list Effect :=
  match JSON_parse data with
  | None => (group, invoke (onError handlers) (CallOnError (NotJSON data)))
  | Some parsedData =>
      let entries :=
        match parsedData with
        | JArray entries => entries
        | JValue entry => [entry]
        end in
      (group, handleEntries handlers entries)
  end.

End HandleMessage.

(** *** class UserGroupRegistry *)

(** Modelled from the spec: UserGroupRegistry is not among the sources; the
    registry guards a list of groups (4.2). *)
Definition UserGroupRegistry : Type := list UserWebSocketGroup.

(** Modelled from the spec: [hasSubscribeToAll()] of UserGroupRegistry
    (not among the sources), 4.2: some group has [subscribeToAll]. *)
Definition hasSubscribeToAll (registry : UserGroupRegistry) : bool :=
  existsb subscribeToAll registry.

(** Modelled from the spec: [hasMarket(id)] of UserGroupRegistry (not
    among the sources), 4.2: some group holds the market. *)
Definition hasMarket (registry : UserGroupRegistry) (marketId : string) : bool :=
  existsb (fun g => existsb (String.eqb marketId) (marketIds g)) registry.

(** *** class UserWSSubscriptionManager *)

(** The constant its file declares next to the class ("Polymarket removed
    the 100 token subscription limit"); nothing reads it. *)
Definition DEFAULT_MAX_MARKETS_PER_WS : JS.number := JS.MAX_SAFE_INTEGER.

(** The user manager's filter logs nothing. *)
Inductive LogLine : Set := .

Definition filterSubscribedEvents (registry : UserGroupRegistry)
    (events : list PolymarketUserWSEvent)
  : list PolymarketUserWSEvent * list LogLine :=
  if hasSubscribeToAll registry then (events, [])
  else
    (List.filter
       (fun event =>
          let marketId := default "" (market event) in
          hasMarket registry marketId)
       events, []).

Definition setupHandlers {R : Type} (registry : UserGroupRegistry)
    (userHandlers : UserWebSocketHandlers R)
  : UserWebSocketHandlers (list LogLine * option R) :=
  {| onOrder := Some (fun events =>
       BaseSubscriptionManager.actOnSubscribedEvents
         (filterSubscribedEvents registry) events (onOrder userHandlers));
     onTrade := Some (fun events =>
       BaseSubscriptionManager.actOnSubscribedEvents
         (filterSubscribedEvents registry) events (onTrade userHandlers));
     onWSClose :=
       option_map (fun f id code reason => ([], Some (f id code reason)))
         (onWSClose userHandlers);
     onWSOpen :=
       option_map (fun f id keys => ([], Some (f id keys))) (onWSOpen userHandlers);
     onError := option_map (fun f err => ([], Some (f err))) (onError userHandlers) |}.

(** [disconnectGroup(group)]: [WsClose] is the call of [close()] on the
    group's socket, whether it returns or throws. *)
Definition disconnectGroup {R : Type} (handlers : UserWebSocketHandlers R)
    (group : UserWebSocketGroup) : list Effect :=
  match wsClient group with
  | Some client =>
      WsClose (groupId group)
        :: (if closeThrows client
            then invoke (onError handlers)
                   (CallOnError (ErrorClosing (groupId group)))
            else [])
  | None => []
  end.

Definition getReconnectAndCleanupIntervalMs
    (options : BaseSubscriptionManager.Options) : option JS.number :=
  BaseSubscriptionManager.reconnectAndCleanupIntervalMs options.

Definition getMaxMarketsPerWS (options : BaseSubscriptionManager.Options)
  : option JS.number :=
  BaseSubscriptionManager.maxMarketsPerWS options.

(** [new UserWSSubscriptionManager(userHandlers, options)]:
    [super(userHandlers, options)], no default options passed. *)
Definition constructor (options : BaseSubscriptionManager.Options)
  : BaseSubscriptionManager.Settings :=
  BaseSubscriptionManager.constructor
    getReconnectAndCleanupIntervalMs getMaxMarketsPerWS
    options BaseSubscriptionManager.noOptions.

End User.

(** ** class BaseGroupSocket *)

Module BaseGroupSocket.

(** What the methods of the base class do besides changing the group. *)
Inductive Effect :=
| LogInfo (message : string)
| Schedule (url : string)
| RemoveAllListeners
| On (event : string)
| Ping
| CallOnError (message : string)
| CallOnWSClose (groupId : string) (code : Z) (reason : string).

(** The abstract methods of the class: the two subclasses implement them
    over their own group and handler types. *)
Class Methods (G : Type) := {
  getWebSocketUrl : string;
  getGroupStatus : G -> WebSocketStatus;
  setGroupStatus : G -> WebSocketStatus -> G;
  getWebSocketClient : G -> option WebSocket;
  setWebSocketClient : G -> option WebSocket -> G;
  shouldCleanup : G -> bool;
  getGroupId : G -> string;
  handleError : G -> string -> list Effect;
  handleClose : G -> Z -> string -> list Effect
}.
Arguments getWebSocketUrl G {_}.

(** What [limiter.schedule(...)] gives: the new client, or a rejection with
    its message. *)
Inductive Dial :=
| Dialed (client : WebSocket)
| Rejected (message : string).

(** A socket object: its group; [this.pingInterval], the handle of the
    interval it set up last (undefined before the first); the intervals it
    has set up that are still running, by handle; and how many it has set
    up, which is the next handle. [startPingInterval] stores the new handle
    over the old one without clearing it, so an interval can be running
    that the socket no longer holds. *)
Record Socket (G : Type) := {
  group : G;
  pingInterval : option nat;
  intervals : list nat;
  intervalsMade : nat
}.
Arguments group {G} _.
Arguments pingInterval {G} _.
Arguments intervals {G} _.
Arguments intervalsMade {G} _.

(** [new ...GroupSocket(group, limiter, handlers)] *)
Definition newSocket {G : Type} (g : G) : Socket G :=
  {| group := g; pingInterval := None; intervals := []; intervalsMade := 0 |}.

(** [clearInterval(handle)] on the running intervals; nothing happens for
    undefined or for a handle that is not running. *)
Definition clearInterval (handle : option nat) (running : list nat) : list nat :=
  match handle with
  | Some h => List.filter (fun i => negb (Nat.eqb i h)) running
  | None => running
  end.

(** [this.pingInterval = setInterval(...)], the assignment
    [startPingInterval] is. *)
Definition startPingInterval {G : Type} (s : Socket G) : Socket G :=
  {| group := group s;
     pingInterval := Some (intervalsMade s);
     intervals := intervalsMade s :: intervals s;
     intervalsMade := S (intervalsMade s) |}.

(** What a call of [connect] leaves: the socket, what it did, and the error
    it throws, if any. *)
Record Outcome (G : Type) := {
  socket : Socket G;
  effects : list Effect;
  thrown : option string
}.
Arguments socket {G} _.
Arguments effects {G} _.
Arguments thrown {G} _.

Section Base.
Context {G : Type} `{Methods G}.

Definition withGroup (s : Socket G) (g : G) : Socket G :=
  {| group := g; pingInterval := pingInterval s; intervals := intervals s;
     intervalsMade := intervalsMade s |}.

Definition withStatus (s : Socket G) (st : WebSocketStatus) : Socket G :=
  withGroup s (setGroupStatus (group s) st).

(** [setGroupStatus(status); clearInterval(this.pingInterval)] *)
Definition stopWith (s : Socket G) (st : WebSocketStatus) : Socket G :=
  {| group := setGroupStatus (group s) st;
     pingInterval := pingInterval s;
     intervals := clearInterval (pingInterval s) (intervals s);
     intervalsMade := intervalsMade s |}.

Definition setupEventHandlers (s : Socket G) : Socket G * list Effect :=
  let wsClient := getWebSocketClient (group s) in
  let bound :=
    match wsClient with
    | Some _ =>
        [RemoveAllListeners; On "open"; On "message"; On "pong"; On "error";
         On "close"]
    | None => []
    end in
  if shouldCleanup (group s) then (withStatus s CLEANUP, bound)
  else
    match wsClient with
    | None => (withStatus s DEAD, bound)
    | Some _ => (s, bound)
    end.

(** [connect()]. Between the test of [shouldCleanup()] and what follows
    the method awaits the limiter and the dial; [meanwhile] is what the
    rest of the program did to the group in that time (the identity when
    nothing touched it). *)
Definition connect (dial : Dial) (meanwhile : G -> G) (s : Socket G) : Outcome G :=
  if shouldCleanup (group s)
  then {| socket := withStatus s CLEANUP; effects := []; thrown := None |}
  else
    let s := withGroup s (meanwhile (group s)) in
    match dial with
    | Dialed ws =>
        let s := withGroup s (setWebSocketClient (group s) (Some ws)) in
        let '(s, bound) := setupEventHandlers s in
        {| socket := s;
           effects :=
             LogInfo "Connecting to WebSocket" :: Schedule (getWebSocketUrl G)
               :: bound;
           thrown := None |}
    | Rejected err =>
        {| socket := withStatus s DEAD;
           effects :=
             [LogInfo "Connecting to WebSocket"; Schedule (getWebSocketUrl G)];
           thrown := Some err |}
    end.

(** One turn of an interval [startPingInterval] has set up; whichever
    interval fires, the handle it clears is the one in [this.pingInterval]. *)
Definition pingTick (s : Socket G) : Socket G * list Effect :=
  if shouldCleanup (group s) then (stopWith s CLEANUP, [])
  else
    match getWebSocketClient (group s) with
    | None => (stopWith s DEAD, [])
    | Some _ => (s, [Ping])
    end.

(** The listener [setupEventHandlers] binds to 'error'. *)
Definition errorListener (s : Socket G) (message : string)
  : Socket G * list Effect :=
  let s := stopWith s DEAD in
  (s, handleError (group s) message).

(** The listener [setupEventHandlers] binds to 'close';
    [reason?.toString() || ''] is the reason, or '' without one. *)
Definition closeListener (s : Socket G) (code : Z) (reason : option string)
  : Socket G * list Effect :=
  let s := stopWith s DEAD in
  (s, handleClose (group s) code (default "" reason)).

End Base.

End BaseGroupSocket.

(** ** The two subclasses as sockets *)

Module Sockets.
Import BaseGroupSocket.

Definition CLOB_WSS_URL : string :=
  "wss://ws-subscriptions-clob.polymarket.com/ws/market".

Definition CLOB_USER_WSS_URL : string :=
  "wss://ws-subscriptions-clob.polymarket.com/ws/user".

(** [handlers.onError?.(new Error(`WebSocket error for group ...`))], as
    both subclasses write [handleError]. *)
Definition reportError {X : Type} (onError : option X) (groupId message : string)
  : list Effect :=
  match onError with
  | Some _ =>
      [CallOnError ("WebSocket error for group " +:+ groupId +:+ ": " +:+ message)]
  | None => []
  end.

(** [handlers.onWSClose?.(groupId, code, reason)], as both subclasses
    write [handleClose]. *)
Definition reportClose {X : Type} (onWSClose : option X) (groupId : string)
    (code : Z) (reason : string) : list Effect :=
  match onWSClose with
  | Some _ => [CallOnWSClose groupId code reason]
  | None => []
  end.

(** The methods of [MarketGroupSocket]. *)
#[export] Instance marketMethods {R : Type} (handlers : Market.WebSocketHandlers R)
  : Methods Market.WebSocketGroup :=
  {| getWebSocketUrl := CLOB_WSS_URL;
     getGroupStatus := Market.status;
     setGroupStatus := Market.setGroupStatus;
     getWebSocketClient := Market.getWebSocketClient;
     setWebSocketClient := fun g client =>
       {| Market.groupId := Market.groupId g; Market.assetIds := Market.assetIds g;
          Market.status := Market.status g; Market.wsClient := client |};
     shouldCleanup := Market.shouldCleanup;
     getGroupId := Market.groupId;
     handleError := fun g message =>
       reportError (Market.onError handlers) (Market.groupId g) message;
     handleClose := fun g code reason =>
       reportClose (Market.onWSClose handlers) (Market.groupId g) code reason |}.

(** The methods of [UserGroupSocket]. *)
#[export] Instance userMethods {R : Type} (handlers : User.UserWebSocketHandlers R)
  : Methods User.UserWebSocketGroup :=
  {| getWebSocketUrl := CLOB_USER_WSS_URL;
     getGroupStatus := User.status;
     setGroupStatus := User.setGroupStatus;
     getWebSocketClient := User.getWebSocketClient;
     setWebSocketClient := fun g client =>
       {| User.groupId := User.groupId g; User.marketIds := User.marketIds g;
          User.status := User.status g; User.wsClient := client;
          User.auth := User.auth g; User.subscribeToAll := User.subscribeToAll g |};
     shouldCleanup := User.shouldCleanup;
     getGroupId := User.groupId;
     handleError := fun g message =>
       reportError (User.onError handlers) (User.groupId g) message;
     handleClose := fun g code reason =>
       reportClose (User.onWSClose handlers) (User.groupId g) code reason |}.

(** [MarketGroupSocket.connect], the override, written against the group's
    own fields; [meanwhile] as for the base method. *)
Definition marketConnect {R : Type} (handlers : Market.WebSocketHandlers R)
    (dial : Dial) (meanwhile : Market.WebSocketGroup -> Market.WebSocketGroup)
    (s : Socket Market.WebSocketGroup)
  : Outcome Market.WebSocketGroup :=
  if (length (Market.assetIds (group s)) =? 0)%nat
  then {| socket :=
            withGroup s
              {| Market.groupId := Market.groupId (group s);
                 Market.assetIds := Market.assetIds (group s);
                 Market.status := CLEANUP;
                 Market.wsClient := Market.wsClient (group s) |};
          effects := []; thrown := None |}
  else
    let s := withGroup s (meanwhile (group s)) in
    match dial with
    | Dialed ws =>
        let s :=
          withGroup s
            {| Market.groupId := Market.groupId (group s);
               Market.assetIds := Market.assetIds (group s);
               Market.status := Market.status (group s);
               Market.wsClient := Some ws |} in
        let '(s, bound) := setupEventHandlers (H := marketMethods handlers) s in
        {| socket := s;
           effects :=
             LogInfo "Connecting to CLOB WebSocket" :: Schedule CLOB_WSS_URL
               :: bound;
           thrown := None |}
    | Rejected err =>
        {| socket :=
             withGroup s
               {| Market.groupId := Market.groupId (group s);
                  Market.assetIds := Market.assetIds (group s);
                  Market.status := DEAD;
                  Market.wsClient := Market.wsClient (group s) |};
           effects :=
             [LogInfo "Connecting to CLOB WebSocket"; Schedule CLOB_WSS_URL];
           thrown := Some err |}
    end.

(** What happens to a socket object: [connect] is called (and nothing else
    touches the group while it dials), or the websocket fires one of the
    five events bound to it, or the timer fires the interval of some
    handle. *)
Inductive Event :=
| ConnectCall (dial : Dial)
| OpenEvent
| MessageEvent (data : string)
| PongEvent
| ErrorEvent (message : string)
| CloseEvent (code : Z) (reason : option string)
| IntervalFires (handle : nat).

(** The interval of a handle fires only while it is running. *)
Definition isRunning {G : Type} (s : Socket G) (handle : nat) : bool :=
  existsb (Nat.eqb handle) (intervals s).

(** The socket once [handleOpen] has left the group [g]; [started] says
    whether it reached [startPingInterval()]. *)
Definition opened {G : Type} (s : Socket G) (g : G) (started : bool) : Socket G :=
  if started then startPingInterval (withGroup s g) else withGroup s g.

Definition startsPing (eff : User.Effect) : bool :=
  match eff with User.StartPingInterval => true | _ => false end.

Definition marketStartsPing (eff : Market.Effect) : bool :=
  match eff with Market.StartPingInterval => true | _ => false end.

Section UserSocket.
Context {R : Type}.
Variable JSON_parse : string -> option User.ParsedData.
Variable handlers : User.UserWebSocketHandlers R.

(** One event in the life of a [UserGroupSocket]. *)
Definition userStep (s : Socket User.UserWebSocketGroup) (ev : Event)
  : Socket User.UserWebSocketGroup * list (Effect + User.Effect) :=
  match ev with
  | ConnectCall dial =>
      let o := connect (H := userMethods handlers) dial id s in
      (socket o, map inl (effects o))
  | OpenEvent =>
      let '(g, t) := User.handleOpen handlers (group s) in
      (opened s g (existsb startsPing t), map inr t)
  | MessageEvent data =>
      let '(g, t) := User.handleMessage JSON_parse handlers (group s) data in
      (withGroup s g, map inr t)
  | PongEvent => (s, [])
  | ErrorEvent message =>
      let '(s, t) := errorListener (H := userMethods handlers) s message in
      (s, map inl t)
  | CloseEvent code reason =>
      let '(s, t) := closeListener (H := userMethods handlers) s code reason in
      (s, map inl t)
  | IntervalFires handle =>
      if isRunning s handle
      then let '(s, t) := pingTick (H := userMethods handlers) s in (s, map inl t)
      else (s, [])
  end.

End UserSocket.

Section MarketSocket.
Context {engine : JS.Engine} {R : Type}.
Variable JSON_parse : string -> option Market.ParsedData.
Variable handlers : Market.WebSocketHandlers R.
Variable initialDump : bool.

(** One event in the life of a [MarketGroupSocket]; the book cache is the
    manager's, shared by its sockets. *)
Definition marketStep
    (s : Socket Market.WebSocketGroup * gmap string Market.OrderBookCache.BookEntry)
    (ev : Event)
  : (Socket Market.WebSocketGroup * gmap string Market.OrderBookCache.BookEntry)
    * list (Effect + Market.Effect) :=
  let '(sock, cache) := s in
  match ev with
  | ConnectCall dial =>
      let o := marketConnect handlers dial id sock in
      ((socket o, cache), map inl (effects o))
  | OpenEvent =>
      let '(g, t) := Market.handleOpen handlers initialDump (group sock) in
      ((opened sock g (existsb marketStartsPing t), cache), map inr t)
  | MessageEvent data =>
      let '((g, cache), t) :=
        Market.handleMessage JSON_parse handlers (group sock) cache data in
      ((withGroup sock g, cache), map inr t)
  | PongEvent => (s, [])
  | ErrorEvent message =>
      let '(sock, t) := errorListener (H := marketMethods handlers) sock message in
      ((sock, cache), map inl t)
  | CloseEvent code reason =>
      let '(sock, t) :=
        closeListener (H := marketMethods handlers) sock code reason in
      ((sock, cache), map inl t)
  | IntervalFires handle =>
      if isRunning sock handle
      then let '(sock, t) := pingTick (H := marketMethods handlers) sock in
           ((sock, cache), map inl t)
      else (s, [])
  end.

End MarketSocket.

End Sockets.

(** ** The managers' dialing and teardown *)

Module Managers.
Import BaseGroupSocket.

Section Dialing.
Context {G : Type} `{Methods G}.

(** Modelled from the spec: the concrete registries are not among the
    sources; BaseGroupRegistry declares [findGroupById] as "returns the
    group if found, otherwise undefined" (4.2). *)
Definition findGroupById (registry : list G) (groupId : string) : option G :=
  List.find (fun g => String.eqb (getGroupId g) groupId) registry.

(** The group a socket works on is the registry's own object: what the
    socket writes shows in the registry. *)
Fixpoint writeBack (registry : list G) (groupId : string) (g' : G) : list G :=
  match registry with
  | [] => []
  | g :: rest =>
      if String.eqb (getGroupId g) groupId then g' :: rest
      else g :: writeBack rest groupId g'
  end.

(** [handlers.onError?.(error)], the [handleError] of both managers. *)
Definition managerError {X : Type} (onError : option X) (message : string)
  : list Effect :=
  match onError with
  | Some _ => [CallOnError message]
  | None => []
  end.

(** [BaseSubscriptionManager.createWebSocketClient(groupId, handlers)], for
    a subclass whose sockets connect with [connectGroupSocket]: a new socket
    object is made for the group at every call. *)
Definition createWebSocketClient {X : Type} (onError : option X)
    (connectGroupSocket : Dial -> Socket G -> Outcome G)
    (registry : list G) (groupId : string) (dial : Dial)
  : list G * list Effect :=
  match findGroupById registry groupId with
  | None =>
      (registry,
       managerError onError ("Group " +:+ groupId +:+ " not found in registry"))
  | Some g =>
      let o := connectGroupSocket dial (newSocket g) in
      (writeBack registry groupId (group (socket o)),
       effects o
         ++ match thrown o with
            | Some message =>
                managerError onError
                  ("Error creating WebSocket client for group " +:+ groupId
                     +:+ ": " +:+ message)
            | None => []
            end)
  end.

(** The loop both [reconnectAndCleanupGroups] and [addSubscriptions] run
    over the group ids the registry gave them; [dial] says how the dial for
    each group goes. *)
Definition dialAll {X : Type} (onError : option X)
    (connectGroupSocket : Dial -> Socket G -> Outcome G)
    (dial : string -> Dial) (registry : list G) (groupIds : list string)
  : list G * list Effect :=
  JS.forEach
    (fun reg groupId =>
       createWebSocketClient onError connectGroupSocket reg groupId (dial groupId))
    registry groupIds.

End Dialing.

(** [BaseGroupRegistry.clearAllGroups()]: the removed groups and the list
    left behind. *)
Definition clearAllGroups {G : Type} (groups : list G) : list G * list G :=
  (groups, []).

(** What [clearState] does, in order. *)
Inductive Teardown :=
| ClearReconnectInterval
| Closing (eff : User.Effect).

(** [clearState()] of the user manager: the reaper is stopped, the registry
    emptied, then each removed group is disconnected; the user manager has
    no further cleanup. *)
Definition userClearState {R : Type} (handlers : User.UserWebSocketHandlers R)
    (registry : list User.UserWebSocketGroup)
  : list User.UserWebSocketGroup * list Teardown :=
  let '(removedGroups, registry) := clearAllGroups registry in
  (registry,
   ClearReconnectInterval
     :: flat_map (fun g => map Closing (User.disconnectGroup handlers g))
          removedGroups).

End Managers.

(** * Properties *)

(** ** Vocabulary of the statements *)

Module Spec.
Import Market Market.OrderBookCache.

(** An event passes the two guards in front of the bucketing of the market
    socket: its [asset_id] is a non-empty string and the group holds it. *)
Definition accepted (group : WebSocketGroup) (event : PolymarketWSEvent) : bool :=
  (0 <? JS._size (asset_id event))%nat && JS.has (assetIds group) (asset_id event).

(** The kind of a market event is one of the four the socket routes. *)
Definition recognized (event : PolymarketWSEvent) : bool :=
  isBookEvent event || isLastTradePriceEvent event
  || isTickSizeChangeEvent event || isPriceChangeEvent event.

(** The events an effect is about. *)
Definition mentions (eff : Effect) : list PolymarketWSEvent :=
  match eff with
  | CallOnBook events | CallOnLastTradePrice events
  | CallOnTickSizeChange events | CallOnPriceChange events => events
  | CallOnPolymarketPriceUpdate updates => map pu_triggeringEvent updates
  | CallOnError (UnknownEvent event) => [event]
  | CacheReplaceBook event | CacheUpsertPriceChange event => [event]
  | _ => []
  end.

(** The events an effect hands to a bucket, the cache or a price update;
    an [onError] call hands its event to none of them. *)
Definition handledBy (eff : Effect) : list PolymarketWSEvent :=
  match eff with
  | CallOnError _ => []
  | _ => mentions eff
  end.

(** Some group of the registry holds the asset. *)
Definition heldBySomeGroup (registry : GroupRegistry) (assetId : option string)
  : bool :=
  existsb (fun g => JS.has (assetIds g) assetId) registry.

(** Some group of the user registry holds the market. *)
Definition marketSubscribed (registry : User.UserGroupRegistry)
    (event : User.PolymarketUserWSEvent) : bool :=
  existsb (fun g => existsb (String.eqb (default "" (User.market event)))
                      (User.marketIds g)) registry.

(** The arguments of the [onPolymarketPriceUpdate] calls of a run. *)
Definition priceUpdatesOf (t : list Effect)
  : list (list PolymarketPriceUpdateEvent) :=
  omap (fun eff =>
          match eff with
          | CallOnPolymarketPriceUpdate updates => Some updates
          | _ => None
          end) t.

(** The arguments of the [onError] calls of a run. *)
Definition errorsOf (t : list Effect) : list Error :=
  omap (fun eff => match eff with CallOnError err => Some err | _ => None end) t.

Definition isCallOnError (eff : Effect) : bool :=
  match eff with CallOnError _ => true | _ => false end.

Definition isCacheReplaceBook (eff : Effect) : bool :=
  match eff with CacheReplaceBook _ => true | _ => false end.

Definition isCacheUpsertPriceChange (eff : Effect) : bool :=
  match eff with CacheUpsertPriceChange _ => true | _ => false end.

Definition isCallOnBook (eff : Effect) : bool :=
  match eff with CallOnBook _ => true | _ => false end.

Definition isCallOnPriceChange (eff : Effect) : bool :=
  match eff with CallOnPriceChange _ => true | _ => false end.

(** A call of one of the four batch handlers. *)
Definition isBatchCall (eff : Effect) : bool :=
  match eff with
  | CallOnBook _ | CallOnLastTradePrice _
  | CallOnTickSizeChange _ | CallOnPriceChange _ => true
  | _ => false
  end.

(** What stays inside one of the two derived-price loops: neither a batch
    handler, nor [onError], nor a snapshot replacement. *)
Definition insideLoop (eff : Effect) : bool :=
  match eff with
  | CacheUpsertPriceChange _ | CallOnPolymarketPriceUpdate _ | LogDebug _ _ => true
  | _ => false
  end.

(** In the run [t] every effect matching [p] happens before every effect
    matching [q]. *)
Definition allBefore (p q : Effect -> bool) (t : list Effect) : Prop :=
  forall (i j : nat) (x y : Effect),
    t !! i = Some x -> p x = true ->
    t !! j = Some y -> q y = true -> (i < j)%nat.

(** The events of a frame that land in the bucket of a kind. *)
Definition bucketOf (group : WebSocketGroup) (isKind : PolymarketWSEvent -> bool)
    (events : list PolymarketWSEvent) : list PolymarketWSEvent :=
  List.filter (fun e => accepted group e && isKind e) events.

(** The [onError] calls of the bucketing loop. *)
Definition unknownCalls {R : Type} (handlers : WebSocketHandlers R)
    (group : WebSocketGroup) (events : list PolymarketWSEvent) : list Effect :=
  flat_map (fun e =>
              if accepted group e && negb (recognized e)
              then invoke (onError handlers) (CallOnError (UnknownEvent e))
              else []) events.

(** The buckets after the bucketing loop has run over [events]. *)
Definition growBuckets (group : WebSocketGroup) (b : Buckets)
    (events : list PolymarketWSEvent) : Buckets :=
  {| bookEvents :=
       bookEvents b
         ++ List.filter (fun e => JS.has (assetIds group) (asset_id e) && isBookEvent e) events;
     lastTradeEvents :=
       lastTradeEvents b
         ++ List.filter (fun e => JS.has (assetIds group) (asset_id e) && isLastTradePriceEvent e) events;
     tickEvents :=
       tickEvents b
         ++ List.filter (fun e => JS.has (assetIds group) (asset_id e) && isTickSizeChangeEvent e) events;
     priceChangeEvents :=
       priceChangeEvents b
         ++ List.filter (fun e => JS.has (assetIds group) (asset_id e) && isPriceChangeEvent e) events |}.

(** Every effect of a run is about events that satisfy [P]. *)
Definition aboutOnly (P : PolymarketWSEvent -> Prop) (t : list Effect) : Prop :=
  Forall (fun eff => Forall P (mentions eff)) t.

(** An [onPolymarketPriceUpdate] call carries one event. *)
Definition singleUpdate (eff : Effect) : Prop :=
  match eff with
  | CallOnPolymarketPriceUpdate updates => length updates = 1%nat
  | _ => True
  end.

(** What follows the cache call inside a derived-price loop for the event
    [e]: a price update of that one event, or a debug line. *)
Definition derivedFor (e : PolymarketWSEvent) (eff : Effect) : Prop :=
  match eff with
  | CallOnPolymarketPriceUpdate [update] => pu_triggeringEvent update = e
  | LogDebug _ _ => True
  | _ => False
  end.

Definition isCallOnLastTradePrice (eff : Effect) : bool :=
  match eff with CallOnLastTradePrice _ => true | _ => false end.

(** An entry the size filter or the key guard drops in front of the
    buckets: an object that is not accepted, or a value that is neither an
    object nor [null]. *)
Definition droppedEntry (group : WebSocketGroup) (entry : Entry) : bool :=
  match entry with
  | Object event => negb (accepted group event)
  | Other => true
  | Null => false
  end.

(** The zeros that end a list of digits are gone. *)
Fixpoint withoutFinalZeros (l : list ascii) : list ascii :=
  match l with
  | [] => []
  | c :: r =>
      match withoutFinalZeros r with
      | [] => if Ascii.eqb c "0" then [] else [c]
      | r' => c :: r'
      end
  end.

(** The characters up to the first point, and those after it. *)
Fixpoint atPoint (l : list ascii) : list ascii * option (list ascii) :=
  match l with
  | [] => ([], None)
  | c :: r =>
      if Ascii.eqb c "."
      then ([], Some r)
      else let '(int, frac) := atPoint r in (c :: int, frac)
  end.

(** Modelled from the spec: a trade price "normalized by stripping
    trailing zeros" (4.3, 8): "0.7000" is "0.7"; the zeros that end the
    fraction go, and the point with them when no fraction is left. *)
Definition stripTrailingZeros (s : string) : string :=
  match atPoint (list_ascii_of_string s) with
  | (int, Some frac) =>
      string_of_list_ascii
        (int ++ match withoutFinalZeros frac with
                | [] => []
                | f => "."%char :: f
                end)
  | (_, None) => s
  end.

(** Modelled from the spec: a price as the feed writes it (4.1, "decimal
    strings"): digits, with a point and a fraction or without, an integer
    part that is 0 or does not start with 0, at most 15 digits in all. *)
Definition feedPrice (s : string) : bool :=
  match atPoint (list_ascii_of_string s) with
  | (int, frac) =>
      forallb JS.isDigit int && forallb JS.isDigit (default [] frac)
      && match int with
         | [] => false
         | c :: r => negb (Ascii.eqb c "0") || match r with [] => true | _ => false end
         end
      && match frac with Some [] => false | _ => true end
      && (length int + length (default [] frac) <=? 15)%nat
      && match int, frac with
         | [c], Some f =>
             negb (Ascii.eqb c "0") || (JS.leadingZeros f <=? 5)%nat
             || forallb (Ascii.eqb "0"%char) f
         | _, _ => true
         end
  end.

(** The kind of a user event is one of the two the socket routes. *)
Definition userRecognized (event : User.PolymarketUserWSEvent) : bool :=
  User.isOrderEvent event || User.isTradeEvent event.

Definition userErrorsOf (t : list User.Effect) : list User.Error :=
  omap (fun eff => match eff with User.CallOnError err => Some err | _ => None end) t.

(** The events handed to [onOrder] or [onTrade] in a run. *)
Definition userDelivered (t : list User.Effect) : list User.PolymarketUserWSEvent :=
  flat_map (fun eff =>
              match eff with
              | User.CallOnOrder events | User.CallOnTrade events => events
              | _ => []
              end) t.

End Spec.

(** ** Sample data *)

Module Sample.
Import Market Market.OrderBookCache.

Definition socket : WebSocket := {| sendThrows := false; closeThrows := false |}.

(** An engine for the samples, whose prices are plain decimals. *)
Definition engine : JS.Engine := {| JS.parseFloat_toString_beyond := fun _ => "NaN" |}.

(** A market group holding the asset "a". *)
Definition group : WebSocketGroup :=
  {| groupId := "g1"; assetIds := ["a"]; status := PENDING; wsClient := Some socket |}.

(** The same group when its socket handle is gone. *)
Definition groupWithoutSocket : WebSocketGroup :=
  {| groupId := "g1"; assetIds := ["a"]; status := PENDING; wsClient := None |}.

(** Every callback supplied. *)
Definition everyHandler : WebSocketHandlers unit :=
  {| onBook := Some (fun _ => tt); onLastTradePrice := Some (fun _ => tt);
     onTickSizeChange := Some (fun _ => tt); onPriceChange := Some (fun _ => tt);
     onPolymarketPriceUpdate := Some (fun _ => tt);
     onWSClose := Some (fun _ _ _ => tt); onWSOpen := Some (fun _ _ => tt);
     onError := Some (fun _ => tt) |}.

Definition event (asset : option string) (kind : string) : PolymarketWSEvent :=
  {| asset_id := asset; event_type := Some kind; timestamp := "1700000000000";
     hash := ""; bids := []; asks := []; changes := [];
     old_tick_size := ""; new_tick_size := ""; price := ""; trade_size := "";
     side := "" |}.

(** book: bids [(0.60, 10)], asks [(0.62, 8)] *)
Definition bookEvent : PolymarketWSEvent :=
  {| asset_id := Some "a"; event_type := Some "book"; timestamp := "1700000000000";
     hash := "h1";
     bids := [{| level_price := 6000; level_size := 100000 |}];
     asks := [{| level_price := 6200; level_size := 80000 |}];
     changes := []; old_tick_size := ""; new_tick_size := ""; price := "";
     trade_size := ""; side := "" |}.

(** price_change: (0.60, 0, BUY), (0.59, 5, BUY) *)
Definition priceChangeEvent : PolymarketWSEvent :=
  {| asset_id := Some "a"; event_type := Some "price_change";
     timestamp := "1700000000001"; hash := "h2"; bids := []; asks := [];
     changes := [{| change_price := 6000; change_size := 0; change_side := BUY |};
                 {| change_price := 5900; change_size := 50000; change_side := BUY |}];
     old_tick_size := ""; new_tick_size := ""; price := ""; trade_size := "";
     side := "" |}.

(** last_trade_price at "0.7000" *)
Definition lastTradeEvent : PolymarketWSEvent :=
  {| asset_id := Some "a"; event_type := Some "last_trade_price";
     timestamp := "1700000000002"; hash := ""; bids := []; asks := [];
     changes := []; old_tick_size := ""; new_tick_size := "";
     price := "0.7000"; trade_size := "3"; side := "BUY" |}.

(** a later last_trade_price at "0.71" *)
Definition laterTradeEvent : PolymarketWSEvent :=
  {| asset_id := Some "a"; event_type := Some "last_trade_price";
     timestamp := "1700000000003"; hash := ""; bids := []; asks := [];
     changes := []; old_tick_size := ""; new_tick_size := "";
     price := "0.71"; trade_size := "1"; side := "SELL" |}.

(** The cache after [bookEvent]. *)
Definition tightCache : gmap string BookEntry := replaceBook ∅ bookEvent.

(** Its entry: spread 0.02, midpoint 0.61, no price yet. *)
Definition tightEntry : BookEntry :=
  {| book_bids := [{| level_price := 6000; level_size := 100000 |}];
     book_asks := [{| level_price := 6200; level_size := 80000 |}];
     book_price := ""; book_midpoint := "0.61"; book_spread := "0.02";
     book_hash := "h1"; book_timestamp := "1700000000000" |}.

(** An entry with bids [(0.60, 10)], asks [(0.72, 8)]: spread 0.12. *)
Definition wideEntry : BookEntry :=
  {| book_bids := [{| level_price := 6000; level_size := 100000 |}];
     book_asks := [{| level_price := 7200; level_size := 80000 |}];
     book_price := ""; book_midpoint := "0.66"; book_spread := "0.12";
     book_hash := "h0"; book_timestamp := "1699999999999" |}.

Definition wideCache : gmap string BookEntry := <["a" := wideEntry]> ∅.

(** A frame that is not JSON, for any parser that rejects everything. *)
Definition rejectAll {A : Type} (data : string) : option A := None.

(** A user group, its handlers and an event of a kind the user channel
    does not know. *)
Definition userGroup : User.UserWebSocketGroup :=
  {| User.groupId := "u1"; User.marketIds := ["m"]; User.status := ALIVE;
     User.wsClient := Some socket;
     User.auth := {| User.apiKey := "k"; User.secret := "s"; User.passphrase := "p" |};
     User.subscribeToAll := false |}.

Definition userGroupWithoutSocket : User.UserWebSocketGroup :=
  {| User.groupId := "u1"; User.marketIds := ["m"]; User.status := PENDING;
     User.wsClient := None;
     User.auth := {| User.apiKey := "k"; User.secret := "s"; User.passphrase := "p" |};
     User.subscribeToAll := false |}.

Definition everyUserHandler : User.UserWebSocketHandlers unit :=
  {| User.onOrder := Some (fun _ => tt); User.onTrade := Some (fun _ => tt);
     User.onWSClose := Some (fun _ _ _ => tt); User.onWSOpen := Some (fun _ _ => tt);
     User.onError := Some (fun _ => tt) |}.

Definition userEvent (kind : string) : User.PolymarketUserWSEvent :=
  {| User.event_type := Some kind; User.market := Some "m"; User.id := "1" |}.

End Sample.

(** ** Vocabulary and sample data of the further properties *)

Module Further.
Import Market Market.OrderBookCache BaseGroupSocket Sockets.

(** The events a batch handler call hands over. *)
Definition batchEvents (eff : Market.Effect) : list PolymarketWSEvent :=
  match eff with
  | CallOnBook events | CallOnLastTradePrice events
  | CallOnTickSizeChange events | CallOnPriceChange events => events
  | _ => []
  end.

(** The manager's filter would keep all of what a handler call carries. *)
Definition survivesFilter (registry : GroupRegistry) (eff : Market.Effect) : Prop :=
  match eff with
  | CallOnBook events | CallOnLastTradePrice events
  | CallOnTickSizeChange events | CallOnPriceChange events =>
      fst (filterSubscribedEvents registry events) = events
  | CallOnPolymarketPriceUpdate updates =>
      fst (filterSubscribedEvents registry updates) = updates
  | _ => True
  end.

(** Not a call of [onPolymarketPriceUpdate]. *)
Definition notAnUpdate (eff : Market.Effect) : Prop :=
  match eff with
  | CallOnPolymarketPriceUpdate _ => False
  | _ => True
  end.

Definition isLogInfo (eff : BaseGroupSocket.Effect) : bool :=
  match eff with LogInfo _ => true | _ => false end.

Definition isSchedule (eff : BaseGroupSocket.Effect) : bool :=
  match eff with Schedule _ => true | _ => false end.

Definition isManagerError (eff : BaseGroupSocket.Effect) : bool :=
  match eff with BaseGroupSocket.CallOnError _ => true | _ => false end.

(** A run of a socket: the events one after the other. *)
Definition userRun {R : Type} (JSON_parse : string -> option User.ParsedData)
    (handlers : User.UserWebSocketHandlers R)
    (s : Socket User.UserWebSocketGroup) (events : list Event)
  : Socket User.UserWebSocketGroup * list (BaseGroupSocket.Effect + User.Effect) :=
  JS.forEach (userStep JSON_parse handlers) s events.

Definition marketRun {engine : JS.Engine} {R : Type}
    (JSON_parse : string -> option ParsedData)
    (handlers : WebSocketHandlers R) (initialDump : bool)
    (s : Socket WebSocketGroup * gmap string BookEntry) (events : list Event)
  : (Socket WebSocketGroup * gmap string BookEntry)
    * list (BaseGroupSocket.Effect + Market.Effect) :=
  JS.forEach (marketStep JSON_parse handlers initialDump) s events.

(** A group marked ALIVE holds a socket. *)
Definition aliveHasSocket (g : User.UserWebSocketGroup) : Prop :=
  User.status g = ALIVE -> User.wsClient g <> None.

(** What the socket must never touch in a user group. *)
Definition userKeys (g : User.UserWebSocketGroup)
  : string * list string * User.ApiCredentials * bool :=
  (User.groupId g, User.marketIds g, User.auth g, User.subscribeToAll g).

Definition hasSocket (g : User.UserWebSocketGroup) : bool :=
  match User.wsClient g with Some _ => true | None => false end.

Definition closeFails (g : User.UserWebSocketGroup) : bool :=
  match User.wsClient g with Some ws => closeThrows ws | None => false end.

(** The groups whose socket [close()] was called on, in order. *)
Definition closeCalls (t : list Managers.Teardown) : list string :=
  omap (fun x =>
          match x with
          | Managers.Closing (User.WsClose id) => Some id
          | _ => None
          end) t.

(** The groups whose closing was reported to [onError]. *)
Definition reportedClosings (t : list Managers.Teardown) : list string :=
  omap (fun x =>
          match x with
          | Managers.Closing (User.CallOnError (User.ErrorClosing id)) => Some id
          | _ => None
          end) t.

(** Sample data. *)
Definition brokenSocket : WebSocket := {| sendThrows := true; closeThrows := true |}.

Definition freshSocket : Socket User.UserWebSocketGroup :=
  newSocket Sample.userGroupWithoutSocket.

Definition freshMarketSocket : Socket WebSocketGroup :=
  newSocket Sample.groupWithoutSocket.

Definition secondUserGroup : User.UserWebSocketGroup :=
  {| User.groupId := "u2"; User.marketIds := ["n"]; User.status := ALIVE;
     User.wsClient := Some brokenSocket;
     User.auth := {| User.apiKey := "k"; User.secret := "s"; User.passphrase := "p" |};
     User.subscribeToAll := false |}.

(** A frame for which a parser gives one order event. *)
Definition parseOrder (data : string) : option User.ParsedData :=
  Some (User.JValue (User.Object (Sample.userEvent "order"))).

(** A [ping()] on the socket, in the run of either kind of socket. *)
Definition isPing {X : Type} (eff : BaseGroupSocket.Effect + X) : bool :=
  match eff with inl Ping => true | _ => false end.


(** The subscription message going out on a user socket. *)
Definition isUserSend (eff : BaseGroupSocket.Effect + User.Effect) : bool :=
  match eff with inr (User.WsSend _) => true | _ => false end.


Definition isRejected (dial : Dial) : bool :=
  match dial with Rejected _ => true | Dialed _ => false end.

Section Listed.
Context {G : Type} `{Methods G}.

(** A listed id the dial loop dials: registered, with keys. *)
Definition dialable (registry : list G) (groupId : string) : bool :=
  match Managers.findGroupById registry groupId with
  | Some g => negb (shouldCleanup g)
  | None => false
  end.

(** A listed id the dial loop reports: unknown, or dialed in vain. *)
Definition reported (dial : string -> Dial) (registry : list G)
    (groupId : string) : bool :=
  match Managers.findGroupById registry groupId with
  | Some g => negb (shouldCleanup g) && isRejected (dial groupId)
  | None => true
  end.

End Listed.

(** A dialer that fails for the group "u2". *)
Definition failsForU2 (groupId : string) : Dial :=
  if String.eqb groupId "u2" then Rejected "ECONNREFUSED" else Dialed Sample.socket.

End Further.

(** ** Loops *)

Section ForEach.
Context {A S E : Type}.
Variable body : S -> A -> S * list E.

Lemma forEach_cons (s : S) (x : A) (xs : list A) :
  JS.forEach body s (x :: xs) =
  (fst (JS.forEach body (fst (body s x)) xs),
   snd (body s x) ++ snd (JS.forEach body (fst (body s x)) xs)).
Proof.
  simpl. destruct (body s x) as [s1 t1]. simpl.
  destruct (JS.forEach body s1 xs) as [s2 t2]. reflexivity.
Qed.

Lemma forEach_Forall (P : A -> Prop) (Q : E -> Prop) :
  (forall s x, P x -> Forall Q (snd (body s x))) ->
  forall xs s, Forall P xs -> Forall Q (snd (JS.forEach body s xs)).
Proof.
  intros Hbody xs. induction xs as [|x xs IH]; intros s Hxs.
  - constructor.
  - rewrite forEach_cons. simpl. inversion Hxs; subst.
    apply Forall_app. split; [apply Hbody; assumption | apply IH; assumption].
Qed.

Lemma forEach_filter (p : E -> bool) (f : A -> E) :
  (forall s x, List.filter p (snd (body s x)) = [f x]) ->
  forall xs s, List.filter p (snd (JS.forEach body s xs)) = map f xs.
Proof.
  intros Hbody xs. induction xs as [|x xs IH]; intros s.
  - reflexivity.
  - rewrite forEach_cons. simpl. rewrite List.filter_app, Hbody, IH. reflexivity.
Qed.

Lemma forEach_app (s : S) (xs ys : list A) :
  JS.forEach body s (xs ++ ys) =
  (fst (JS.forEach body (fst (JS.forEach body s xs)) ys),
   snd (JS.forEach body s xs)
     ++ snd (JS.forEach body (fst (JS.forEach body s xs)) ys)).
Proof.
  revert s. induction xs as [|x xs IH]; intros s.
  - simpl. destruct (JS.forEach body s ys). reflexivity.
  - rewrite <- app_comm_cons, !forEach_cons, IH. cbn [fst snd].
    rewrite app_assoc. reflexivity.
Qed.

End ForEach.

Lemma Forall_True_all {A : Type} (l : list A) : Forall (fun _ => True) l.
Proof. induction l; constructor; auto. Qed.

(** ** The bucketing loop of the market socket *)

Section Bucketing.
Import Market Spec.
Context {R : Type}.
Variable handlers : WebSocketHandlers R.
Variable group : WebSocketGroup.

Lemma hasEventType_eq (k : string) (e : PolymarketWSEvent) :
  hasEventType k e = true <-> event_type e = Some k.
Proof.
  unfold hasEventType. destruct (event_type e) as [k'|]; [|split; discriminate].
  rewrite String.eqb_eq. split; [intros ->; reflexivity | intros [= ->]; reflexivity].
Qed.

(** The four guards exclude one another: an event has one kind. *)
Lemma kinds_exclusive (k1 k2 : string) (e : PolymarketWSEvent) :
  k1 <> k2 -> hasEventType k1 e = true -> hasEventType k2 e = false.
Proof.
  intros Hne H1. apply hasEventType_eq in H1.
  destruct (hasEventType k2 e) eqn:H2; [|reflexivity].
  apply hasEventType_eq in H2. congruence.
Qed.

Lemma bucketing_loop (events : list PolymarketWSEvent) (b : Buckets) :
  JS.forEach (bucketStep handlers group) b events =
  (growBuckets group b events,
   flat_map (fun e =>
               if JS.has (assetIds group) (asset_id e) && negb (recognized e)
               then invoke (onError handlers) (CallOnError (UnknownEvent e))
               else []) events).
Proof.
  revert b. induction events as [|e events IH]; intros b.
  - destruct b. unfold growBuckets. simpl. rewrite !app_nil_r. reflexivity.
  - rewrite forEach_cons, IH. clear IH.
    unfold bucketStep, recognized, growBuckets, isBookEvent,
      isLastTradePriceEvent, isTickSizeChangeEvent, isPriceChangeEvent.
    simpl.
    destruct (JS.has (assetIds group) (asset_id e)) eqn:Hhas; simpl;
      [|reflexivity].
    destruct (hasEventType "book" e) eqn:Hb; simpl.
    { rewrite (kinds_exclusive "book" "last_trade_price" e),
        (kinds_exclusive "book" "tick_size_change" e),
        (kinds_exclusive "book" "price_change" e) by (assumption || discriminate).
      rewrite <- app_assoc. reflexivity. }
    destruct (hasEventType "last_trade_price" e) eqn:Hl; simpl.
    { rewrite (kinds_exclusive "last_trade_price" "tick_size_change" e),
        (kinds_exclusive "last_trade_price" "price_change" e)
        by (assumption || discriminate).
      rewrite <- app_assoc. reflexivity. }
    destruct (hasEventType "tick_size_change" e) eqn:Ht; simpl.
    { rewrite (kinds_exclusive "tick_size_change" "price_change" e)
        by (assumption || discriminate).
      rewrite <- app_assoc. reflexivity. }
    destruct (hasEventType "price_change" e) eqn:Hp; simpl.
    { rewrite <- app_assoc. reflexivity. }
    reflexivity.
Qed.

End Bucketing.

(** ** The message pipeline of the market socket, bucket by bucket *)

Lemma filter_filter_andb {A : Type} (p q : A -> bool) (l : list A) :
  List.filter p (List.filter q l) = List.filter (fun x => q x && p x) l.
Proof.
  induction l as [|x l IH]; [reflexivity|]. simpl.
  destruct (q x); simpl; [destruct (p x)|]; rewrite ?IH; reflexivity.
Qed.

Lemma flat_map_filter {A B : Type} (f : A -> list B) (q : A -> bool) (l : list A) :
  flat_map f (List.filter q l) = flat_map (fun x => if q x then f x else []) l.
Proof.
  induction l as [|x l IH]; [reflexivity|]. simpl.
  destruct (q x); simpl; rewrite IH; reflexivity.
Qed.

Lemma filter_ext_bool {A : Type} (p q : A -> bool) (l : list A) :
  (forall x, p x = q x) -> List.filter p l = List.filter q l.
Proof.
  intros H. induction l as [|x l IH]; [reflexivity|]. simpl. rewrite H, IH. reflexivity.
Qed.

Lemma flat_map_ext_all {A B : Type} (f g : A -> list B) (l : list A) :
  (forall x, f x = g x) -> flat_map f l = flat_map g l.
Proof.
  intros H. induction l as [|x l IH]; [reflexivity|]. simpl. rewrite H, IH. reflexivity.
Qed.

Section Pipeline.
Import Market Market.OrderBookCache Spec.
Context {engine : JS.Engine} {R : Type}.
Variable handlers : WebSocketHandlers R.
Variable group : WebSocketGroup.

(** [handleEvents] reads the frame only through the four buckets and the
    unknown events among the accepted ones. *)
Lemma handleEvents_by_kind (cache : gmap string BookEntry)
    (events : list PolymarketWSEvent) :
  handleEvents handlers group cache events =
  let '(c1, t1) := handleBookEvents handlers cache (bucketOf group isBookEvent events) in
  let t2 := handleTickEvents handlers (bucketOf group isTickSizeChangeEvent events) in
  let '(c3, t3) :=
    handlePriceChangeEvents handlers c1 (bucketOf group isPriceChangeEvent events) in
  let '(c4, t4) :=
    handleLastTradeEvents handlers c3 (bucketOf group isLastTradePriceEvent events) in
  (c4, unknownCalls handlers group events ++ t1 ++ t2 ++ t3 ++ t4).
Proof.
  unfold handleEvents. rewrite bucketing_loop. unfold growBuckets. simpl.
  rewrite !filter_filter_andb, flat_map_filter.
  unfold bucketOf, unknownCalls, accepted.
  rewrite (filter_ext_bool _ (fun e => (0 <? JS._size (asset_id e))%nat
             && JS.has (assetIds group) (asset_id e) && isBookEvent e))
    by (intros; apply andb_assoc).
  rewrite (filter_ext_bool
             (fun x => (0 <? JS._size (asset_id x))%nat
                && (JS.has (assetIds group) (asset_id x) && isTickSizeChangeEvent x))
             (fun e => (0 <? JS._size (asset_id e))%nat
                && JS.has (assetIds group) (asset_id e) && isTickSizeChangeEvent e))
    by (intros; apply andb_assoc).
  rewrite (filter_ext_bool
             (fun x => (0 <? JS._size (asset_id x))%nat
                && (JS.has (assetIds group) (asset_id x) && isPriceChangeEvent x))
             (fun e => (0 <? JS._size (asset_id e))%nat
                && JS.has (assetIds group) (asset_id e) && isPriceChangeEvent e))
    by (intros; apply andb_assoc).
  rewrite (filter_ext_bool
             (fun x => (0 <? JS._size (asset_id x))%nat
                && (JS.has (assetIds group) (asset_id x) && isLastTradePriceEvent x))
             (fun e => (0 <? JS._size (asset_id e))%nat
                && JS.has (assetIds group) (asset_id e) && isLastTradePriceEvent e))
    by (intros; apply andb_assoc).
  rewrite (flat_map_ext_all _
             (fun e => if (0 <? JS._size (asset_id e))%nat
                          && JS.has (assetIds group) (asset_id e)
                          && negb (recognized e)
                       then invoke (onError handlers) (CallOnError (UnknownEvent e))
                       else []))
    by (intros x; destruct (0 <? JS._size (asset_id x))%nat; reflexivity).
  reflexivity.
Qed.

Lemma bucketOf_accepted (isKind : PolymarketWSEvent -> bool)
    (events : list PolymarketWSEvent) :
  bucketOf group isKind (List.filter (accepted group) events)
  = bucketOf group isKind events.
Proof.
  unfold bucketOf. rewrite filter_filter_andb. apply filter_ext_bool.
  intros x. destruct (accepted group x); reflexivity.
Qed.

Lemma unknownCalls_accepted (events : list PolymarketWSEvent) :
  unknownCalls handlers group (List.filter (accepted group) events)
  = unknownCalls handlers group events.
Proof.
  unfold unknownCalls. rewrite flat_map_filter. apply flat_map_ext_all.
  intros x. destruct (accepted group x); reflexivity.
Qed.

Lemma bucketOf_Forall (isKind : PolymarketWSEvent -> bool)
    (events : list PolymarketWSEvent) :
  Forall (fun e => accepted group e = true /\ isKind e = true)
    (bucketOf group isKind events).
Proof.
  unfold bucketOf. apply List.Forall_forall. intros e He.
  apply List.filter_In in He. destruct He as [_ He].
  apply andb_true_iff in He. exact He.
Qed.

End Pipeline.

(** ** The four batch handlers *)

Ltac split_matches :=
  repeat match goal with
         | |- context [match ?x with _ => _ end] => destruct x eqn:?
         end.

Section Handlers.
Import Market Market.OrderBookCache Spec.
Context {engine : JS.Engine} {R : Type}.
Variable handlers : WebSocketHandlers R.

Lemma replaceBook_loop (events : list PolymarketWSEvent)
    (cache : gmap string BookEntry) :
  JS.forEach (fun c event => (replaceBook c event, [CacheReplaceBook event]))
    cache events
  = (fold_left replaceBook events cache, map CacheReplaceBook events).
Proof.
  revert cache. induction events as [|e events IH]; intros cache; [reflexivity|].
  rewrite forEach_cons, IH. reflexivity.
Qed.

Lemma handleBookEvents_eq (cache : gmap string BookEntry)
    (events : list PolymarketWSEvent) :
  handleBookEvents handlers cache events =
  match events with
  | [] => (cache, [])
  | _ => (fold_left replaceBook events cache,
          map CacheReplaceBook events
            ++ invoke (onBook handlers) (CallOnBook events))
  end.
Proof.
  destruct events as [|e events]; [reflexivity|].
  unfold handleBookEvents. rewrite replaceBook_loop. reflexivity.
Qed.

Lemma handlePriceChangeEvents_eq (cache : gmap string BookEntry)
    (events : list PolymarketWSEvent) :
  handlePriceChangeEvents handlers cache events =
  match events with
  | [] => (cache, [])
  | _ => (fst (JS.forEach (priceChangeStep handlers) cache events),
          invoke (onPriceChange handlers) (CallOnPriceChange events)
            ++ snd (JS.forEach (priceChangeStep handlers) cache events))
  end.
Proof.
  destruct events as [|e events]; [reflexivity|].
  unfold handlePriceChangeEvents.
  destruct (JS.forEach (priceChangeStep handlers) cache (e :: events)).
  reflexivity.
Qed.

Lemma handleLastTradeEvents_eq (cache : gmap string BookEntry)
    (events : list PolymarketWSEvent) :
  handleLastTradeEvents handlers cache events =
  match events with
  | [] => (cache, [])
  | _ => (fst (JS.forEach (lastTradeStep handlers) cache events),
          invoke (onLastTradePrice handlers) (CallOnLastTradePrice events)
            ++ snd (JS.forEach (lastTradeStep handlers) cache events))
  end.
Proof.
  destruct events as [|e events]; [reflexivity|].
  unfold handleLastTradeEvents.
  destruct (JS.forEach (lastTradeStep handlers) cache (e :: events)).
  reflexivity.
Qed.

Lemma announce_derived (cache : gmap string BookEntry) (e : PolymarketWSEvent)
    (entry : BookEntry) (newPrice : string) :
  Forall (derivedFor e) (snd (announce handlers cache e entry newPrice)).
Proof.
  unfold announce, invoke. split_matches; simpl; repeat constructor.
Qed.

(** One turn of the price_change loop: the cache call, then at most a
    price update of that event or a debug line. *)
Lemma priceChangeStep_shape (cache : gmap string BookEntry) (e : PolymarketWSEvent) :
  exists rest,
    snd (priceChangeStep handlers cache e) = CacheUpsertPriceChange e :: rest
    /\ Forall (derivedFor e) rest.
Proof.
  unfold priceChangeStep.
  destruct (upsertPriceChange cache e) as [c1|]; [|eexists; split; [reflexivity|repeat constructor]].
  destruct (spreadOver c1 (asset_id e) TEN_CENTS) as [[c2 [|]]|]; simpl;
    try (eexists; split; [reflexivity|repeat constructor]).
  destruct (midpoint c2 (asset_id e)) as [[c3 newPrice]|];
    [|eexists; split; [reflexivity|repeat constructor]].
  destruct (getBookEntry c3 (asset_id e)) as [entry|];
    [|eexists; split; [reflexivity|repeat constructor]].
  pose proof (announce_derived c3 e entry newPrice) as H.
  destruct (announce handlers c3 e entry newPrice) as [c4 emitted].
  eexists; split; [reflexivity|exact H].
Qed.

Lemma lastTradeStep_shape (cache : gmap string BookEntry) (e : PolymarketWSEvent) :
  Forall (derivedFor e) (snd (lastTradeStep handlers cache e)).
Proof.
  unfold lastTradeStep.
  destruct (spreadOver cache (asset_id e) TEN_CENTS) as [[c1 [|]]|]; simpl;
    try (repeat constructor).
  destruct (getBookEntry c1 (asset_id e)) as [entry|];
    [apply announce_derived | repeat constructor].
Qed.

End Handlers.

Section EveryEffect.
Import Market Market.OrderBookCache Spec.
Context {engine : JS.Engine} {R : Type}.
Variable handlers : WebSocketHandlers R.
Variable group : WebSocketGroup.
Variable Q : Effect -> Prop.

Hypothesis Q_unknown :
  forall e, accepted group e = true -> Q (CallOnError (UnknownEvent e)).
Hypothesis Q_replace :
  forall e, accepted group e = true -> Q (CacheReplaceBook e).
Hypothesis Q_upsert :
  forall e, accepted group e = true -> Q (CacheUpsertPriceChange e).
Hypothesis Q_batch :
  forall events, Forall (fun e => accepted group e = true) events ->
    Q (CallOnBook events) /\ Q (CallOnTickSizeChange events)
    /\ Q (CallOnPriceChange events) /\ Q (CallOnLastTradePrice events).
Hypothesis Q_derived :
  forall e eff, accepted group e = true -> derivedFor e eff -> Q eff.

Lemma invoke_Forall {X : Type} (handler : option X) (call : Effect) :
  Q call -> Forall Q (invoke handler call).
Proof. intros H. destruct handler; simpl; repeat constructor; exact H. Qed.

Lemma unknownCalls_Forall (events : list PolymarketWSEvent) :
  Forall Q (unknownCalls handlers group events).
Proof.
  unfold unknownCalls. induction events as [|e events IH]; [constructor|].
  simpl. apply Forall_app. split; [|exact IH].
  destruct (accepted group e) eqn:Ha; simpl; [|constructor].
  destruct (negb (recognized e)); [|constructor].
  apply invoke_Forall, Q_unknown, Ha.
Qed.

Lemma bucket_accepted (isKind : PolymarketWSEvent -> bool)
    (events : list PolymarketWSEvent) :
  Forall (fun e => accepted group e = true) (bucketOf group isKind events).
Proof.
  eapply List.Forall_impl; [|exact (bucketOf_Forall group isKind events)].
  simpl. intros e [H _]. exact H.
Qed.

(** A property of effects that holds of everything the pipeline can do
    about an accepted event holds of every effect of a frame. *)
Lemma handleEvents_Forall (cache : gmap string BookEntry)
    (events : list PolymarketWSEvent) :
  Forall Q (snd (handleEvents handlers group cache events)).
Proof.
  rewrite handleEvents_by_kind.
  rewrite handleBookEvents_eq.
  pose proof (bucket_accepted isBookEvent events) as Hb.
  pose proof (bucket_accepted isTickSizeChangeEvent events) as Ht.
  pose proof (bucket_accepted isPriceChangeEvent events) as Hp.
  pose proof (bucket_accepted isLastTradePriceEvent events) as Hl.
  set (bs := bucketOf group isBookEvent events) in *.
  set (ts := bucketOf group isTickSizeChangeEvent events) in *.
  set (ps := bucketOf group isPriceChangeEvent events) in *.
  set (ls := bucketOf group isLastTradePriceEvent events) in *.
  assert (Hbook : forall c, Forall Q
            (snd (match bs with
                  | [] => (c, [])
                  | _ => (fold_left replaceBook bs c,
                          map CacheReplaceBook bs
                            ++ invoke (onBook handlers) (CallOnBook bs))
                  end))).
  { intros c. destruct bs as [|b bs']; [constructor|]. cbn [snd].
    apply Forall_app. split.
    - apply List.Forall_map. eapply List.Forall_impl; [|exact Hb]. apply Q_replace.
    - apply invoke_Forall, Q_batch, Hb. }
  assert (Htick : Forall Q (handleTickEvents handlers ts)).
  { unfold handleTickEvents. destruct ts as [|t ts']; [constructor|].
    apply invoke_Forall, Q_batch, Ht. }
  assert (Hprice : forall c, Forall Q (snd (handlePriceChangeEvents handlers c ps))).
  { intros c. rewrite handlePriceChangeEvents_eq.
    destruct ps as [|p ps']; [constructor|]. cbn [snd].
    apply Forall_app. split; [apply invoke_Forall, Q_batch, Hp|].
    apply (forEach_Forall _ (fun e => accepted group e = true)); [|exact Hp].
    intros s x Hx. destruct (priceChangeStep_shape handlers s x) as [rest [-> Hrest]].
    constructor; [apply Q_upsert, Hx|].
    eapply List.Forall_impl; [|exact Hrest]. intros eff. apply Q_derived, Hx. }
  assert (Hlast : forall c, Forall Q (snd (handleLastTradeEvents handlers c ls))).
  { intros c. rewrite handleLastTradeEvents_eq.
    destruct ls as [|l ls']; [constructor|]. cbn [snd].
    apply Forall_app. split; [apply invoke_Forall, Q_batch, Hl|].
    apply (forEach_Forall _ (fun e => accepted group e = true)); [|exact Hl].
    intros s x Hx. eapply List.Forall_impl; [|apply lastTradeStep_shape].
    intros eff. apply Q_derived, Hx. }
  specialize (Hbook cache).
  destruct (match bs with
            | [] => (cache, [])
            | _ => _
            end) as [c1 t1].
  specialize (Hprice c1).
  destruct (handlePriceChangeEvents handlers c1 ps) as [c3 t3].
  specialize (Hlast c3).
  destruct (handleLastTradeEvents handlers c3 ls) as [c4 t4].
  simpl in *. repeat (apply Forall_app; split); try assumption.
  apply unknownCalls_Forall.
Qed.

End EveryEffect.

(** ** Derived price updates *)

Section DerivedPrice.
Import Market Market.OrderBookCache Spec.
Context {R : Type}.
Variable handlers : WebSocketHandlers R.

(** What the two computing methods of the cache do on an asset that has
    an entry. *)
Lemma spreadOver_lookup (cache : gmap string BookEntry) (a : string)
    (entry : BookEntry) (threshold : Z) :
  cache !! a = Some entry ->
  spreadOver cache (Some a) threshold =
  match spreadOf entry with
  | None => Throw IncompleteBook
  | Some s =>
      Ok (<[a := withSpread entry (Decimal.render 4 s)]> cache, threshold <=? s)
  end.
Proof. intros H. unfold spreadOver. rewrite H. reflexivity. Qed.

Lemma midpoint_lookup (cache : gmap string BookEntry) (a : string)
    (entry : BookEntry) :
  cache !! a = Some entry ->
  midpoint cache (Some a) =
  match midpointOf entry with
  | None => Throw IncompleteBook
  | Some m =>
      Ok (<[a := withMidpoint entry (Decimal.render 5 m)]> cache,
          Decimal.render 5 m)
  end.
Proof. intros H. unfold midpoint. rewrite H. reflexivity. Qed.

(** Both sides present is what makes the spread defined. *)
Lemma spreadOf_Some_iff (entry : BookEntry) :
  (exists s, spreadOf entry = Some s)
  <-> book_bids entry <> [] /\ book_asks entry <> [].
Proof.
  unfold spreadOf, highest, lowest.
  destruct (book_bids entry), (book_asks entry); split;
    try (intros [s Hs]; discriminate);
    try (intros [H1 H2]; congruence).
  - intros _. split; discriminate.
  - intros _. eexists. reflexivity.
Qed.

End DerivedPrice.


(** ** Normalizing a trade price *)

Section Normalizing.
Import Spec.

Lemma withoutFinalZeros_snoc (l : list ascii) (c : ascii) :
  withoutFinalZeros (l ++ [c])
  = if Ascii.eqb c "0" then withoutFinalZeros l else l ++ [c].
Proof.
  induction l as [|d l IH]; simpl.
  - destruct (Ascii.eqb c "0"); reflexivity.
  - rewrite IH. destruct (Ascii.eqb c "0") eqn:Hc; [reflexivity|].
    destruct (l ++ [c]) eqn:Hl; [destruct l; discriminate|reflexivity].
Qed.

(** The two ways of dropping the zeros that end the digits agree. *)
Lemma dropTrailingZeros_eq (l : list ascii) :
  JS.dropTrailingZeros l = withoutFinalZeros l.
Proof.
  unfold JS.dropTrailingZeros.
  induction l as [|c l IH] using rev_ind; [reflexivity|].
  rewrite rev_app_distr, withoutFinalZeros_snoc. simpl.
  destruct (Ascii.eqb c "0"); [exact IH|].
  simpl. rewrite rev_involutive. reflexivity.
Qed.

Lemma takeDigits_all (l : list ascii) :
  forallb JS.isDigit l = true -> JS.takeDigits l = (l, []).
Proof.
  induction l as [|c l IH]; [reflexivity|]. simpl.
  intros H. apply andb_prop in H as [Hc Hl]. rewrite Hc, (IH Hl). reflexivity.
Qed.

Lemma point_is_no_digit (c : ascii) :
  Ascii.eqb c "." = true -> JS.isDigit c = false.
Proof. intros H. apply Ascii.eqb_eq in H. subst c. reflexivity. Qed.

Lemma takeDigits_atPoint (l int : list ascii) (frac : option (list ascii)) :
  atPoint l = (int, frac) ->
  forallb JS.isDigit int = true ->
  JS.takeDigits l
  = (int, match frac with Some f => "."%char :: f | None => [] end).
Proof.
  revert int frac. induction l as [|c l IH]; intros int frac Hat Hint.
  - injection Hat as <- <-. reflexivity.
  - simpl in Hat. destruct (Ascii.eqb c ".") eqn:Hc.
    + injection Hat as <- <-. simpl. rewrite (point_is_no_digit c Hc).
      apply Ascii.eqb_eq in Hc. subst c. reflexivity.
    + destruct (atPoint l) as [int' frac'] eqn:Hl. injection Hat as <- <-.
      simpl in Hint. apply andb_prop in Hint as [Hd Hint].
      simpl. rewrite Hd, (IH int' frac' eq_refl Hint). reflexivity.
Qed.

Lemma atPoint_join (l int : list ascii) (frac : option (list ascii)) :
  atPoint l = (int, frac) ->
  l = int ++ match frac with Some f => "."%char :: f | None => [] end.
Proof.
  revert int frac. induction l as [|c l IH]; intros int frac Hat.
  - injection Hat as <- <-. reflexivity.
  - simpl in Hat. destruct (Ascii.eqb c ".") eqn:Hc.
    + injection Hat as <- <-. apply Ascii.eqb_eq in Hc. subst c. reflexivity.
    + destruct (atPoint l) as [int' frac'] eqn:Hl. injection Hat as <- <-.
      simpl. f_equal. apply IH. reflexivity.
Qed.

Lemma leadingZeros_withoutFinalZeros (l : list ascii) :
  (JS.leadingZeros (withoutFinalZeros l) <= JS.leadingZeros l)%nat.
Proof.
  induction l as [|c l IH]; [reflexivity|]. simpl.
  destruct (withoutFinalZeros l) as [|d r'] eqn:Hw.
  - destruct (Ascii.eqb c "0") eqn:Hc; simpl; [lia|]. rewrite Hc. lia.
  - simpl. destruct (Ascii.eqb c "0"); [|lia]. simpl in IH. lia.
Qed.

Lemma withoutFinalZeros_length (l : list ascii) :
  (length (withoutFinalZeros l) <= length l)%nat.
Proof.
  induction l as [|c l IH]; [reflexivity|]. simpl.
  destruct (withoutFinalZeros l) as [|d r']; [|simpl in *; lia].
  destruct (Ascii.eqb c "0"); simpl; lia.
Qed.

Lemma withoutFinalZeros_zeros (l : list ascii) :
  forallb (Ascii.eqb "0"%char) l = true -> withoutFinalZeros l = [].
Proof.
  induction l as [|c l IH]; [reflexivity|].
  cbn [forallb withoutFinalZeros]. intros H.
  apply andb_prop in H as [Hc Hl]. rewrite (IH Hl), Ascii.eqb_sym, Hc. reflexivity.
Qed.

Lemma dropLeadingZeros_length (l : list ascii) :
  (length (JS.dropLeadingZeros l) <= length l)%nat.
Proof.
  induction l as [|c l IH]; [reflexivity|]. simpl.
  destruct (Ascii.eqb c "0"); simpl; lia.
Qed.

(** What [readDecimal] reads of a price as the feed writes it. *)
Lemma readDecimal_feedPrice (s : string) (int : list ascii)
    (frac : option (list ascii)) :
  atPoint (list_ascii_of_string s) = (int, frac) ->
  feedPrice s = true ->
  JS.readDecimal s = Some (false, int, default [] frac).
Proof.
  intros Hat Hfeed. unfold feedPrice in Hfeed. rewrite Hat in Hfeed.
  repeat (apply andb_prop in Hfeed as [Hfeed ?]).
  pose proof (takeDigits_atPoint _ _ _ Hat Hfeed) as Htake.
  pose proof (atPoint_join _ _ _ Hat) as Hjoin.
  unfold JS.readDecimal.
  destruct int as [|c int]; [discriminate|].
  assert (Hdigit : JS.isDigit c = true).
  { simpl in Hfeed. apply andb_prop in Hfeed as [Hc _]. exact Hc. }
  assert (Hm : Ascii.eqb c "-" = false).
  { destruct (Ascii.eqb c "-") eqn:He; [|reflexivity].
    apply Ascii.eqb_eq in He. subst c. discriminate. }
  assert (Hp : Ascii.eqb c "+" = false).
  { destruct (Ascii.eqb c "+") eqn:He; [|reflexivity].
    apply Ascii.eqb_eq in He. subst c. discriminate. }
  rewrite Hjoin in *. cbn [app]. rewrite Hm, Hp.
  cbn [app] in Htake. rewrite Htake.
  destruct frac as [f|]; simpl.
  - rewrite (takeDigits_all f) by assumption. reflexivity.
  - reflexivity.
Qed.

(** On a price as the feed writes it, [parseFloat(price).toString()] is
    the price with its trailing zeros stripped, whatever the engine. *)
Lemma parseFloat_toString_feedPrice {engine : JS.Engine} (s : string) :
  feedPrice s = true ->
  JS.plainDecimal s = true /\ JS.parseFloat_toString s = stripTrailingZeros s.
Proof.
  intros Hfeed.
  destruct (atPoint (list_ascii_of_string s)) as [int frac] eqn:Hat.
  pose proof (readDecimal_feedPrice s int frac Hat Hfeed) as Hread.
  pose proof (atPoint_join _ _ _ Hat) as Hjoin.
  unfold feedPrice in Hfeed. rewrite Hat in Hfeed.
  repeat (apply andb_prop in Hfeed as [Hfeed ?]).
  assert (Hint : JS.dropLeadingZeros int = int
                 \/ (int = ["0"%char] /\ JS.dropLeadingZeros int = [])).
  { destruct int as [|c r]; [discriminate|]. simpl.
    destruct (Ascii.eqb c "0") eqn:Hc; [|left; reflexivity].
    right. simpl in *.
    destruct r; [|discriminate]. apply Ascii.eqb_eq in Hc. subst c.
    split; reflexivity. }
  assert (Hplain : JS.plainDecimal s = true).
  { unfold JS.plainDecimal. rewrite Hread, dropTrailingZeros_eq.
    apply andb_true_intro. split.
    - apply Nat.leb_le.
      pose proof (dropLeadingZeros_length int).
      pose proof (withoutFinalZeros_length (default [] frac)).
      match goal with H : (_ <=? 15)%nat = true |- _ => apply Nat.leb_le in H end.
      lia.
    - destruct Hint as [Hi|[Hi Hz]].
      + rewrite Hi. destruct int; [discriminate|]. reflexivity.
      + rewrite Hz. destruct (withoutFinalZeros (default [] frac)) eqn:Hw;
          [reflexivity|].
        subst int. destruct frac as [f|]; [|discriminate Hw].
        change (default [] (Some f)) with f in Hw.
        rewrite <- Hw. apply Nat.leb_le.
        match goal with
        | H : (_ || forallb _ f) = true |- _ =>
            apply orb_prop in H as [H|H]
        end.
        * change (negb (Ascii.eqb "0" "0")) with false in H.
          apply Nat.leb_le in H.
          pose proof (leadingZeros_withoutFinalZeros f). lia.
        * rewrite (withoutFinalZeros_zeros f H) in Hw. discriminate. }
  split; [exact Hplain|].
  unfold JS.parseFloat_toString. rewrite Hplain.
  unfold JS.printPlain, stripTrailingZeros. rewrite Hread, Hat.
  unfold JS.printDecimal. rewrite dropTrailingZeros_eq. simpl.
  assert (Hshown : match JS.dropLeadingZeros int with
                   | [] => ["0"%char]
                   | _ :: _ => JS.dropLeadingZeros int
                   end = int).
  { destruct Hint as [Hi|[Hi Hz]].
    - rewrite Hi. destruct int; [discriminate|reflexivity].
    - rewrite Hz. symmetry. exact Hi. }
  rewrite Hshown.
  destruct frac as [f|]; simpl.
  - destruct (withoutFinalZeros f); reflexivity.
  - rewrite app_nil_r. rewrite Hjoin in *. rewrite app_nil_r in Hjoin.
    rewrite <- Hjoin. apply string_of_list_ascii_of_string.
Qed.

End Normalizing.

(** The spec's normalization, at its scenario and around it. *)
Example stripTrailingZeros_samples :
  map Spec.stripTrailingZeros ["0.7000"; "0.7"; "0.50"; "1.000"; "12"; "0.0705"]
  = ["0.7"; "0.7"; "0.5"; "1"; "12"; "0.0705"]
  /\ map (JS.parseFloat_toString (engine := Sample.engine))
       ["0.7000"; "0.7"; "0.50"; "1.000"; "12"; "0.0705"; "+.5"; "-0.0"]
     = ["0.7"; "0.7"; "0.5"; "1"; "12"; "0.0705"; "0.5"; "0"]
  /\ map JS.plainDecimal ["5e-1"; "0.0000001"; " 0.5"; "Infinity"; "0.5x"; ""]
     = [false; false; false; false; false; false].
Proof. repeat split; reflexivity. Qed.

(** ** The two derived-price loops, event by event *)

Import Market Market.OrderBookCache Spec.

Lemma priceUpdatesOf_app (t u : list Effect) :
  priceUpdatesOf (t ++ u) = priceUpdatesOf t ++ priceUpdatesOf u.
Proof. unfold priceUpdatesOf. apply omap_app. Qed.

Lemma applyChange_price (entry : BookEntry) (change : PriceChangeItem) :
  book_price (applyChange entry change) = book_price entry.
Proof. unfold applyChange. destruct (change_side change); reflexivity. Qed.

Lemma applyChanges_price (changes : list PriceChangeItem) (entry : BookEntry) :
  book_price (fold_left applyChange changes entry) = book_price entry.
Proof.
  revert entry. induction changes as [|c changes IH]; intros entry; [reflexivity|].
  simpl. rewrite IH. apply applyChange_price.
Qed.

Section DerivedLoops.
Context {engine : JS.Engine} {R : Type}.
Variable handlers : WebSocketHandlers R.

(** A batch handler's cache and price updates are those of its loop. *)
Lemma handlePriceChangeEvents_run (cache : gmap string BookEntry)
    (events : list PolymarketWSEvent) :
  fst (handlePriceChangeEvents handlers cache events)
  = fst (JS.forEach (priceChangeStep handlers) cache events)
  /\ priceUpdatesOf (snd (handlePriceChangeEvents handlers cache events))
     = priceUpdatesOf (snd (JS.forEach (priceChangeStep handlers) cache events)).
Proof.
  rewrite handlePriceChangeEvents_eq. destruct events as [|e events].
  - split; reflexivity.
  - cbn [fst snd]. split; [reflexivity|].
    rewrite priceUpdatesOf_app. unfold invoke.
    destruct (onPriceChange handlers); reflexivity.
Qed.

Lemma handleLastTradeEvents_run (cache : gmap string BookEntry)
    (events : list PolymarketWSEvent) :
  fst (handleLastTradeEvents handlers cache events)
  = fst (JS.forEach (lastTradeStep handlers) cache events)
  /\ priceUpdatesOf (snd (handleLastTradeEvents handlers cache events))
     = priceUpdatesOf (snd (JS.forEach (lastTradeStep handlers) cache events)).
Proof.
  rewrite handleLastTradeEvents_eq. destruct events as [|e events].
  - split; reflexivity.
  - cbn [fst snd]. split; [reflexivity|].
    rewrite priceUpdatesOf_app. unfold invoke.
    destruct (onLastTradePrice handlers); reflexivity.
Qed.

Lemma forEach_middle {A S E : Type} (body : S -> A -> S * list E) (s : S)
    (before after : list A) (x : A) :
  let reached := fst (JS.forEach body s before) in
  JS.forEach body s (before ++ x :: after) =
  (fst (JS.forEach body (fst (body reached x)) after),
   snd (JS.forEach body s before)
     ++ snd (body reached x)
     ++ snd (JS.forEach body (fst (body reached x)) after)).
Proof. cbv zeta. rewrite forEach_app, forEach_cons. reflexivity. Qed.

Lemma forEach_single {A S E : Type} (body : S -> A -> S * list E) (s : S) (x : A) :
  JS.forEach body s [x] = (fst (body s x), snd (body s x) ++ []).
Proof. rewrite forEach_cons. reflexivity. Qed.

(** A batch of price changes around one of its events: the loop reaches
    the event with the cache the earlier events left, and goes on from the
    cache the event leaves. *)
Lemma handlePriceChangeEvents_around (cache : gmap string BookEntry)
    (before after : list PolymarketWSEvent) (event : PolymarketWSEvent) :
  let earlier := handlePriceChangeEvents handlers cache before in
  let single := handlePriceChangeEvents handlers (fst earlier) [event] in
  let later := handlePriceChangeEvents handlers (fst single) after in
  let run := handlePriceChangeEvents handlers cache (before ++ event :: after) in
  fst single = fst (priceChangeStep handlers (fst earlier) event)
  /\ priceUpdatesOf (snd single)
     = priceUpdatesOf (snd (priceChangeStep handlers (fst earlier) event))
  /\ fst run = fst later
  /\ priceUpdatesOf (snd run)
     = priceUpdatesOf (snd earlier) ++ priceUpdatesOf (snd single)
         ++ priceUpdatesOf (snd later).
Proof.
  cbv zeta.
  destruct (handlePriceChangeEvents_run cache before) as [Hb1 Hb2].
  destruct (handlePriceChangeEvents_run
              (fst (handlePriceChangeEvents handlers cache before)) [event])
    as [Hs1 Hs2].
  rewrite forEach_single in Hs1, Hs2. cbn [fst snd] in Hs1, Hs2.
  rewrite app_nil_r in Hs2.
  destruct (handlePriceChangeEvents_run
              (fst (handlePriceChangeEvents handlers
                      (fst (handlePriceChangeEvents handlers cache before))
                      [event])) after) as [Hl1 Hl2].
  destruct (handlePriceChangeEvents_run cache (before ++ event :: after))
    as [Hr1 Hr2].
  rewrite forEach_middle in Hr1, Hr2. cbn [fst snd] in Hr1, Hr2.
  rewrite !priceUpdatesOf_app in Hr2.
  split; [exact Hs1|]. split; [exact Hs2|].
  rewrite Hr1, Hr2, Hl1, Hl2, Hs1, Hs2, Hb1, Hb2. split; reflexivity.
Qed.

Lemma handleLastTradeEvents_around (cache : gmap string BookEntry)
    (before after : list PolymarketWSEvent) (event : PolymarketWSEvent) :
  let earlier := handleLastTradeEvents handlers cache before in
  let single := handleLastTradeEvents handlers (fst earlier) [event] in
  let later := handleLastTradeEvents handlers (fst single) after in
  let run := handleLastTradeEvents handlers cache (before ++ event :: after) in
  fst single = fst (lastTradeStep handlers (fst earlier) event)
  /\ priceUpdatesOf (snd single)
     = priceUpdatesOf (snd (lastTradeStep handlers (fst earlier) event))
  /\ fst run = fst later
  /\ priceUpdatesOf (snd run)
     = priceUpdatesOf (snd earlier) ++ priceUpdatesOf (snd single)
         ++ priceUpdatesOf (snd later).
Proof.
  cbv zeta.
  destruct (handleLastTradeEvents_run cache before) as [Hb1 Hb2].
  destruct (handleLastTradeEvents_run
              (fst (handleLastTradeEvents handlers cache before)) [event])
    as [Hs1 Hs2].
  rewrite forEach_single in Hs1, Hs2. cbn [fst snd] in Hs1, Hs2.
  rewrite app_nil_r in Hs2.
  destruct (handleLastTradeEvents_run
              (fst (handleLastTradeEvents handlers
                      (fst (handleLastTradeEvents handlers cache before))
                      [event])) after) as [Hl1 Hl2].
  destruct (handleLastTradeEvents_run cache (before ++ event :: after))
    as [Hr1 Hr2].
  rewrite forEach_middle in Hr1, Hr2. cbn [fst snd] in Hr1, Hr2.
  rewrite !priceUpdatesOf_app in Hr2.
  split; [exact Hs1|]. split; [exact Hs2|].
  rewrite Hr1, Hr2, Hl1, Hl2, Hs1, Hs2, Hb1, Hb2. split; reflexivity.
Qed.

Hypothesis supplied : is_Some (onPolymarketPriceUpdate handlers).

(** One turn of the price_change loop on an asset that has an entry. *)
Lemma priceChangeStep_cached (cache : gmap string BookEntry)
    (event : PolymarketWSEvent) (a : string) (cached : BookEntry) :
  asset_id event = Some a ->
  cache !! a = Some cached ->
  let entry := fold_left applyChange (changes event) cached in
  priceChangeStep handlers cache event =
  match spreadOf entry, midpointOf entry with
  | Some s, Some m =>
      let computed := withSpread entry (Decimal.render 4 s) in
      if TEN_CENTS <=? s
      then (<[a := computed]> cache, [CacheUpsertPriceChange event])
      else
        let current := withMidpoint computed (Decimal.render 5 m) in
        if bool_decide (Decimal.render 5 m <> book_price cached)
        then (<[a := withPrice current (Decimal.render 5 m)]> cache,
              [CacheUpsertPriceChange event;
               CallOnPolymarketPriceUpdate
                 [priceUpdateEvent event current (Decimal.render 5 m)]])
        else (<[a := current]> cache, [CacheUpsertPriceChange event])
  | _, _ =>
      (<[a := entry]> cache,
       [CacheUpsertPriceChange event;
        LogDebug "Skipping derived future price calculation for price_change: error calculating spread"
          (Some a)])
  end.
Proof.
  intros Ha Hc entry. destruct supplied as [f Hf].
  unfold priceChangeStep, upsertPriceChange. rewrite Ha, Hc. fold entry.
  assert (Hprice : book_price entry = book_price cached)
    by apply applyChanges_price.
  clearbody entry.
  rewrite (spreadOver_lookup _ a entry) by apply lookup_insert_eq.
  unfold spreadOf, midpointOf.
  destruct (highest (book_bids entry)) as [bid|] eqn:Hb; [|reflexivity].
  destruct (lowest (book_asks entry)) as [ask|] eqn:Hk; [|reflexivity].
  cbv zeta. rewrite insert_insert_eq.
  destruct (TEN_CENTS <=? ask - bid); cbn [negb]; [reflexivity|].
  rewrite (midpoint_lookup _ a (withSpread entry (Decimal.render 4 (ask - bid))))
    by apply lookup_insert_eq.
  unfold midpointOf. cbn [withSpread book_bids book_asks]. rewrite Hb, Hk.
  rewrite insert_insert_eq. unfold getBookEntry, lookupEntry.
  rewrite lookup_insert_eq.
  unfold announce, storePrice, invoke. rewrite Hf, Ha.
  cbn [withMidpoint withSpread book_price]. rewrite Hprice.
  destruct (bool_decide (Decimal.render 5 ((bid + ask) * 5) <> book_price cached)).
  - rewrite insert_insert_eq. reflexivity.
  - reflexivity.
Qed.

(** One turn of the last_trade_price loop on an asset that has an entry
    with both sides. *)
Lemma lastTradeStep_cached (cache : gmap string BookEntry)
    (event : PolymarketWSEvent) (a : string) (entry : BookEntry) (s : Z) :
  asset_id event = Some a ->
  cache !! a = Some entry ->
  spreadOf entry = Some s ->
  let computed := withSpread entry (Decimal.render 4 s) in
  let newPrice := JS.parseFloat_toString (price event) in
  lastTradeStep handlers cache event =
  if TEN_CENTS <=? s
  then
    if bool_decide (newPrice <> book_price entry)
    then (<[a := withPrice computed newPrice]> cache,
          [CallOnPolymarketPriceUpdate [priceUpdateEvent event computed newPrice]])
    else (<[a := computed]> cache, [])
  else (<[a := computed]> cache, []).
Proof.
  intros Ha Hc Hs. cbv zeta. destruct supplied as [f Hf].
  unfold lastTradeStep. rewrite Ha, (spreadOver_lookup _ a entry _ Hc), Hs.
  destruct (TEN_CENTS <=? s); [|reflexivity].
  unfold getBookEntry, lookupEntry. rewrite lookup_insert_eq.
  unfold announce, storePrice, invoke. rewrite Hf, Ha.
  cbn [withSpread book_price].
  destruct (bool_decide (JS.parseFloat_toString (price event) <> book_price entry)).
  - rewrite insert_insert_eq. reflexivity.
  - reflexivity.
Qed.

End DerivedLoops.

(** ** What each event of a batch derives *)

(** C1. A batch of price_change events goes through
    [handlePriceChangeEvents]; one of its events is for an asset that has
    a cached book when the loop reaches it. Once the event's deltas are
    in the book, [onPolymarketPriceUpdate] is called for that event if and
    only if the spread of the book is below 0.10 and the midpoint the
    cache computes differs from the entry's stored price. When it is, the
    batch's calls are those of the earlier events, then that one call with
    the one update built from the event, then those of the later events,
    and the midpoint is the entry's new price; when it is not, the event
    adds no call and the stored price stays. Either way only the entry of
    that asset changes, and the loop goes on with the events that follow. *)
Theorem price_change_update_iff :
  forall (R : Type) (handlers : WebSocketHandlers R)
         (cache : gmap string BookEntry)
         (before after : list PolymarketWSEvent) (event : PolymarketWSEvent)
         (asset : string) (cached : BookEntry),
    is_Some (onPolymarketPriceUpdate handlers) ->
    asset_id event = Some asset ->
    let earlier := handlePriceChangeEvents handlers cache before in
    getBookEntry (fst earlier) (asset_id event) = Some cached ->
    let single := handlePriceChangeEvents handlers (fst earlier) [event] in
    let later := handlePriceChangeEvents handlers (fst single) after in
    let run := handlePriceChangeEvents handlers cache (before ++ event :: after) in
    exists (cache1 : gmap string BookEntry) (entry : BookEntry),
      upsertPriceChange (fst earlier) event = Ok cache1
      /\ getBookEntry cache1 (asset_id event) = Some entry
      /\ book_price entry = book_price cached
      /\ fst run = fst later
      /\ (forall other, other <> asset ->
                        fst single !! other = fst earlier !! other)
      /\ let qualifies :=
           (exists s, spreadOf entry = Some s /\ s < TEN_CENTS)
           /\ (exists cache2 newPrice,
                  midpoint cache1 (asset_id event) = Ok (cache2, newPrice)
                  /\ newPrice <> book_price entry) in
         (qualifies ->
          exists cache2 newPrice update stored,
            midpoint cache1 (asset_id event) = Ok (cache2, newPrice)
            /\ priceUpdatesOf (snd run)
               = priceUpdatesOf (snd earlier) ++ [[update]]
                   ++ priceUpdatesOf (snd later)
            /\ pu_price update = newPrice
            /\ pu_event_type update = "price_update"
            /\ pu_triggeringEvent update = event
            /\ pu_asset_id update = Some asset
            /\ pu_timestamp update = timestamp event
            /\ pu_book update = (book_bids entry, book_asks entry)
            /\ getBookEntry (fst single) (asset_id event) = Some stored
            /\ book_price stored = newPrice
            /\ book_bids stored = book_bids entry
            /\ book_asks stored = book_asks entry
            /\ pu_midpoint update = book_midpoint stored
            /\ pu_spread update = book_spread stored)
         /\ (~ qualifies ->
             priceUpdatesOf (snd run)
             = priceUpdatesOf (snd earlier) ++ priceUpdatesOf (snd later)
             /\ exists stored,
                  getBookEntry (fst single) (asset_id event) = Some stored
                  /\ book_price stored = book_price cached
                  /\ book_bids stored = book_bids entry
                  /\ book_asks stored = book_asks entry).
Proof.
  intros R handlers cache before after event asset cached Hh Ha.
  intros earlier Hcached single later run.
  destruct (handlePriceChangeEvents_around handlers cache before after event)
    as (Hs1 & Hs2 & Hr1 & Hr2).
  fold earlier in Hs1, Hs2, Hr1, Hr2. fold single in Hs1, Hs2, Hr1, Hr2.
  fold later in Hr1, Hr2. fold run in Hr1, Hr2.
  rewrite Ha in *. unfold getBookEntry, lookupEntry in Hcached.
  pose proof (priceChangeStep_cached handlers Hh (fst earlier) event asset cached
                Ha Hcached) as Hstep.
  cbv zeta in Hstep.
  set (entry := fold_left applyChange (changes event) cached) in *.
  assert (Hprice : book_price entry = book_price cached)
    by apply applyChanges_price.
  assert (Hup : upsertPriceChange (fst earlier) event
                = Ok (<[asset := entry]> (fst earlier))).
  { unfold upsertPriceChange. rewrite Ha, Hcached. reflexivity. }
  clearbody entry.
  exists (<[asset := entry]> (fst earlier)), entry.
  split; [exact Hup|].
  split; [apply lookup_insert_eq|].
  split; [exact Hprice|].
  split; [exact Hr1|].
  rewrite Hr2, Hs1, Hs2, Hstep. clear Hr2 Hs1 Hs2 Hstep Hr1.
  rewrite (midpoint_lookup _ asset entry) by apply lookup_insert_eq.
  unfold getBookEntry, lookupEntry, spreadOf, midpointOf.
  destruct (highest (book_bids entry)) as [bid|];
    [destruct (lowest (book_asks entry)) as [ask|]|].
  - destruct (TEN_CENTS <=? ask - bid) eqn:Hcmp.
    + apply Z.leb_le in Hcmp. cbn [fst snd].
      split; [intros other Hne; apply lookup_insert_ne; congruence|].
      cbv zeta. split.
      * intros [[s [[= <-] Hlt]] _]. lia.
      * intros _. split; [reflexivity|].
        eexists. split; [apply lookup_insert_eq|].
        repeat split; assumption.
    + apply Z.leb_gt in Hcmp.
      destruct (decide (Decimal.render 5 ((bid + ask) * 5) = book_price cached))
        as [Heq|Hne].
      * rewrite bool_decide_false by (intros H; apply H; exact Heq).
        cbn [fst snd].
        split; [intros other Hne; apply lookup_insert_ne; congruence|].
        cbv zeta. split.
        -- intros [_ [c2 [p [[= _ <-] Hd]]]]. congruence.
        -- intros _. split; [reflexivity|].
           eexists. split; [apply lookup_insert_eq|].
           repeat split; assumption.
      * rewrite bool_decide_true by exact Hne. cbn [fst snd].
        split; [intros other Hno; apply lookup_insert_ne; congruence|].
        cbv zeta. split.
        -- intros _. do 4 eexists. split; [reflexivity|].
           split; [reflexivity|].
           rewrite lookup_insert_eq.
           repeat split; try reflexivity. exact Ha.
        -- intros Hno. exfalso. apply Hno. split.
           ++ exists (ask - bid). split; [reflexivity|exact Hcmp].
           ++ do 2 eexists. split; [reflexivity|]. congruence.
  - cbn [fst snd].
    split; [intros other Hne; apply lookup_insert_ne; congruence|].
    cbv zeta. split.
    + intros [[s [[=] _]] _].
    + intros _. split; [reflexivity|].
      eexists. split; [apply lookup_insert_eq|].
      repeat split; assumption.
  - cbn [fst snd].
    split; [intros other Hne; apply lookup_insert_ne; congruence|].
    cbv zeta. split.
    + intros [[s [[=] _]] _].
    + intros _. split; [reflexivity|].
      eexists. split; [apply lookup_insert_eq|].
      repeat split; assumption.
Qed.

(** C1 at the spec's book-apply scenario: every handler supplied, the
    cache after the book snapshot, a batch of the one price_change
    event. *)
Lemma price_change_update_iff_witness :
  let handlers := Sample.everyHandler in
  let event := Sample.priceChangeEvent in
  let earlier := handlePriceChangeEvents handlers Sample.tightCache [] in
  let single := handlePriceChangeEvents handlers (fst earlier) [event] in
  let later := handlePriceChangeEvents handlers (fst single) [] in
  let run := handlePriceChangeEvents handlers Sample.tightCache ([] ++ event :: []) in
  is_Some (onPolymarketPriceUpdate handlers)
  /\ asset_id event = Some "a"
  /\ getBookEntry (fst earlier) (asset_id event) = Some Sample.tightEntry
  /\ exists (cache1 : gmap string BookEntry) (entry : BookEntry),
      upsertPriceChange (fst earlier) event = Ok cache1
      /\ getBookEntry cache1 (asset_id event) = Some entry
      /\ book_price entry = book_price Sample.tightEntry
      /\ fst run = fst later
      /\ (forall other, other <> "a" ->
                        fst single !! other = fst earlier !! other)
      /\ let qualifies :=
           (exists s, spreadOf entry = Some s /\ s < TEN_CENTS)
           /\ (exists cache2 newPrice,
                  midpoint cache1 (asset_id event) = Ok (cache2, newPrice)
                  /\ newPrice <> book_price entry) in
         (qualifies ->
          exists cache2 newPrice update stored,
            midpoint cache1 (asset_id event) = Ok (cache2, newPrice)
            /\ priceUpdatesOf (snd run)
               = priceUpdatesOf (snd earlier) ++ [[update]]
                   ++ priceUpdatesOf (snd later)
            /\ pu_price update = newPrice
            /\ pu_event_type update = "price_update"
            /\ pu_triggeringEvent update = event
            /\ pu_asset_id update = Some "a"
            /\ pu_timestamp update = timestamp event
            /\ pu_book update = (book_bids entry, book_asks entry)
            /\ getBookEntry (fst single) (asset_id event) = Some stored
            /\ book_price stored = newPrice
            /\ book_bids stored = book_bids entry
            /\ book_asks stored = book_asks entry
            /\ pu_midpoint update = book_midpoint stored
            /\ pu_spread update = book_spread stored)
         /\ (~ qualifies ->
             priceUpdatesOf (snd run)
             = priceUpdatesOf (snd earlier) ++ priceUpdatesOf (snd later)
             /\ exists stored,
                  getBookEntry (fst single) (asset_id event) = Some stored
                  /\ book_price stored = book_price Sample.tightEntry
                  /\ book_bids stored = book_bids entry
                  /\ book_asks stored = book_asks entry).
Proof.
  cbv zeta.
  split; [eexists; reflexivity|].
  split; [reflexivity|].
  split; [reflexivity|].
  apply (price_change_update_iff unit Sample.everyHandler Sample.tightCache
           [] [] Sample.priceChangeEvent "a" Sample.tightEntry).
  - eexists; reflexivity.
  - reflexivity.
  - reflexivity.
Defined.

(** The spec's scenario, from the frame on: a book snapshot with bids
    [(0.60, 10)] and asks [(0.62, 8)], then a price_change with the deltas
    (0.60, 0, BUY) and (0.59, 5, BUY), leave bids [(0.59, 5)]; the one
    update carries the price 0.605, the midpoint 0.605 and the spread
    0.03, and 0.605 is the stored price. *)
Example book_apply_scenario :
  let run :=
    handleEvents (engine := Sample.engine) Sample.everyHandler Sample.group ∅
      [Sample.bookEvent; Sample.priceChangeEvent] in
  (book_bids <$> getBookEntry (fst run) (Some "a"))
    = Some [{| level_price := 5900; level_size := 50000 |}]
  /\ (book_price <$> getBookEntry (fst run) (Some "a")) = Some "0.605"
  /\ map (map (fun u => (pu_price u, pu_midpoint u, pu_spread u)))
       (priceUpdatesOf (snd run))
     = [[("0.605", "0.605", "0.03")]]
  /\ snd run
     = [CacheReplaceBook Sample.bookEvent; CallOnBook [Sample.bookEvent];
        CallOnPriceChange [Sample.priceChangeEvent];
        CacheUpsertPriceChange Sample.priceChangeEvent;
        CallOnPolymarketPriceUpdate
          [{| pu_asset_id := Some "a"; pu_event_type := "price_update";
              pu_triggeringEvent := Sample.priceChangeEvent;
              pu_timestamp := "1700000000001";
              pu_book := ([{| level_price := 5900; level_size := 50000 |}],
                          [{| level_price := 6200; level_size := 80000 |}]);
              pu_price := "0.605"; pu_midpoint := "0.605";
              pu_spread := "0.03" |}]].
Proof. vm_compute. repeat split; reflexivity. Qed.

(** C2. A batch of last_trade_price events goes through
    [handleLastTradeEvents]; one of its events, whose price is written as
    the feed writes prices, is for an asset that has a cached book with
    both sides when the loop reaches it. [onPolymarketPriceUpdate] is
    called for that event if and only if the spread of the book is at or
    above 0.10 and the trade price with its trailing zeros stripped, which
    is what [parseFloat(price).toString()] gives, differs from the entry's
    stored price. When it is, the batch's calls are those of the earlier
    events, then that one call with the one update, then those of the later
    events, and the normalized price is stored; when it is not, the event
    adds no call and the stored price stays. The same trade coming again
    right after adds no call. *)
Theorem last_trade_update_iff :
  forall (engine : JS.Engine) (R : Type) (handlers : WebSocketHandlers R)
         (cache : gmap string BookEntry)
         (before after : list PolymarketWSEvent) (event : PolymarketWSEvent)
         (asset : string) (entry : BookEntry),
    is_Some (onPolymarketPriceUpdate handlers) ->
    asset_id event = Some asset ->
    feedPrice (price event) = true ->
    let earlier := handleLastTradeEvents handlers cache before in
    getBookEntry (fst earlier) (asset_id event) = Some entry ->
    book_bids entry <> [] ->
    book_asks entry <> [] ->
    let single := handleLastTradeEvents handlers (fst earlier) [event] in
    let later := handleLastTradeEvents handlers (fst single) after in
    let run := handleLastTradeEvents handlers cache (before ++ event :: after) in
    let newPrice := stripTrailingZeros (price event) in
    exists s : Z,
      spreadOf entry = Some s
      /\ JS.parseFloat_toString (price event) = newPrice
      /\ fst run = fst later
      /\ (forall other, other <> asset ->
                        fst single !! other = fst earlier !! other)
      /\ let qualifies := TEN_CENTS <= s /\ newPrice <> book_price entry in
         (qualifies ->
          exists update stored,
            priceUpdatesOf (snd run)
            = priceUpdatesOf (snd earlier) ++ [[update]]
                ++ priceUpdatesOf (snd later)
            /\ pu_price update = newPrice
            /\ pu_event_type update = "price_update"
            /\ pu_triggeringEvent update = event
            /\ pu_asset_id update = Some asset
            /\ pu_timestamp update = timestamp event
            /\ pu_book update = (book_bids entry, book_asks entry)
            /\ getBookEntry (fst single) (asset_id event) = Some stored
            /\ book_price stored = newPrice
            /\ book_bids stored = book_bids entry
            /\ book_asks stored = book_asks entry
            /\ pu_midpoint update = book_midpoint stored
            /\ pu_spread update = book_spread stored)
         /\ (~ qualifies ->
             priceUpdatesOf (snd run)
             = priceUpdatesOf (snd earlier) ++ priceUpdatesOf (snd later)
             /\ exists stored,
                  getBookEntry (fst single) (asset_id event) = Some stored
                  /\ book_price stored = book_price entry
                  /\ book_bids stored = book_bids entry
                  /\ book_asks stored = book_asks entry)
         /\ (forall again : PolymarketWSEvent,
               asset_id again = asset_id event ->
               price again = price event ->
               priceUpdatesOf
                 (snd (handleLastTradeEvents handlers cache
                         (before ++ [event; again])))
               = priceUpdatesOf
                   (snd (handleLastTradeEvents handlers cache
                           (before ++ [event])))).
Proof.
  intros engine R handlers cache before after event asset entry Hh Ha Hfeed.
  intros earlier Hentry Hbids Hasks single later run newPrice.
  destruct (proj2 (spreadOf_Some_iff entry) (conj Hbids Hasks)) as [s Hs].
  exists s. split; [exact Hs|].
  destruct (parseFloat_toString_feedPrice (price event) Hfeed) as [_ Hnorm].
  fold newPrice in Hnorm. split; [exact Hnorm|].
  destruct (handleLastTradeEvents_around handlers cache before after event)
    as (Hs1 & Hs2 & Hr1 & Hr2).
  fold earlier in Hs1, Hs2, Hr1, Hr2. fold single in Hs1, Hs2, Hr1, Hr2.
  fold later in Hr1, Hr2. fold run in Hr1, Hr2.
  split; [exact Hr1|].
  rewrite Ha in *. unfold getBookEntry, lookupEntry in Hentry.
  pose proof (lastTradeStep_cached handlers Hh (fst earlier) event asset entry s
                Ha Hentry Hs) as Hstep.
  cbv zeta in Hstep. rewrite Hnorm in Hstep.
  (* the same trade again, on the cache the event leaves *)
  assert (Hagain : forall again,
             asset_id again = Some asset -> price again = price event ->
             priceUpdatesOf
               (snd (handleLastTradeEvents handlers cache
                       (before ++ [event; again])))
             = priceUpdatesOf
                 (snd (handleLastTradeEvents handlers cache (before ++ [event])))).
  { intros again Ha' Hp.
    destruct (handleLastTradeEvents_around handlers cache (before ++ [event]) []
                again) as (As1 & As2 & _ & Ar2).
    rewrite <- app_assoc in Ar2. cbn [app] in Ar2. rewrite Ar2, As2.
    cbn [handleLastTradeEvents snd]. rewrite app_nil_r.
    rewrite <- (app_nil_r (priceUpdatesOf _)) at 2. f_equal.
    destruct (handleLastTradeEvents_around handlers cache before [] event)
      as (Bs1 & _ & Br1 & _).
    rewrite Br1.
    change (fst (handleLastTradeEvents handlers ?c [])) with c.
    rewrite Bs1. fold earlier. rewrite Hstep.
    assert (Hquiet : forall (c : gmap string BookEntry) (e' : BookEntry),
               c !! asset = Some e' -> spreadOf e' = Some s ->
               (TEN_CENTS <= s -> book_price e' = newPrice) ->
               priceUpdatesOf (snd (lastTradeStep handlers c again)) = []).
    { intros c e' Hc Hs' Hp'.
      rewrite (lastTradeStep_cached handlers Hh c again asset e' s Ha' Hc Hs').
      cbv zeta. rewrite Hp, Hnorm.
      destruct (TEN_CENTS <=? s) eqn:Hcmp; [|reflexivity].
      apply Z.leb_le in Hcmp.
      rewrite bool_decide_false; [reflexivity|].
      intros Hne. apply Hne. symmetry. apply Hp', Hcmp. }
    destruct (TEN_CENTS <=? s) eqn:Hcmp.
    - destruct (decide (newPrice = book_price entry)) as [Heq|Hne].
      + rewrite bool_decide_false by (intros H; apply H; exact Heq).
        cbn [fst]. eapply Hquiet; [apply lookup_insert_eq|exact Hs|].
        intros _. symmetry. exact Heq.
      + rewrite bool_decide_true by exact Hne.
        cbn [fst]. eapply Hquiet; [apply lookup_insert_eq|exact Hs|].
        intros _. reflexivity.
    - cbn [fst]. eapply Hquiet; [apply lookup_insert_eq|exact Hs|].
      apply Z.leb_gt in Hcmp. intros H. lia. }
  rewrite Hr2, Hs1, Hs2, Hstep. clear Hr2 Hs1 Hs2 Hr1.
  unfold getBookEntry, lookupEntry.
  destruct (TEN_CENTS <=? s) eqn:Hcmp.
  - apply Z.leb_le in Hcmp.
    destruct (decide (newPrice = book_price entry)) as [Heq|Hne].
    + rewrite bool_decide_false by (intros H; apply H; exact Heq).
      cbn [fst snd].
      split; [intros other Hno; apply lookup_insert_ne; congruence|].
      cbv zeta. split; [intros [_ H]; contradiction|].
      split; [|exact Hagain].
      intros _. split; [reflexivity|].
      eexists. split; [apply lookup_insert_eq|]. repeat split; reflexivity.
    + rewrite bool_decide_true by exact Hne. cbn [fst snd].
      split; [intros other Hno; apply lookup_insert_ne; congruence|].
      cbv zeta. split.
      * intros _. do 2 eexists. split; [reflexivity|].
        rewrite lookup_insert_eq. repeat split; try reflexivity. exact Ha.
      * split; [intros H; exfalso; apply H; split; assumption|exact Hagain].
  - apply Z.leb_gt in Hcmp. cbn [fst snd].
    split; [intros other Hno; apply lookup_insert_ne; congruence|].
    cbv zeta. split; [intros [H _]; lia|].
    split; [|exact Hagain].
    intros _. split; [reflexivity|].
    eexists. split; [apply lookup_insert_eq|]. repeat split; reflexivity.
Qed.

(** C2 at the spec's scenario: a book with the spread 0.12, a trade at
    "0.7000" and a later trade at "0.71". *)
Lemma last_trade_update_iff_witness :
  let engine := Sample.engine in
  let handlers := Sample.everyHandler in
  let event := Sample.lastTradeEvent in
  let after := [Sample.laterTradeEvent] in
  let entry := Sample.wideEntry in
  let earlier := handleLastTradeEvents handlers Sample.wideCache [] in
  let single := handleLastTradeEvents handlers (fst earlier) [event] in
  let later := handleLastTradeEvents handlers (fst single) after in
  let run := handleLastTradeEvents handlers Sample.wideCache ([] ++ event :: after) in
  let newPrice := stripTrailingZeros (price event) in
  is_Some (onPolymarketPriceUpdate handlers)
  /\ asset_id event = Some "a"
  /\ feedPrice (price event) = true
  /\ getBookEntry (fst earlier) (asset_id event) = Some entry
  /\ book_bids entry <> []
  /\ book_asks entry <> []
  /\ exists s : Z,
      spreadOf entry = Some s
      /\ JS.parseFloat_toString (price event) = newPrice
      /\ fst run = fst later
      /\ (forall other, other <> "a" ->
                        fst single !! other = fst earlier !! other)
      /\ let qualifies := TEN_CENTS <= s /\ newPrice <> book_price entry in
         (qualifies ->
          exists update stored,
            priceUpdatesOf (snd run)
            = priceUpdatesOf (snd earlier) ++ [[update]]
                ++ priceUpdatesOf (snd later)
            /\ pu_price update = newPrice
            /\ pu_event_type update = "price_update"
            /\ pu_triggeringEvent update = event
            /\ pu_asset_id update = Some "a"
            /\ pu_timestamp update = timestamp event
            /\ pu_book update = (book_bids entry, book_asks entry)
            /\ getBookEntry (fst single) (asset_id event) = Some stored
            /\ book_price stored = newPrice
            /\ book_bids stored = book_bids entry
            /\ book_asks stored = book_asks entry
            /\ pu_midpoint update = book_midpoint stored
            /\ pu_spread update = book_spread stored)
         /\ (~ qualifies ->
             priceUpdatesOf (snd run)
             = priceUpdatesOf (snd earlier) ++ priceUpdatesOf (snd later)
             /\ exists stored,
                  getBookEntry (fst single) (asset_id event) = Some stored
                  /\ book_price stored = book_price entry
                  /\ book_bids stored = book_bids entry
                  /\ book_asks stored = book_asks entry)
         /\ (forall again : PolymarketWSEvent,
               asset_id again = asset_id event ->
               price again = price event ->
               priceUpdatesOf
                 (snd (handleLastTradeEvents handlers Sample.wideCache
                         ([] ++ [event; again])))
               = priceUpdatesOf
                   (snd (handleLastTradeEvents handlers Sample.wideCache
                           ([] ++ [event])))).
Proof.
  cbv zeta.
  split; [eexists; reflexivity|].
  split; [reflexivity|].
  split; [reflexivity|].
  split; [reflexivity|].
  split; [discriminate|].
  split; [discriminate|].
  apply (last_trade_update_iff Sample.engine unit Sample.everyHandler
           Sample.wideCache [] [Sample.laterTradeEvent] Sample.lastTradeEvent
           "a" Sample.wideEntry).
  - eexists; reflexivity.
  - reflexivity.
  - reflexivity.
  - reflexivity.
  - discriminate.
  - discriminate.
Defined.

(** The spec's scenario in values: with the spread 0.12 a trade at
    "0.7000" is announced at "0.7" and stored; the same trade again adds
    nothing; a trade at "0.71" is announced next. With the tight book of
    the other scenario no trade is announced. *)
Example derived_from_last_trade_scenario :
  let trades := [Sample.lastTradeEvent; Sample.lastTradeEvent;
                 Sample.laterTradeEvent] in
  let run :=
    handleLastTradeEvents (engine := Sample.engine) Sample.everyHandler
      Sample.wideCache trades in
  map (map (fun u => (pu_price u, pu_spread u, pu_timestamp u)))
    (priceUpdatesOf (snd run))
  = [[("0.7", "0.12", "1700000000002")]; [("0.71", "0.12", "1700000000003")]]
  /\ (book_price <$> getBookEntry (fst run) (Some "a")) = Some "0.71"
  /\ snd (handleLastTradeEvents (engine := Sample.engine) Sample.everyHandler
            Sample.tightCache trades)
     = [CallOnLastTradePrice trades].
Proof. vm_compute. repeat split; reflexivity. Qed.

(** ** Events dropped in front of the buckets *)

Lemma has_true_iff (set : list string) (v : option string) :
  JS.has set v = true <-> exists a, v = Some a /\ In a set.
Proof.
  unfold JS.has. destruct v as [a|].
  - rewrite existsb_exists. split.
    + intros [x [Hx Heq]]. apply String.eqb_eq in Heq. subst x. eauto.
    + intros [x [[= <-] Hx]]. exists a. split; [exact Hx|apply String.eqb_refl].
  - split; [discriminate|]. intros [a [Ha _]]. discriminate.
Qed.

(** Not accepted is: no [asset_id], an empty one, or one the group does
    not hold. *)
Lemma accepted_false_iff (group : WebSocketGroup) (e : PolymarketWSEvent) :
  accepted group e = false
  <-> asset_id e = None \/ asset_id e = Some ""
      \/ exists a, asset_id e = Some a /\ ~ In a (assetIds group).
Proof.
  unfold accepted. rewrite andb_false_iff. split.
  - intros [Hsize|Hhas].
    + destruct (asset_id e) as [[|c a]|]; [right; left| |left]; try reflexivity.
      simpl in Hsize. discriminate.
    + destruct (asset_id e) as [a|] eqn:Ha; [|left; reflexivity].
      right. right. exists a. split; [reflexivity|]. intros Hin.
      assert (JS.has (assetIds group) (Some a) = true) as Ht
          by (apply has_true_iff; eauto).
      congruence.
  - intros [Hn|[He|[a [Ha Hnot]]]].
    + left. rewrite Hn. reflexivity.
    + left. rewrite He. reflexivity.
    + right. rewrite Ha. destruct (JS.has (assetIds group) (Some a)) eqn:Hh;
        [|reflexivity].
      apply has_true_iff in Hh. destruct Hh as [a' [[= <-] Hin]]. contradiction.
Qed.

Lemma derivedFor_mentions (P : PolymarketWSEvent -> Prop) (e : PolymarketWSEvent)
    (eff : Effect) :
  P e -> derivedFor e eff -> Forall P (mentions eff).
Proof.
  intros HP H. destruct eff; simpl in *; try contradiction; try constructor.
  destruct events as [|u [|u' us]]; try contradiction.
  simpl. subst e. repeat constructor. exact HP.
Qed.

(** The size filter throws exactly on a frame that has a [null] entry. *)
Lemma readEntries_None_iff (entries : list Entry) :
  readEntries entries = None <-> In Null entries.
Proof.
  induction entries as [|[e| |] rest IH]; simpl.
  - split; [discriminate|contradiction].
  - destruct (readEntries rest); simpl.
    + split; [discriminate|]. intros [H|H]; [discriminate|].
      apply IH in H. discriminate.
    + split; [|reflexivity]. intros _. right. apply IH. reflexivity.
  - split; [intros _; left; reflexivity|reflexivity].
  - rewrite IH. split; [intros H; right; exact H|].
    intros [H|H]; [discriminate|exact H].
Qed.

(** Reading the entries that are not dropped gives the accepted events. *)
Lemma readEntries_kept (group : WebSocketGroup) (entries : list Entry) :
  readEntries (List.filter (fun entry => negb (droppedEntry group entry)) entries)
  = List.filter (accepted group) <$> readEntries entries.
Proof.
  induction entries as [|[e| |] rest IH]; simpl.
  - reflexivity.
  - destruct (accepted group e) eqn:Hacc; simpl; rewrite IH;
      destruct (readEntries rest); simpl; rewrite ?Hacc; reflexivity.
  - reflexivity.
  - exact IH.
Qed.

Lemma handleEvents_accepted {engine : JS.Engine} {R : Type}
    (handlers : WebSocketHandlers R) (group : WebSocketGroup)
    (cache : gmap string BookEntry) (events : list PolymarketWSEvent) :
  handleEvents handlers group cache events
  = handleEvents handlers group cache (List.filter (accepted group) events).
Proof.
  rewrite !handleEvents_by_kind.
  rewrite !bucketOf_accepted, unknownCalls_accepted. reflexivity.
Qed.

(** C3. On a market socket an entry of a frame that is an event whose
    [asset_id] is missing or empty, or is not held by the group, or that is
    no object at all, is dropped in front of the buckets: the frame is
    processed exactly as if those entries had not been in it (same handler
    calls, same cache, same derived prices, same outcome when the frame
    holds a [null], on which the size filter throws before anything is
    done), and every handler call, cache call and price update of any
    frame is about accepted events only. *)
Theorem dropped_events_cause_nothing :
  forall (engine : JS.Engine) (R : Type) (handlers : WebSocketHandlers R)
         (group : WebSocketGroup) (cache : gmap string BookEntry),
    (forall entries : list Entry,
        handleParsed handlers group cache (JArray entries)
        = handleParsed handlers group cache
            (JArray (List.filter (fun entry => negb (droppedEntry group entry))
                       entries)))
    /\ (forall entry : Entry,
          handleParsed handlers group cache (JValue entry)
          = handleParsed handlers group cache (JArray [entry]))
    /\ (forall events : list PolymarketWSEvent,
          handleEvents handlers group cache events
          = handleEvents handlers group cache
              (List.filter (accepted group) events))
    /\ (forall parsedData : ParsedData,
          aboutOnly (fun e => accepted group e = true)
            (snd (handleParsed handlers group cache parsedData)))
    /\ (forall (JSON_parse : string -> option ParsedData) (data : string),
          aboutOnly (fun e => accepted group e = true)
            (snd (handleMessage JSON_parse handlers group cache data)))
    /\ (forall e : PolymarketWSEvent,
          droppedEntry group (Object e) = true
          <-> (asset_id e = None \/ asset_id e = Some ""
               \/ exists a, asset_id e = Some a /\ ~ In a (assetIds group)))
    /\ (forall entries : list Entry,
          In Null entries ->
          exists message,
            handleParsed handlers group cache (JArray entries)
            = (cache, [Uncaught message])).
Proof.
  intros engine R handlers group cache.
  assert (Habout : forall evs,
             aboutOnly (fun e => accepted group e = true)
               (snd (handleEvents handlers group cache evs))).
  { intros evs. unfold aboutOnly. apply handleEvents_Forall.
    - intros e He. simpl. repeat constructor. exact He.
    - intros e He. simpl. repeat constructor. exact He.
    - intros e He. simpl. repeat constructor. exact He.
    - intros evs' Hevs. simpl. repeat split; exact Hevs.
    - intros e eff He Hd. exact (derivedFor_mentions _ e eff He Hd). }
  assert (Hparsed : forall parsedData,
             aboutOnly (fun e => accepted group e = true)
               (snd (handleParsed handlers group cache parsedData))).
  { intros parsedData. unfold handleParsed.
    destruct (readEntries _) as [events|]; [apply Habout|].
    repeat constructor. }
  repeat apply conj.
  - intros entries. unfold handleParsed. rewrite readEntries_kept.
    destruct (readEntries entries) as [events|]; [|reflexivity].
    apply handleEvents_accepted.
  - reflexivity.
  - apply handleEvents_accepted.
  - exact Hparsed.
  - intros JSON_parse data. unfold handleMessage.
    destruct (JSON_parse data) as [parsed|].
    + specialize (Hparsed parsed).
      destruct (handleParsed handlers group cache parsed) as [c t]. exact Hparsed.
    + unfold aboutOnly, invoke. destruct (onError handlers); repeat constructor.
  - intros e. cbn [droppedEntry]. rewrite negb_true_iff.
    apply accepted_false_iff.
  - intros entries Hnull. apply readEntries_None_iff in Hnull.
    unfold handleParsed. rewrite Hnull. eexists. reflexivity.
Qed.

(** A frame of five entries, of which one event is held by the group:
    the others leave no trace. *)
Example dropped_entries_sample :
  handleParsed (engine := Sample.engine) Sample.everyHandler Sample.group ∅
    (JArray [Other; Object (Sample.event None "book");
             Object (Sample.event (Some "") "book"); Object Sample.bookEvent;
             Object (Sample.event (Some "z") "mystery")])
  = (Sample.tightCache,
     [CacheReplaceBook Sample.bookEvent; CallOnBook [Sample.bookEvent]]).
Proof. vm_compute. reflexivity. Qed.

(** C10. Every [onPolymarketPriceUpdate] call of the market socket carries
    an array of exactly one event, whatever the frame. *)
Theorem price_updates_are_never_batched :
  forall (engine : JS.Engine) (R : Type) (handlers : WebSocketHandlers R)
         (group : WebSocketGroup) (cache : gmap string BookEntry)
         (JSON_parse : string -> option ParsedData) (data : string),
    Forall singleUpdate (snd (handleMessage JSON_parse handlers group cache data))
    /\ Forall (fun updates => length updates = 1%nat)
         (priceUpdatesOf (snd (handleMessage JSON_parse handlers group cache data))).
Proof.
  intros engine R handlers group cache JSON_parse data.
  assert (H : Forall singleUpdate
                (snd (handleMessage JSON_parse handlers group cache data))).
  { unfold handleMessage. destruct (JSON_parse data) as [parsed|].
    - assert (Hev : Forall singleUpdate
                      (snd (handleParsed handlers group cache parsed))).
      { unfold handleParsed.
        destruct (readEntries _) as [evs|]; [|repeat constructor].
        apply handleEvents_Forall; try (intros; exact I).
        - intros evs' _. repeat split.
        - intros e eff _ Hd. destruct eff; simpl in *; try exact I.
          destruct events as [|u [|u' us]]; try contradiction. reflexivity. }
      destruct (handleParsed handlers group cache parsed) as [c t]. exact Hev.
    - unfold invoke. destruct (onError handlers); repeat constructor. }
  split; [exact H|].
  unfold priceUpdatesOf.
  induction H as [|eff t Heff Ht IH]; [constructor|].
  simpl. destruct eff; simpl; try exact IH.
  constructor; [exact Heff|exact IH].
Qed.

(** Two qualifying events in one frame give two calls of one event each. *)
Example two_updates_in_one_frame :
  map (@length _)
    (priceUpdatesOf
       (snd (handleEvents (engine := Sample.engine) Sample.everyHandler
               Sample.group Sample.wideCache
               [Sample.lastTradeEvent; Sample.laterTradeEvent])))
  = [1%nat; 1%nat].
Proof. vm_compute. reflexivity. Qed.

(** ** Order of processing inside one frame *)

Lemma filter_none {A : Type} (p : A -> bool) (l : list A) :
  Forall (fun x => p x = false) l -> List.filter p l = [].
Proof.
  induction 1 as [|x l Hx _ IH]; [reflexivity|]. simpl. rewrite Hx. exact IH.
Qed.

Lemma filter_all {A : Type} (p : A -> bool) (l : list A) :
  Forall (fun x => p x = true) l -> List.filter p l = l.
Proof.
  induction 1 as [|x l Hx _ IH]; [reflexivity|]. simpl. rewrite Hx, IH. reflexivity.
Qed.

Lemma allBefore_split (p q : Effect -> bool) (l1 l2 : list Effect) :
  Forall (fun x => q x = false) l1 ->
  Forall (fun x => p x = false) l2 ->
  allBefore p q (l1 ++ l2).
Proof.
  intros Hq Hp i j x y Hi Hpx Hj Hqy.
  assert (i < length l1)%nat as Hil.
  { destruct (Nat.lt_ge_cases i (length l1)) as [H|H]; [exact H|].
    rewrite lookup_app_r in Hi by exact H.
    rewrite Forall_lookup in Hp. specialize (Hp _ _ Hi). congruence. }
  assert (length l1 <= j)%nat as Hjl.
  { destruct (Nat.lt_ge_cases j (length l1)) as [H|H]; [|exact H].
    rewrite lookup_app_l in Hj by exact H.
    rewrite Forall_lookup in Hq. specialize (Hq _ _ Hj). congruence. }
  lia.
Qed.

Section FrameOrder.
Context {engine : JS.Engine} {R : Type}.
Variable handlers : WebSocketHandlers R.
Variable group : WebSocketGroup.

Lemma unknownCalls_errors (events : list PolymarketWSEvent) :
  Forall (fun eff => exists e, eff = CallOnError (UnknownEvent e))
    (unknownCalls handlers group events).
Proof.
  unfold unknownCalls. induction events as [|e events IH]; [constructor|].
  simpl. apply Forall_app. split; [|exact IH].
  destruct (accepted group e && negb (recognized e)); [|constructor].
  unfold invoke. destruct (onError handlers); repeat constructor. eauto.
Qed.

Lemma priceChange_loop (cache : gmap string BookEntry)
    (events : list PolymarketWSEvent) :
  Forall (fun eff => insideLoop eff = true)
    (snd (JS.forEach (priceChangeStep handlers) cache events))
  /\ List.filter isCacheUpsertPriceChange
       (snd (JS.forEach (priceChangeStep handlers) cache events))
     = map CacheUpsertPriceChange events.
Proof.
  split.
  - apply (forEach_Forall _ (fun _ => True)); [|apply Forall_True_all].
    intros s x _. destruct (priceChangeStep_shape handlers s x) as [rest [-> Hrest]].
    constructor; [reflexivity|].
    eapply List.Forall_impl; [|exact Hrest].
    intros eff Hd. destruct eff; simpl in *; try contradiction; reflexivity.
  - apply forEach_filter. intros s x.
    destruct (priceChangeStep_shape handlers s x) as [rest [-> Hrest]].
    simpl. f_equal. apply filter_none.
    eapply List.Forall_impl; [|exact Hrest].
    intros eff Hd. destruct eff; simpl in *; try contradiction; reflexivity.
Qed.

Lemma lastTrade_loop (cache : gmap string BookEntry)
    (events : list PolymarketWSEvent) :
  Forall (fun eff => insideLoop eff = true /\ isCacheUpsertPriceChange eff = false)
    (snd (JS.forEach (lastTradeStep handlers) cache events)).
Proof.
  apply (forEach_Forall _ (fun _ => True)); [|apply Forall_True_all].
  intros s x _. eapply List.Forall_impl; [|apply lastTradeStep_shape].
  intros eff Hd. destruct eff; simpl in *; try contradiction; split; reflexivity.
Qed.

(** The run of a frame, piece by piece. *)
Lemma handleEvents_trace (cache : gmap string BookEntry)
    (events : list PolymarketWSEvent) :
  let books := bucketOf group isBookEvent events in
  let ticks := bucketOf group isTickSizeChangeEvent events in
  let deltas := bucketOf group isPriceChangeEvent events in
  let trades := bucketOf group isLastTradePriceEvent events in
  let replaced := fold_left replaceBook books cache in
  let upserts := JS.forEach (priceChangeStep handlers) replaced deltas in
  let derived := JS.forEach (lastTradeStep handlers) (fst upserts) trades in
  handleEvents handlers group cache events
  = (fst derived,
     unknownCalls handlers group events
       ++ (match books with
           | [] => []
           | _ => map CacheReplaceBook books
                    ++ invoke (onBook handlers) (CallOnBook books)
           end)
       ++ (match ticks with
           | [] => []
           | _ => invoke (onTickSizeChange handlers) (CallOnTickSizeChange ticks)
           end)
       ++ ((match deltas with
            | [] => []
            | _ => invoke (onPriceChange handlers) (CallOnPriceChange deltas)
            end) ++ snd upserts)
       ++ ((match trades with
            | [] => []
            | _ => invoke (onLastTradePrice handlers) (CallOnLastTradePrice trades)
            end) ++ snd derived)).
Proof.
  intros bs ts ps ls c1 loop3 loop4.
  rewrite handleEvents_by_kind, handleBookEvents_eq.
  fold bs ts ps ls.
  assert (Hb : (match bs with
                | [] => (cache, [])
                | _ => (fold_left replaceBook bs cache,
                        map CacheReplaceBook bs
                          ++ invoke (onBook handlers) (CallOnBook bs))
                end)
               = (c1, match bs with
                      | [] => []
                      | _ => map CacheReplaceBook bs
                               ++ invoke (onBook handlers) (CallOnBook bs)
                      end)).
  { unfold c1. destruct bs; reflexivity. }
  rewrite Hb.
  assert (Hp : handlePriceChangeEvents handlers c1 ps
               = (fst loop3,
                  (match ps with
                   | [] => []
                   | _ => invoke (onPriceChange handlers) (CallOnPriceChange ps)
                   end) ++ snd loop3)).
  { rewrite handlePriceChangeEvents_eq. unfold loop3. destruct ps; reflexivity. }
  rewrite Hp.
  assert (Hl : handleLastTradeEvents handlers (fst loop3) ls
               = (fst loop4,
                  (match ls with
                   | [] => []
                   | _ => invoke (onLastTradePrice handlers) (CallOnLastTradePrice ls)
                   end) ++ snd loop4)).
  { rewrite handleLastTradeEvents_eq. unfold loop4. destruct ls; reflexivity. }
  rewrite Hl. unfold handleTickEvents. simpl. reflexivity.
Qed.

(** An [upsertPriceChange] that throws is logged and skipped: the cache
    is as before and nothing is derived for the event. *)
Lemma priceChangeStep_skips (cache : gmap string BookEntry)
    (event : PolymarketWSEvent) (err : CacheError) :
  upsertPriceChange cache event = Throw err ->
  exists message,
    priceChangeStep handlers cache event
    = (cache, [CacheUpsertPriceChange event; LogDebug message (asset_id event)]).
Proof.
  intros H. unfold priceChangeStep. rewrite H. eexists. reflexivity.
Qed.

End FrameOrder.

Lemma filter_invoke {X : Type} (p : Effect -> bool) (handler : option X)
    (call : Effect) :
  List.filter p (invoke handler call) = if p call then invoke handler call else [].
Proof. destruct handler; simpl; destruct (p call); reflexivity. Qed.

Lemma filter_map_const {A : Type} (p : Effect -> bool) (f : A -> Effect)
    (b : bool) (l : list A) :
  (forall x, p (f x) = b) ->
  List.filter p (map f l) = if b then map f l else [].
Proof.
  intros H. induction l as [|x l IH]; simpl; [destruct b; reflexivity|].
  rewrite H, IH. destruct b; reflexivity.
Qed.

Ltac by_cases_on_effect :=
  let eff := fresh "eff" in
  let H := fresh "H" in
  intros eff H; destruct eff; simpl in *;
  try reflexivity; try discriminate;
  try (destruct H; discriminate); try (destruct H as [? ->]; reflexivity).

Ltac segment :=
  repeat first
    [ apply List.Forall_nil
    | apply Forall_app; split
    | match goal with
      | |- Forall _ (unknownCalls _ _ _) =>
          eapply List.Forall_impl; [|apply unknownCalls_errors];
          intros ? [? ->]; reflexivity
      | |- Forall _ (invoke ?h _) =>
          unfold invoke; destruct h; repeat constructor
      | |- Forall _ (map _ _) =>
          apply List.Forall_map; apply List.Forall_forall; intros; reflexivity
      | H : Forall _ ?d |- Forall _ ?d =>
          eapply List.Forall_impl; [|exact H]; by_cases_on_effect
      end ].

(** C4, as the code has it. A frame runs as: the [onError] calls of the
    bucketing loop; for a non-empty book bucket [replaceBook] for every
    book event and then [onBook] with the batch; [onTickSizeChange]; for a
    non-empty price_change bucket [onPriceChange] with the batch and then
    the loop that calls [upsertPriceChange] for every event in order and
    derives its price update; only then [onLastTradePrice] and the loop of
    the last_trade_price bucket, which runs on the cache the price_change
    loop left. Each batch handler is called once with its whole bucket; an
    [upsertPriceChange] that throws is logged and skipped, and the events
    after it are processed all the same. *)
Theorem frame_processing_order :
  forall (engine : JS.Engine) (R : Type) (handlers : WebSocketHandlers R)
         (group : WebSocketGroup) (cache : gmap string BookEntry)
         (events : list PolymarketWSEvent),
    let t := snd (handleEvents handlers group cache events) in
    let books := bucketOf group isBookEvent events in
    let ticks := bucketOf group isTickSizeChangeEvent events in
    let deltas := bucketOf group isPriceChangeEvent events in
    let trades := bucketOf group isLastTradePriceEvent events in
    let replaced := fold_left replaceBook books cache in
    let upserts := JS.forEach (priceChangeStep handlers) replaced deltas in
    let derived := JS.forEach (lastTradeStep handlers) (fst upserts) trades in
    handleEvents handlers group cache events
    = (fst derived,
       unknownCalls handlers group events
         ++ (match books with
             | [] => []
             | _ => map CacheReplaceBook books
                      ++ invoke (onBook handlers) (CallOnBook books)
             end)
         ++ (match ticks with
             | [] => []
             | _ => invoke (onTickSizeChange handlers) (CallOnTickSizeChange ticks)
             end)
         ++ ((match deltas with
              | [] => []
              | _ => invoke (onPriceChange handlers) (CallOnPriceChange deltas)
              end) ++ snd upserts)
         ++ ((match trades with
              | [] => []
              | _ => invoke (onLastTradePrice handlers)
                       (CallOnLastTradePrice trades)
              end) ++ snd derived))
    /\ List.filter isBatchCall t
       = (match books with
          | [] => []
          | _ => invoke (onBook handlers) (CallOnBook books)
          end)
         ++ (match ticks with
             | [] => []
             | _ => invoke (onTickSizeChange handlers) (CallOnTickSizeChange ticks)
             end)
         ++ (match deltas with
             | [] => []
             | _ => invoke (onPriceChange handlers) (CallOnPriceChange deltas)
             end)
         ++ (match trades with
             | [] => []
             | _ => invoke (onLastTradePrice handlers) (CallOnLastTradePrice trades)
             end)
    /\ List.filter isCacheReplaceBook t = map CacheReplaceBook books
    /\ List.filter isCacheUpsertPriceChange t = map CacheUpsertPriceChange deltas
    /\ List.filter isCacheUpsertPriceChange (snd upserts)
       = map CacheUpsertPriceChange deltas
    /\ allBefore isCacheReplaceBook isCallOnBook t
    /\ allBefore isCallOnPriceChange isCacheUpsertPriceChange t
    /\ allBefore isCacheUpsertPriceChange isCallOnLastTradePrice t
    /\ (forall (c : gmap string BookEntry) (e : PolymarketWSEvent)
               (err : CacheError),
          upsertPriceChange c e = Throw err ->
          exists message,
            priceChangeStep handlers c e
            = (c, [CacheUpsertPriceChange e; LogDebug message (asset_id e)])).
Proof.
  intros engine R handlers group cache events. cbv zeta.
  pose proof (handleEvents_trace handlers group cache events) as Ht.
  cbv zeta in Ht.
  split; [exact Ht|]. rewrite Ht. clear Ht. cbn [snd].
  set (bs := bucketOf group isBookEvent events).
  set (ts := bucketOf group isTickSizeChangeEvent events).
  set (ps := bucketOf group isPriceChangeEvent events).
  set (ls := bucketOf group isLastTradePriceEvent events).
  destruct (priceChange_loop handlers (fold_left replaceBook bs cache) ps)
    as [H3 Hu].
  pose proof (lastTrade_loop handlers
                (fst (JS.forEach (priceChangeStep handlers)
                        (fold_left replaceBook bs cache) ps)) ls) as H4.
  revert H3 Hu H4.
  generalize (snd (JS.forEach (lastTradeStep handlers)
                     (fst (JS.forEach (priceChangeStep handlers)
                             (fold_left replaceBook bs cache) ps)) ls)) as d4.
  generalize (snd (JS.forEach (priceChangeStep handlers)
                     (fold_left replaceBook bs cache) ps)) as d3.
  clearbody bs ts ps ls.
  intros d3 d4 H3 Hu H4.
  assert (HU : forall p, (forall err, p (CallOnError err) = false) ->
             List.filter p (unknownCalls handlers group events) = []).
  { intros p Hp. apply filter_none.
    eapply List.Forall_impl; [|apply unknownCalls_errors].
    intros ? [? ->]. apply Hp. }
  repeat apply conj.
  - rewrite !List.filter_app, HU by reflexivity.
    rewrite (filter_none isBatchCall d3) by segment.
    rewrite (filter_none isBatchCall d4) by segment.
    destruct bs, ts, ps, ls;
      rewrite ?List.filter_app, ?filter_invoke,
        ?(filter_map_const isBatchCall CacheReplaceBook false) by reflexivity;
      simpl; rewrite ?app_nil_r; reflexivity.
  - rewrite !List.filter_app, HU by reflexivity.
    rewrite (filter_none isCacheReplaceBook d3) by segment.
    rewrite (filter_none isCacheReplaceBook d4) by segment.
    destruct bs, ts, ps, ls;
      rewrite ?List.filter_app, ?filter_invoke,
        ?(filter_map_const isCacheReplaceBook CacheReplaceBook true) by reflexivity;
      simpl; rewrite ?app_nil_r; reflexivity.
  - rewrite !List.filter_app, HU by reflexivity.
    rewrite Hu.
    rewrite (filter_none isCacheUpsertPriceChange d4) by segment.
    destruct bs, ts, ps, ls;
      rewrite ?List.filter_app, ?filter_invoke,
        ?(filter_map_const isCacheUpsertPriceChange CacheReplaceBook false)
        by reflexivity;
      simpl; rewrite ?app_nil_r; reflexivity.
  - exact Hu.
  - destruct bs as [|b bs].
    + apply (allBefore_split _ _ []); [constructor|].
      destruct ts, ps, ls; segment.
    + rewrite <- (app_assoc (map CacheReplaceBook (b :: bs))), app_assoc.
      apply allBefore_split; [segment|].
      destruct ts, ps, ls; segment.
  - match goal with
    | |- allBefore _ _ (?U ++ ?B ++ ?T ++ (?P ++ ?D) ++ ?L) =>
        replace (U ++ B ++ T ++ (P ++ D) ++ L)
          with ((U ++ B ++ T ++ P) ++ (D ++ L))
          by (rewrite <- !List.app_assoc; reflexivity)
    end.
    apply allBefore_split.
    + destruct bs, ts, ps; segment.
    + destruct ls; segment.
  - match goal with
    | |- allBefore _ _ (?U ++ ?B ++ ?T ++ ?P ++ ?L) =>
        replace (U ++ B ++ T ++ P ++ L)
          with ((U ++ B ++ T ++ P) ++ L)
          by (rewrite <- !List.app_assoc; reflexivity)
    end.
    apply allBefore_split.
    + destruct bs, ts, ps; segment.
    + destruct ls; segment.
  - intros c e err. apply priceChangeStep_skips.
Qed.

(** C4 as stated fails on the book bucket: on a frame with one book event
    the snapshot is put in the cache first and [onBook] runs after it. *)
Lemma book_cache_is_replaced_before_onBook :
  let t :=
    snd (handleEvents (engine := Sample.engine) Sample.everyHandler
           Sample.group ∅ [Sample.bookEvent]) in
  t = [CacheReplaceBook Sample.bookEvent; CallOnBook [Sample.bookEvent]]
  /\ ~ allBefore isCallOnBook isCacheReplaceBook t.
Proof.
  cbv zeta.
  assert (Ht : snd (handleEvents (engine := Sample.engine) Sample.everyHandler
                      Sample.group ∅ [Sample.bookEvent])
               = [CacheReplaceBook Sample.bookEvent; CallOnBook [Sample.bookEvent]])
    by (vm_compute; reflexivity).
  split; [exact Ht|]. rewrite Ht. intros H.
  specialize (H 1%nat 0%nat (CallOnBook [Sample.bookEvent])
                (CacheReplaceBook Sample.bookEvent)
                eq_refl eq_refl eq_refl eq_refl).
  lia.
Qed.


(** One frame with a trade, a price_change and a book snapshot, in that
    order, and a price_change for an asset that has no book: the snapshot
    is stored and announced first, the price_change bucket is finished,
    its failing upsert skipped, before [onLastTradePrice] runs. *)
Example frame_order_sample :
  let group :=
    {| groupId := "g1"; assetIds := ["a"; "b"]; status := ALIVE;
       wsClient := Some Sample.socket |} in
  let orphan :=
    {| asset_id := Some "b"; event_type := Some "price_change";
       timestamp := "1700000000001"; hash := ""; bids := []; asks := [];
       changes := [{| change_price := 1000; change_size := 10000;
                      change_side := BUY |}];
       old_tick_size := ""; new_tick_size := ""; price := ""; trade_size := "";
       side := "" |} in
  map (fun eff =>
         match eff with
         | CacheReplaceBook _ => "replaceBook"
         | CallOnBook _ => "onBook"
         | CallOnPriceChange _ => "onPriceChange"
         | CacheUpsertPriceChange _ => "upsertPriceChange"
         | CallOnPolymarketPriceUpdate _ => "onPolymarketPriceUpdate"
         | CallOnLastTradePrice _ => "onLastTradePrice"
         | LogDebug _ _ => "debug"
         | _ => "other"
         end)
    (snd (handleEvents (engine := Sample.engine) Sample.everyHandler group ∅
            [Sample.lastTradeEvent; orphan; Sample.priceChangeEvent;
             Sample.bookEvent]))
  = ["replaceBook"; "onBook"; "onPriceChange"; "upsertPriceChange"; "debug";
     "upsertPriceChange"; "onPolymarketPriceUpdate"; "onLastTradePrice"].
Proof. vm_compute. reflexivity. Qed.

(** ** Unknown kinds *)

Lemma errorsOf_app (l1 l2 : list Effect) :
  errorsOf (l1 ++ l2) = errorsOf l1 ++ errorsOf l2.
Proof. unfold errorsOf. apply omap_app. Qed.

Lemma errorsOf_none (l : list Effect) :
  Forall (fun eff => isCallOnError eff = false) l -> errorsOf l = [].
Proof.
  induction 1 as [|eff l Heff _ IH]; [reflexivity|].
  unfold errorsOf in *. simpl. destruct eff; simpl in *; try exact IH. discriminate.
Qed.

Lemma errorsOf_unknownCalls {R : Type} (handlers : WebSocketHandlers R)
    (group : WebSocketGroup) (events : list PolymarketWSEvent) :
  is_Some (onError handlers) ->
  errorsOf (unknownCalls handlers group events)
  = map UnknownEvent
      (List.filter (fun e => accepted group e && negb (recognized e)) events).
Proof.
  intros [f Hf]. unfold unknownCalls.
  induction events as [|e events IH]; [reflexivity|].
  simpl. rewrite errorsOf_app, IH.
  destruct (accepted group e && negb (recognized e)); [|reflexivity].
  unfold invoke. rewrite Hf. reflexivity.
Qed.

Lemma user_buckets (events : list User.PolymarketUserWSEvent) (b : User.Buckets) :
  Forall (fun e => User.isOrderEvent e = true) (User.orderEvents b) ->
  Forall (fun e => User.isTradeEvent e = true) (User.tradeEvents b) ->
  Forall (fun e => User.isOrderEvent e = true)
    (User.orderEvents (fold_left User.bucketStep events b))
  /\ Forall (fun e => User.isTradeEvent e = true)
       (User.tradeEvents (fold_left User.bucketStep events b)).
Proof.
  revert b. induction events as [|e events IH]; intros b Ho Ht; [split; assumption|].
  simpl. apply IH; unfold User.bucketStep.
  - destruct (User.isOrderEvent e) eqn:Hoe; simpl.
    + apply Forall_app. split; [exact Ho|repeat constructor; exact Hoe].
    + destruct (User.isTradeEvent e); exact Ho.
  - destruct (User.isOrderEvent e) eqn:Hoe; simpl; [exact Ht|].
    destruct (User.isTradeEvent e) eqn:Hte; simpl; [|exact Ht].
    apply Forall_app. split; [exact Ht|repeat constructor; exact Hte].
Qed.

(** The user socket never calls [onError] on a frame that parses. *)
Lemma user_handleEntries_reports_nothing {R : Type}
    (handlers : User.UserWebSocketHandlers R) (entries : list User.Entry) :
  userErrorsOf (User.handleEntries handlers entries) = [].
Proof.
  unfold User.handleEntries, User.invoke, userErrorsOf.
  destruct (0 <? length _)%nat, (0 <? length _)%nat;
    destruct (User.onOrder handlers), (User.onTrade handlers); reflexivity.
Qed.

(** On the market socket, when [onError] is supplied, it is called once
    for each event of the frame that is accepted (non-empty [asset_id]
    held by the group) and of none of the four kinds, in order, and for
    nothing else; such an event lands in no bucket. *)
Lemma market_reports_unknown_kinds {engine : JS.Engine} {R : Type}
    (handlers : WebSocketHandlers R) (group : WebSocketGroup)
    (cache : gmap string BookEntry) (events : list PolymarketWSEvent) :
  is_Some (onError handlers) ->
  errorsOf (snd (handleEvents handlers group cache events))
  = map UnknownEvent
      (List.filter (fun e => accepted group e && negb (recognized e)) events)
  /\ Forall (fun eff => Forall (fun e => recognized e = true) (handledBy eff))
       (snd (handleEvents handlers group cache events)).
Proof.
  intros Herr.
  split.
  - pose proof (handleEvents_trace handlers group cache events) as Ht.
    cbv zeta in Ht.
    rewrite Ht. cbn [snd].
    rewrite errorsOf_app, (errorsOf_unknownCalls _ _ _ Herr).
    destruct (priceChange_loop handlers
                (fold_left replaceBook (bucketOf group isBookEvent events) cache)
                (bucketOf group isPriceChangeEvent events)) as [H3 _].
    pose proof (lastTrade_loop handlers
                  (fst (JS.forEach (priceChangeStep handlers)
                          (fold_left replaceBook
                             (bucketOf group isBookEvent events) cache)
                          (bucketOf group isPriceChangeEvent events)))
                  (bucketOf group isLastTradePriceEvent events)) as H4.
    revert H3 H4.
    generalize (snd (JS.forEach (lastTradeStep handlers)
                       (fst (JS.forEach (priceChangeStep handlers)
                               (fold_left replaceBook
                                  (bucketOf group isBookEvent events) cache)
                               (bucketOf group isPriceChangeEvent events)))
                       (bucketOf group isLastTradePriceEvent events))) as d4.
    generalize (snd (JS.forEach (priceChangeStep handlers)
                       (fold_left replaceBook
                          (bucketOf group isBookEvent events) cache)
                       (bucketOf group isPriceChangeEvent events))) as d3.
    intros d3 d4 H3 H4.
    rewrite (errorsOf_none (_ ++ _)); [apply app_nil_r|].
    destruct (bucketOf group isBookEvent events),
      (bucketOf group isTickSizeChangeEvent events),
      (bucketOf group isPriceChangeEvent events),
      (bucketOf group isLastTradePriceEvent events); segment.
  - rewrite handleEvents_by_kind.
    pose proof (bucketOf_Forall group isBookEvent events) as Hb.
    pose proof (bucketOf_Forall group isTickSizeChangeEvent events) as Ht.
    pose proof (bucketOf_Forall group isPriceChangeEvent events) as Hp.
    pose proof (bucketOf_Forall group isLastTradePriceEvent events) as Hl.
    revert Hb Ht Hp Hl.
    generalize (bucketOf group isBookEvent events) as bs.
    generalize (bucketOf group isTickSizeChangeEvent events) as ts.
    generalize (bucketOf group isPriceChangeEvent events) as ps.
    generalize (bucketOf group isLastTradePriceEvent events) as ls.
    intros ls ps ts bs Hb Ht Hp Hl.
    assert (Hrec : forall (isKind : PolymarketWSEvent -> bool) l,
               (forall e, isKind e = true -> recognized e = true) ->
               Forall (fun e => accepted group e = true /\ isKind e = true) l ->
               Forall (fun e => recognized e = true) l).
    { intros isKind l Hk Hall. eapply List.Forall_impl; [|exact Hall].
      intros e [_ He]. apply Hk, He. }
    assert (Rb := Hrec isBookEvent bs
             (fun e H => ltac:(unfold recognized; rewrite H; reflexivity)) Hb).
    assert (Rt := Hrec isTickSizeChangeEvent ts
             (fun e H => ltac:(unfold recognized; rewrite H, !orb_true_r; reflexivity)) Ht).
    assert (Rp := Hrec isPriceChangeEvent ps
             (fun e H => ltac:(unfold recognized; rewrite H, !orb_true_r; reflexivity)) Hp).
    assert (Rl := Hrec isLastTradePriceEvent ls
             (fun e H => ltac:(unfold recognized; rewrite H, !orb_true_r; reflexivity)) Hl).
    clear Hb Ht Hp Hl Hrec.
    set (Q := fun eff : Effect =>
                Forall (fun e => recognized e = true) (handledBy eff)).
    assert (Hinv : forall X (h : option X) call, Q call -> Forall Q (invoke h call)).
    { intros X h call Hc. destruct h; repeat constructor. exact Hc. }
    assert (Hder : forall e eff, recognized e = true -> derivedFor e eff -> Q eff).
    { intros e eff He Hd. unfold Q. destruct eff; simpl in *; try contradiction;
        try constructor.
      destruct events0 as [|u [|u' us]]; try contradiction.
      simpl. subst e. repeat constructor. exact He. }
    assert (Hbook : forall c, Forall Q (snd (handleBookEvents handlers c bs))).
    { intros c. rewrite handleBookEvents_eq. destruct bs as [|b bs']; [constructor|].
      cbn [snd]. apply Forall_app. split.
      - apply List.Forall_map. eapply List.Forall_impl; [|exact Rb].
        intros e He. unfold Q. simpl. repeat constructor. exact He.
      - apply Hinv. exact Rb. }
    assert (Htick : Forall Q (handleTickEvents handlers ts)).
    { unfold handleTickEvents. destruct ts; [constructor|]. apply Hinv. exact Rt. }
    assert (Hprice : forall c, Forall Q (snd (handlePriceChangeEvents handlers c ps))).
    { intros c. rewrite handlePriceChangeEvents_eq.
      destruct ps as [|p ps']; [constructor|]. cbn [snd].
      apply Forall_app. split; [apply Hinv; exact Rp|].
      apply (forEach_Forall _ (fun e => recognized e = true)); [|exact Rp].
      intros s x Hx. destruct (priceChangeStep_shape handlers s x) as [rest [-> Hrest]].
      constructor; [unfold Q; simpl; repeat constructor; exact Hx|].
      eapply List.Forall_impl; [|exact Hrest]. intros eff. apply Hder, Hx. }
    assert (Hlast : forall c, Forall Q (snd (handleLastTradeEvents handlers c ls))).
    { intros c. rewrite handleLastTradeEvents_eq.
      destruct ls as [|l ls']; [constructor|]. cbn [snd].
      apply Forall_app. split; [apply Hinv; exact Rl|].
      apply (forEach_Forall _ (fun e => recognized e = true)); [|exact Rl].
      intros s x Hx. eapply List.Forall_impl; [|apply lastTradeStep_shape].
      intros eff. apply Hder, Hx. }
    specialize (Hbook cache).
    destruct (handleBookEvents handlers cache bs) as [c1 t1].
    specialize (Hprice c1).
    destruct (handlePriceChangeEvents handlers c1 ps) as [c3 t3].
    specialize (Hlast c3).
    destruct (handleLastTradeEvents handlers c3 ls) as [c4 t4].
    simpl in *. repeat (apply Forall_app; split); try assumption.
    eapply List.Forall_impl; [|apply unknownCalls_errors].
    intros eff [e ->]. unfold Q. constructor.
Qed.

(** On the user socket only order events reach [onOrder] and only trade
    events reach [onTrade]. *)
Lemma user_delivers_recognized_only {R : Type}
    (userHandlers : User.UserWebSocketHandlers R) (entries : list User.Entry) :
  Forall (fun e => userRecognized e = true)
    (userDelivered (User.handleEntries userHandlers entries)).
Proof.
  unfold User.handleEntries.
  destruct (user_buckets (omap User.validStructure entries)
              {| User.orderEvents := []; User.tradeEvents := [] |})
    as [Ho Ht]; [constructor|constructor|].
  set (b := fold_left User.bucketStep _ _) in *.
  assert (Ro : Forall (fun e => userRecognized e = true) (User.orderEvents b)).
  { eapply List.Forall_impl; [|exact Ho]. intros e He.
    unfold userRecognized. rewrite He. reflexivity. }
  assert (Rt : Forall (fun e => userRecognized e = true) (User.tradeEvents b)).
  { eapply List.Forall_impl; [|exact Ht]. intros e He.
    unfold userRecognized. rewrite He. apply orb_true_r. }
  unfold userDelivered, User.invoke.
  destruct (0 <? length (User.orderEvents b))%nat,
    (0 <? length (User.tradeEvents b))%nat,
    (User.onOrder userHandlers), (User.onTrade userHandlers);
    simpl; rewrite ?app_nil_r; try constructor;
    try (apply Forall_app; split); assumption.
Qed.

(** C7 on the user channel. [handleMessage] of the user socket has no
    branch for a kind it does not know: on every frame that parses it
    calls [onError] for nothing, whatever the handlers, and hands
    [onOrder] and [onTrade] order and trade events only. On a frame of one
    event of the kind "unknown_kind", with [onError] supplied, it does
    nothing at all; the market socket on the like frame, the event's asset
    held by the group, calls [onError] once. *)
Theorem user_socket_drops_unknown_kinds_silently :
  (forall (R : Type) (userHandlers : User.UserWebSocketHandlers R)
          (userGroup : User.UserWebSocketGroup) (parsedData : User.ParsedData)
          (data : string),
      let run :=
        User.handleMessage (fun _ => Some parsedData) userHandlers userGroup
          data in
      fst run = userGroup
      /\ userErrorsOf (snd run) = []
      /\ Forall (fun e => userRecognized e = true) (userDelivered (snd run)))
  /\ is_Some (User.onError Sample.everyUserHandler)
  /\ userRecognized (Sample.userEvent "unknown_kind") = false
  /\ User.handleMessage
       (fun _ => Some (User.JValue (User.Object (Sample.userEvent "unknown_kind"))))
       Sample.everyUserHandler Sample.userGroup "{...}"
     = (Sample.userGroup, [])
  /\ recognized (Sample.event (Some "a") "unknown_kind") = false
  /\ handleMessage (engine := Sample.engine)
       (fun _ => Some (JValue (Object (Sample.event (Some "a") "unknown_kind"))))
       Sample.everyHandler Sample.group ∅ "{...}"
     = ((Sample.group, ∅),
        [CallOnError (UnknownEvent (Sample.event (Some "a") "unknown_kind"))]).
Proof.
  split.
  - intros R userHandlers userGroup parsedData data. cbv zeta.
    unfold User.handleMessage. cbn [fst snd].
    split; [reflexivity|].
    split; [apply user_handleEntries_reports_nothing
           |apply user_delivers_recognized_only].
  - split; [eexists; reflexivity|]. repeat split; vm_compute; reflexivity.
Qed.

(** One unknown event of a held asset is reported, one of another asset is
    not. *)
Example unknown_kind_reported_once :
  errorsOf
    (snd (handleEvents (engine := Sample.engine) Sample.everyHandler
            Sample.group ∅
            [Sample.event (Some "a") "unknown_kind"; Sample.bookEvent;
             Sample.event (Some "b") "unknown_kind"]))
  = [UnknownEvent (Sample.event (Some "a") "unknown_kind")].
Proof. vm_compute. reflexivity. Qed.


(** ** Frames that are not JSON *)

(** C9. On a frame that [JSON.parse] rejects, [handleMessage] of either
    socket leaves the group (status and socket handle) and, on the market
    side, the cache as they were, and does one thing only: the call of
    [onError] with the "Not JSON" error, when that handler is supplied. *)
Theorem not_json_is_reported_and_changes_nothing :
  forall (engine : JS.Engine) (R : Type) (handlers : WebSocketHandlers R)
         (group : WebSocketGroup) (cache : gmap string BookEntry)
         (JSON_parse : string -> option ParsedData)
         (UR : Type) (userHandlers : User.UserWebSocketHandlers UR)
         (userGroup : User.UserWebSocketGroup)
         (user_JSON_parse : string -> option User.ParsedData)
         (data : string),
    JSON_parse data = None ->
    user_JSON_parse data = None ->
    (exists t,
        handleMessage JSON_parse handlers group cache data = ((group, cache), t)
        /\ (is_Some (onError handlers) -> t = [CallOnError (NotJSON data)])
        /\ (onError handlers = None -> t = []))
    /\ (exists t,
           User.handleMessage user_JSON_parse userHandlers userGroup data
           = (userGroup, t)
           /\ (is_Some (User.onError userHandlers)
               -> t = [User.CallOnError (User.NotJSON data)])
           /\ (User.onError userHandlers = None -> t = [])).
Proof.
  intros engine R handlers group cache JSON_parse UR userHandlers userGroup
    user_JSON_parse data Hm Hu.
  split.
  - unfold handleMessage. rewrite Hm. eexists. split; [reflexivity|].
    unfold invoke. split.
    + intros [f ->]. reflexivity.
    + intros ->. reflexivity.
  - unfold User.handleMessage. rewrite Hu. eexists. split; [reflexivity|].
    unfold User.invoke. split.
    + intros [f ->]. reflexivity.
    + intros ->. reflexivity.
Qed.

(** C9 at the text frame "PONG". *)
Lemma not_json_is_reported_and_changes_nothing_witness :
  Sample.rejectAll (A := ParsedData) "PONG" = None
  /\ Sample.rejectAll (A := User.ParsedData) "PONG" = None
  /\ (exists t,
         handleMessage (engine := Sample.engine) Sample.rejectAll
           Sample.everyHandler Sample.group Sample.tightCache "PONG"
         = ((Sample.group, Sample.tightCache), t)
         /\ (is_Some (onError Sample.everyHandler) -> t = [CallOnError (NotJSON "PONG")])
         /\ (onError Sample.everyHandler = None -> t = []))
  /\ (exists t,
         User.handleMessage Sample.rejectAll Sample.everyUserHandler
           Sample.userGroup "PONG"
         = (Sample.userGroup, t)
         /\ (is_Some (User.onError Sample.everyUserHandler)
             -> t = [User.CallOnError (User.NotJSON "PONG")])
         /\ (User.onError Sample.everyUserHandler = None -> t = [])).
Proof.
  split; [reflexivity|]. split; [reflexivity|].
  apply (not_json_is_reported_and_changes_nothing Sample.engine unit
           Sample.everyHandler
           Sample.group Sample.tightCache Sample.rejectAll
           unit Sample.everyUserHandler Sample.userGroup Sample.rejectAll "PONG");
    reflexivity.
Defined.

(** ** Handler wrapping in the two managers *)

Lemma indicesFrom_length (registry : list WebSocketGroup) (assetId : option string)
    (i : nat) :
  length (indicesFrom i registry assetId)
  = length (List.filter (fun g => JS.has (assetIds g) assetId) registry).
Proof.
  revert i. induction registry as [|g registry IH]; intros i; [reflexivity|].
  simpl. destruct (JS.has (assetIds g) assetId); simpl; rewrite IH; reflexivity.
Qed.

Lemma filter_nonempty_existsb {A : Type} (p : A -> bool) (l : list A) :
  (0 <? length (List.filter p l))%nat = existsb p l.
Proof.
  induction l as [|x l IH]; [reflexivity|]. simpl.
  destruct (p x); simpl; [reflexivity|exact IH].
Qed.

Lemma indices_nonempty (registry : GroupRegistry) (assetId : option string) :
  (0 <? length (getGroupIndicesForAsset registry assetId))%nat
  = heldBySomeGroup registry assetId.
Proof.
  unfold getGroupIndicesForAsset, heldBySomeGroup.
  rewrite indicesFrom_length. apply filter_nonempty_existsb.
Qed.

Lemma filterSubscribedEvents_eq {T : Type} `{HasAssetId T}
    (registry : GroupRegistry) (events : list T) :
  filterSubscribedEvents registry events
  = (List.filter (fun e => heldBySomeGroup registry (assetIdOf e)) events,
     flat_map (fun e =>
                 if (1 <? length (getGroupIndicesForAsset registry (assetIdOf e)))%nat
                 then [FoundMultipleGroups (assetIdOf e)
                         (getGroupIndicesForAsset registry (assetIdOf e))]
                 else []) events).
Proof.
  induction events as [|e events IH]; [reflexivity|].
  cbn [filterSubscribedEvents]. rewrite IH. simpl.
  rewrite indices_nonempty. reflexivity.
Qed.

(** C5. The market manager's filter keeps exactly the events whose asset
    is held by at least one group, in order, and warns once for each event
    whose asset is held by more than one; the user manager's filter lets
    everything through when some group has [subscribeToAll] and otherwise
    keeps exactly the events whose market some group holds. Every event
    handler the managers give their sockets is [actOnSubscribedEvents] on
    the user's callback, and with a callback supplied that callback runs on
    the filtered batch, empty or not. *)
Theorem handlers_receive_filtered_batches :
  forall (R : Type) (registry : GroupRegistry) (userHandlers : WebSocketHandlers R)
         (userRegistry : User.UserGroupRegistry)
         (userUserHandlers : User.UserWebSocketHandlers R),
    (forall (events : list PolymarketWSEvent),
        fst (filterSubscribedEvents registry events)
        = List.filter (fun e => heldBySomeGroup registry (asset_id e)) events
        /\ snd (filterSubscribedEvents registry events)
           = flat_map (fun e =>
                         if (1 <? length (getGroupIndicesForAsset registry (asset_id e)))%nat
                         then [FoundMultipleGroups (asset_id e)
                                 (getGroupIndicesForAsset registry (asset_id e))]
                         else []) events)
    /\ (forall (updates : list PolymarketPriceUpdateEvent),
          fst (filterSubscribedEvents registry updates)
          = List.filter (fun e => heldBySomeGroup registry (pu_asset_id e)) updates)
    /\ (forall assetId : option string,
          (heldBySomeGroup registry assetId = true
           <-> exists g a, In g registry /\ assetId = Some a /\ In a (assetIds g))
          /\ length (getGroupIndicesForAsset registry assetId)
             = length (List.filter (fun g => JS.has (assetIds g) assetId) registry))
    /\ (forall (events : list User.PolymarketUserWSEvent),
          fst (User.filterSubscribedEvents userRegistry events)
          = if existsb User.subscribeToAll userRegistry then events
            else List.filter (marketSubscribed userRegistry) events)
    /\ (forall event : User.PolymarketUserWSEvent,
          marketSubscribed userRegistry event = true
          <-> exists g, In g userRegistry
                        /\ In (default "" (User.market event)) (User.marketIds g))
    /\ (forall (T L : Type) (filter : list T -> list T * list L)
               (events : list T) (action : list T -> R),
          BaseSubscriptionManager.actOnSubscribedEvents filter events (Some action)
          = (snd (filter events), Some (action (fst (filter events))))
          /\ (fst (filter events) = [] ->
              snd (BaseSubscriptionManager.actOnSubscribedEvents
                     filter events (Some action)) = Some (action [])))
    /\ (let wrapped := setupHandlers registry userHandlers in
        let act {T : Type} `{HasAssetId T} (events : list T) action :=
          BaseSubscriptionManager.actOnSubscribedEvents
            (filterSubscribedEvents registry) events action in
        (exists f, onBook wrapped = Some f
                   /\ forall events, f events = act events (onBook userHandlers))
        /\ (exists f, onLastTradePrice wrapped = Some f
                      /\ forall events, f events = act events (onLastTradePrice userHandlers))
        /\ (exists f, onTickSizeChange wrapped = Some f
                      /\ forall events, f events = act events (onTickSizeChange userHandlers))
        /\ (exists f, onPriceChange wrapped = Some f
                      /\ forall events, f events = act events (onPriceChange userHandlers))
        /\ (exists f, onPolymarketPriceUpdate wrapped = Some f
                      /\ forall events,
                           f events = act events (onPolymarketPriceUpdate userHandlers)))
    /\ (let wrapped := User.setupHandlers userRegistry userUserHandlers in
        (exists f, User.onOrder wrapped = Some f
                   /\ forall events,
                        f events
                        = BaseSubscriptionManager.actOnSubscribedEvents
                            (User.filterSubscribedEvents userRegistry) events
                            (User.onOrder userUserHandlers))
        /\ (exists f, User.onTrade wrapped = Some f
                      /\ forall events,
                           f events
                           = BaseSubscriptionManager.actOnSubscribedEvents
                               (User.filterSubscribedEvents userRegistry) events
                               (User.onTrade userUserHandlers))).
Proof.
  intros R registry userHandlers userRegistry userUserHandlers.
  repeat match goal with |- _ /\ _ => split end.
  - intros events. rewrite filterSubscribedEvents_eq. split; reflexivity.
  - intros updates. rewrite filterSubscribedEvents_eq. reflexivity.
  - intros assetId. split; [|apply indicesFrom_length].
    unfold heldBySomeGroup. rewrite existsb_exists. split.
    + intros [g [Hg Hh]]. apply has_true_iff in Hh. destruct Hh as [a [Ha Hin]].
      exists g, a. auto.
    + intros [g [a [Hg [Ha Hin]]]]. exists g. split; [exact Hg|].
      apply has_true_iff. eauto.
  - intros events. unfold User.filterSubscribedEvents, User.hasSubscribeToAll.
    destruct (existsb User.subscribeToAll userRegistry); reflexivity.
  - intros event. unfold marketSubscribed. rewrite existsb_exists. split.
    + intros [g [Hg Hm]]. exists g. split; [exact Hg|].
      apply existsb_exists in Hm. destruct Hm as [m [Hm Heq]].
      apply String.eqb_eq in Heq. subst m. exact Hm.
    + intros [g [Hg Hm]]. exists g. split; [exact Hg|].
      apply existsb_exists. eexists. split; [exact Hm|apply String.eqb_refl].
  - intros T L filter events action.
    unfold BaseSubscriptionManager.actOnSubscribedEvents.
    destruct (filter events) as [kept logged]. simpl.
    split; [reflexivity|]. intros ->. reflexivity.
  - cbv zeta. repeat split; eexists; (split; [reflexivity|]); intros; reflexivity.
  - cbv zeta. repeat split; eexists; (split; [reflexivity|]); intros; reflexivity.
Qed.

(** Nothing passes the filter, the user's callback still runs, on []. *)
Example empty_batch_still_delivered :
  (fun wrapped => wrapped [Sample.bookEvent])
    <$> onBook (setupHandlers [] Sample.everyHandler)
  = Some ([], Some tt).
Proof. reflexivity. Qed.

(** ** Websocket open *)

(** What [handleOpen] of the user socket does, case by case. *)
Lemma user_handleOpen_cases {R : Type} (handlers : User.UserWebSocketHandlers R)
    (group : User.UserWebSocketGroup) :
  (User.shouldCleanup group = true ->
   User.handleOpen handlers group = (User.setGroupStatus group CLEANUP, []))
  /\ (User.shouldCleanup group = false -> User.wsClient group = None ->
      User.handleOpen handlers group = (User.setGroupStatus group DEAD, []))
  /\ (forall client,
        User.shouldCleanup group = false -> User.wsClient group = Some client ->
        sendThrows client = true ->
        User.status (fst (User.handleOpen handlers group)) = DEAD)
  /\ (forall client,
        User.shouldCleanup group = false -> User.wsClient group = Some client ->
        sendThrows client = false ->
        User.handleOpen handlers group
        = (User.setGroupStatus group ALIVE,
           User.WsSend (User.createSubscriptionMessage group)
             :: User.invoke (User.onWSOpen handlers)
                  (User.CallOnWSOpen (User.groupId group) (User.marketIds group))
             ++ [User.StartPingInterval])).
Proof.
  unfold User.handleOpen, User.getWebSocketClient. repeat split.
  - intros ->. reflexivity.
  - intros -> ->. reflexivity.
  - intros client -> -> ->. reflexivity.
  - intros client -> -> ->. reflexivity.
Qed.

(** What [handleOpen] of the market socket does, case by case. *)
Lemma market_handleOpen_cases {R : Type} (handlers : WebSocketHandlers R)
    (initialDump : bool) (group : WebSocketGroup) :
  (shouldCleanup group = true ->
   handleOpen handlers initialDump group = (setGroupStatus group CLEANUP, []))
  /\ (shouldCleanup group = false -> wsClient group = None ->
      handleOpen handlers initialDump group
      = (setGroupStatus group ALIVE,
         invoke (onWSOpen handlers) (CallOnWSOpen (groupId group) (assetIds group))
           ++ [StartPingInterval]))
  /\ (forall client,
        shouldCleanup group = false -> wsClient group = Some client ->
        sendThrows client = true ->
        status (fst (handleOpen handlers initialDump group)) = DEAD)
  /\ (forall client,
        shouldCleanup group = false -> wsClient group = Some client ->
        sendThrows client = false ->
        handleOpen handlers initialDump group
        = (setGroupStatus group ALIVE,
           WsSend (createSubscriptionMessage initialDump group)
             :: invoke (onWSOpen handlers)
                  (CallOnWSOpen (groupId group) (assetIds group))
             ++ [StartPingInterval])).
Proof.
  unfold handleOpen, getWebSocketClient. repeat split.
  - intros ->. reflexivity.
  - intros -> Hc. simpl. rewrite Hc. reflexivity.
  - intros client -> Hc Hs. simpl. rewrite Hc, Hs. reflexivity.
  - intros client -> Hc Hs. simpl. rewrite Hc, Hs. reflexivity.
Qed.

(** C6 at a group that still has a key but whose socket handle is gone
    when the open event is handled: the user socket sets the group DEAD and
    stops; the market socket has set it ALIVE before looking at the handle,
    sends nothing, and goes on to call [onWSOpen] and start the
    heartbeat. *)
Lemma market_open_without_socket_stays_alive :
  handleOpen Sample.everyHandler true Sample.groupWithoutSocket
  = (setGroupStatus Sample.groupWithoutSocket ALIVE,
     [CallOnWSOpen "g1" ["a"]; StartPingInterval])
  /\ User.handleOpen Sample.everyUserHandler Sample.userGroupWithoutSocket
     = (User.setGroupStatus Sample.userGroupWithoutSocket DEAD, []).
Proof. split; reflexivity. Qed.

(** ** Constructor defaults *)


(** The class WSSubscriptionManager of the sources, which the package
    does not export, hands the base constructor no default: its limit is
    the base class's 100. An explicit option wins, a 0 does not. *)
Example explicit_maxMarketsPerWS :
  BaseSubscriptionManager.this_maxMarketsPerWS (Market.constructor None)
  = JS.ofZ 100
  /\ BaseSubscriptionManager.this_maxMarketsPerWS
       (Market.marketConstructor
          (Some {| BaseSubscriptionManager.reconnectAndCleanupIntervalMs := None;
                   BaseSubscriptionManager.maxMarketsPerWS := Some (JS.ofZ 7) |}))
     = JS.ofZ 7
  /\ BaseSubscriptionManager.this_maxMarketsPerWS
       (User.constructor
          {| BaseSubscriptionManager.reconnectAndCleanupIntervalMs := None;
             BaseSubscriptionManager.maxMarketsPerWS := Some (JS.ofZ 0) |})
     = JS.ofZ 100.
Proof. repeat split; reflexivity. Qed.

(** * Further properties of the code *)

(** ** The book cache under the market pipeline *)

Lemma announce_consistent {R : Type} (h : WebSocketHandlers R)
    (cache : gmap string BookEntry) (e : PolymarketWSEvent) (entry : BookEntry)
    (p : string) (updates : list PolymarketPriceUpdateEvent) :
  getBookEntry cache (asset_id e) = Some entry ->
  In updates (priceUpdatesOf (snd (announce h cache e entry p))) ->
  exists u entry',
    updates = [u]
    /\ pu_event_type u = "price_update"
    /\ pu_triggeringEvent u = e
    /\ pu_asset_id u = asset_id e
    /\ pu_timestamp u = timestamp e
    /\ getBookEntry (fst (announce h cache e entry p)) (asset_id e) = Some entry'
    /\ book_price entry' = pu_price u
    /\ pu_book u = (book_bids entry', book_asks entry')
    /\ pu_midpoint u = book_midpoint entry'
    /\ pu_spread u = book_spread entry'.
Proof.
  intros Hentry Hin. unfold getBookEntry, lookupEntry in Hentry.
  destruct (asset_id e) as [a|] eqn:Ha; [|discriminate].
  unfold announce, storePrice, invoke in *. rewrite Ha in *.
  destruct (bool_decide (p <> book_price entry)); [|destruct Hin].
  destruct (onPolymarketPriceUpdate h); [|destruct Hin].
  simpl in Hin. destruct Hin as [<-|[]].
  exists (priceUpdateEvent e entry p), (withPrice entry p).
  simpl. rewrite lookup_insert_eq. repeat split; auto.
Qed.

(** X2. Whatever update either derived-price loop hands to
    [onPolymarketPriceUpdate] for an event is a single "price_update" that
    names that event as its trigger and carries its asset id and
    timestamp; the price it announces is the price the cache entry of that
    asset holds right after, and its book, midpoint and spread are that
    entry's. *)
Theorem price_update_matches_cache :
  forall (engine : JS.Engine) (R : Type) (handlers : WebSocketHandlers R)
         (cache : gmap string BookEntry) (event : PolymarketWSEvent)
         (step : gmap string BookEntry * list Effect)
         (updates : list PolymarketPriceUpdateEvent),
    step = priceChangeStep handlers cache event
    \/ step = lastTradeStep handlers cache event ->
    In updates (priceUpdatesOf (snd step)) ->
    exists u entry,
      updates = [u]
      /\ pu_event_type u = "price_update"
      /\ pu_triggeringEvent u = event
      /\ pu_asset_id u = asset_id event
      /\ pu_timestamp u = timestamp event
      /\ getBookEntry (fst step) (asset_id event) = Some entry
      /\ book_price entry = pu_price u
      /\ pu_book u = (book_bids entry, book_asks entry)
      /\ pu_midpoint u = book_midpoint entry
      /\ pu_spread u = book_spread entry.
Proof.
  intros engine R h cache e step updates [-> | ->] Hin.
  - unfold priceChangeStep in *.
    destruct (upsertPriceChange cache e) as [c1|]; [|destruct Hin].
    destruct (spreadOver c1 (asset_id e) TEN_CENTS) as [[c2 [|]]|]; simpl in *;
      try (destruct Hin; fail).
    destruct (midpoint c2 (asset_id e)) as [[c3 p]|]; [|destruct Hin].
    destruct (getBookEntry c3 (asset_id e)) as [entry|] eqn:Hen; [|destruct Hin].
    pose proof (announce_consistent h c3 e entry p updates Hen) as H.
    destruct (announce h c3 e entry p) as [c4 t]. simpl in *. apply H, Hin.
  - unfold lastTradeStep in *.
    destruct (spreadOver cache (asset_id e) TEN_CENTS) as [[c2 [|]]|]; simpl in *;
      try (destruct Hin; fail).
    destruct (getBookEntry c2 (asset_id e)) as [entry|] eqn:Hen; [|destruct Hin].
    apply (announce_consistent h c2 e entry _ updates Hen), Hin.
Qed.

(** X2 at the spec's last-trade scenario. *)
Lemma price_update_matches_cache_witness :
  let engine := Sample.engine in
  exists u entry,
    [priceUpdateEvent Sample.lastTradeEvent Sample.wideEntry "0.7"] = [u]
    /\ pu_event_type u = "price_update"
    /\ pu_triggeringEvent u = Sample.lastTradeEvent
    /\ pu_asset_id u = asset_id Sample.lastTradeEvent
    /\ pu_timestamp u = timestamp Sample.lastTradeEvent
    /\ getBookEntry
         (fst (lastTradeStep Sample.everyHandler Sample.wideCache
                 Sample.lastTradeEvent))
         (asset_id Sample.lastTradeEvent) = Some entry
    /\ book_price entry = pu_price u
    /\ pu_book u = (book_bids entry, book_asks entry)
    /\ pu_midpoint u = book_midpoint entry
    /\ pu_spread u = book_spread entry.
Proof.
  cbv zeta.
  apply (price_update_matches_cache Sample.engine unit Sample.everyHandler
           Sample.wideCache Sample.lastTradeEvent
           (lastTradeStep (engine := Sample.engine) Sample.everyHandler
              Sample.wideCache Sample.lastTradeEvent)
           [priceUpdateEvent Sample.lastTradeEvent Sample.wideEntry "0.7"]).
  - right. reflexivity.
  - vm_compute. left. reflexivity.
Defined.

(** ** Assets without a cached book *)

Lemma priceUpdatesOf_none (t : list Effect) :
  Forall Further.notAnUpdate t -> priceUpdatesOf t = [].
Proof.
  induction 1 as [|eff t Heff _ IH]; [reflexivity|].
  unfold priceUpdatesOf in *. simpl.
  destruct eff; simpl in *; try exact IH. contradiction.
Qed.

Lemma priceChange_loop_without_book {R : Type} (h : WebSocketHandlers R)
    (events : list PolymarketWSEvent) (cache : gmap string BookEntry) :
  (forall e, In e events -> getBookEntry cache (asset_id e) = None) ->
  fst (JS.forEach (priceChangeStep h) cache events) = cache
  /\ Forall Further.notAnUpdate (snd (JS.forEach (priceChangeStep h) cache events)).
Proof.
  induction events as [|e events IH]; intros Hno; [split; [reflexivity|constructor]|].
  rewrite forEach_cons.
  assert (Hstep : priceChangeStep h cache e
                  = (cache,
                     [CacheUpsertPriceChange e;
                      LogDebug "Skipping derived future price calculation price_change: book not found for asset"
                        (asset_id e)])).
  { specialize (Hno e (or_introl eq_refl)).
    unfold priceChangeStep, upsertPriceChange.
    unfold getBookEntry, lookupEntry in Hno.
    destruct (asset_id e) as [a|]; [rewrite Hno|]; reflexivity. }
  rewrite Hstep. simpl.
  destruct IH as [IH1 IH2]; [intros e' He'; apply Hno; right; exact He'|].
  split; [exact IH1|]. repeat constructor. exact IH2.
Qed.

Lemma lastTrade_loop_without_book {engine : JS.Engine} {R : Type}
    (h : WebSocketHandlers R)
    (events : list PolymarketWSEvent) (cache : gmap string BookEntry) :
  (forall e, In e events -> getBookEntry cache (asset_id e) = None) ->
  fst (JS.forEach (lastTradeStep h) cache events) = cache
  /\ Forall Further.notAnUpdate (snd (JS.forEach (lastTradeStep h) cache events)).
Proof.
  induction events as [|e events IH]; intros Hno; [split; [reflexivity|constructor]|].
  rewrite forEach_cons.
  assert (Hstep : lastTradeStep h cache e
                  = (cache,
                     [LogDebug "Skipping derived future price calculation for last_trade_price: error calculating spread"
                        (asset_id e)])).
  { specialize (Hno e (or_introl eq_refl)).
    unfold lastTradeStep, spreadOver. unfold getBookEntry, lookupEntry in Hno.
    destruct (asset_id e) as [a|]; [rewrite Hno|]; reflexivity. }
  rewrite Hstep. simpl.
  destruct IH as [IH1 IH2]; [intros e' He'; apply Hno; right; exact He'|].
  split; [exact IH1|]. repeat constructor. exact IH2.
Qed.

Lemma invoke_notAnUpdate {X : Type} (handler : option X) (call : Effect) :
  Further.notAnUpdate call -> Forall Further.notAnUpdate (invoke handler call).
Proof. intros H. destruct handler; repeat constructor. exact H. Qed.

(** X5. A frame that brings no book snapshot and whose events are all for
    assets without a cached book leaves the cache as it was and announces
    no price: each price_change and last_trade_price event is skipped with
    a debug line and the loop goes on. *)
Theorem no_cached_book_no_derived_price :
  forall (engine : JS.Engine) (R : Type) (handlers : WebSocketHandlers R)
         (group : WebSocketGroup) (cache : gmap string BookEntry)
         (events : list PolymarketWSEvent),
    (forall e, In e events -> isBookEvent e = false) ->
    (forall e, In e events -> getBookEntry cache (asset_id e) = None) ->
    fst (handleEvents handlers group cache events) = cache
    /\ priceUpdatesOf (snd (handleEvents handlers group cache events)) = [].
Proof.
  intros engine R h group cache events Hnb Hno.
  rewrite handleEvents_by_kind.
  assert (Hbs : bucketOf group isBookEvent events = []).
  { unfold bucketOf. apply filter_none. apply List.Forall_forall.
    intros e He. rewrite (Hnb e He). apply andb_false_r. }
  rewrite Hbs. cbn [handleBookEvents].
  assert (Hsub : forall isKind e, In e (bucketOf group isKind events) ->
                   getBookEntry cache (asset_id e) = None).
  { intros isKind e He. apply List.filter_In in He. apply Hno, He. }
  destruct (priceChange_loop_without_book h
              (bucketOf group isPriceChangeEvent events) cache
              (Hsub isPriceChangeEvent)) as [Hp1 Hp2].
  destruct (lastTrade_loop_without_book h
              (bucketOf group isLastTradePriceEvent events) cache
              (Hsub isLastTradePriceEvent)) as [Hl1 Hl2].
  assert (Hu : Forall Further.notAnUpdate (unknownCalls h group events)).
  { eapply List.Forall_impl; [|apply unknownCalls_errors]. intros ? [? ->]. exact I. }
  assert (Ht : Forall Further.notAnUpdate
                 (handleTickEvents h (bucketOf group isTickSizeChangeEvent events))).
  { unfold handleTickEvents.
    destruct (bucketOf group isTickSizeChangeEvent events); [constructor|].
    apply invoke_notAnUpdate. exact I. }
  assert (Hp : handlePriceChangeEvents h cache
                 (bucketOf group isPriceChangeEvent events)
               = (cache, snd (handlePriceChangeEvents h cache
                                (bucketOf group isPriceChangeEvent events)))
               /\ Forall Further.notAnUpdate
                    (snd (handlePriceChangeEvents h cache
                            (bucketOf group isPriceChangeEvent events)))).
  { rewrite handlePriceChangeEvents_eq.
    destruct (bucketOf group isPriceChangeEvent events) as [|p ps];
      [split; [reflexivity|constructor]|].
    cbn [fst snd]. rewrite Hp1. split; [reflexivity|].
    apply Forall_app. split; [apply invoke_notAnUpdate; exact I|exact Hp2]. }
  assert (Hl : handleLastTradeEvents h cache
                 (bucketOf group isLastTradePriceEvent events)
               = (cache, snd (handleLastTradeEvents h cache
                                (bucketOf group isLastTradePriceEvent events)))
               /\ Forall Further.notAnUpdate
                    (snd (handleLastTradeEvents h cache
                            (bucketOf group isLastTradePriceEvent events)))).
  { rewrite handleLastTradeEvents_eq.
    destruct (bucketOf group isLastTradePriceEvent events) as [|l ls];
      [split; [reflexivity|constructor]|].
    cbn [fst snd]. rewrite Hl1. split; [reflexivity|].
    apply Forall_app. split; [apply invoke_notAnUpdate; exact I|exact Hl2]. }
  destruct Hp as [Hp Hp']. destruct Hl as [Hl Hl'].
  rewrite Hp, Hl. cbn [fst snd].
  split; [reflexivity|]. apply priceUpdatesOf_none.
  repeat (apply Forall_app; split); try assumption; constructor.
Qed.

(** X5 on an empty cache: a price_change and a trade for the asset "a". *)
Lemma no_cached_book_no_derived_price_witness :
  let engine := Sample.engine in
  fst (handleEvents Sample.everyHandler Sample.group ∅
         [Sample.priceChangeEvent; Sample.lastTradeEvent]) = ∅
  /\ priceUpdatesOf
       (snd (handleEvents Sample.everyHandler Sample.group ∅
               [Sample.priceChangeEvent; Sample.lastTradeEvent])) = [].
Proof.
  cbv zeta.
  apply (no_cached_book_no_derived_price Sample.engine unit Sample.everyHandler
           Sample.group ∅ [Sample.priceChangeEvent; Sample.lastTradeEvent]).
  - intros e [<-|[<-|[]]]; reflexivity.
  - intros e [<-|[<-|[]]]; reflexivity.
Defined.

(** ** From the socket to the user's callback *)

Section Delivery.
Context {engine : JS.Engine} {R : Type}.
Variable handlers : WebSocketHandlers R.
Variable group : WebSocketGroup.
Variable Q : Effect -> Prop.

Hypothesis Q_other :
  forall eff, Further.batchEvents eff = [] -> Further.notAnUpdate eff -> Q eff.
Hypothesis Q_batch :
  forall events, Forall (fun e => accepted group e = true) events ->
    Q (CallOnBook events) /\ Q (CallOnTickSizeChange events)
    /\ Q (CallOnPriceChange events) /\ Q (CallOnLastTradePrice events).
Hypothesis Q_update :
  forall e u, accepted group e = true ->
    pu_triggeringEvent u = e -> pu_asset_id u = asset_id e ->
    Q (CallOnPolymarketPriceUpdate [u]).

Lemma announce_delivery (cache : gmap string BookEntry) (e : PolymarketWSEvent)
    (entry : BookEntry) (p : string) :
  accepted group e = true ->
  Forall Q (snd (announce handlers cache e entry p)).
Proof.
  intros He. unfold announce, invoke.
  destruct (bool_decide _); [|constructor].
  destruct (onPolymarketPriceUpdate handlers); [|constructor].
  repeat constructor. apply (Q_update e); auto.
Qed.

Lemma priceChangeStep_delivery (cache : gmap string BookEntry)
    (e : PolymarketWSEvent) :
  accepted group e = true ->
  Forall Q (snd (priceChangeStep handlers cache e)).
Proof.
  intros He. unfold priceChangeStep.
  destruct (upsertPriceChange cache e) as [c1|];
    [|repeat constructor; apply Q_other; reflexivity || exact I].
  destruct (spreadOver c1 (asset_id e) TEN_CENTS) as [[c2 [|]]|]; simpl;
    try (repeat constructor; apply Q_other; reflexivity || exact I).
  destruct (midpoint c2 (asset_id e)) as [[c3 p]|];
    [|repeat constructor; apply Q_other; reflexivity || exact I].
  destruct (getBookEntry c3 (asset_id e)) as [entry|];
    [|repeat constructor; apply Q_other; reflexivity || exact I].
  pose proof (announce_delivery c3 e entry p He) as H.
  destruct (announce handlers c3 e entry p) as [c4 t]. simpl in *.
  constructor; [apply Q_other; reflexivity || exact I|exact H].
Qed.

Lemma lastTradeStep_delivery (cache : gmap string BookEntry)
    (e : PolymarketWSEvent) :
  accepted group e = true ->
  Forall Q (snd (lastTradeStep handlers cache e)).
Proof.
  intros He. unfold lastTradeStep.
  destruct (spreadOver cache (asset_id e) TEN_CENTS) as [[c2 [|]]|]; simpl;
    try (repeat constructor; apply Q_other; reflexivity || exact I).
  destruct (getBookEntry c2 (asset_id e)) as [entry|];
    [apply announce_delivery, He
    |repeat constructor; apply Q_other; reflexivity || exact I].
Qed.

Lemma handleEvents_delivery (cache : gmap string BookEntry)
    (events : list PolymarketWSEvent) :
  Forall Q (snd (handleEvents handlers group cache events)).
Proof.
  rewrite handleEvents_by_kind, handleBookEvents_eq.
  pose proof (bucket_accepted group isBookEvent events) as Hb.
  pose proof (bucket_accepted group isTickSizeChangeEvent events) as Ht.
  pose proof (bucket_accepted group isPriceChangeEvent events) as Hp.
  pose proof (bucket_accepted group isLastTradePriceEvent events) as Hl.
  revert Hb Ht Hp Hl.
  generalize (bucketOf group isBookEvent events) as bs.
  generalize (bucketOf group isTickSizeChangeEvent events) as ts.
  generalize (bucketOf group isPriceChangeEvent events) as ps.
  generalize (bucketOf group isLastTradePriceEvent events) as ls.
  intros ls ps ts bs Hb Ht Hp Hl.
  assert (Hinv : forall X (h : option X) call, Q call -> Forall Q (invoke h call)).
  { intros X h call Hc. destruct h; repeat constructor. exact Hc. }
  assert (Hbook : forall c, Forall Q
            (snd (match bs with
                  | [] => (c, [])
                  | _ => (fold_left replaceBook bs c,
                          map CacheReplaceBook bs
                            ++ invoke (onBook handlers) (CallOnBook bs))
                  end))).
  { intros c. destruct bs as [|b bs']; [constructor|]. cbn [snd].
    apply Forall_app. split.
    - apply List.Forall_map, List.Forall_forall. intros e _.
      apply Q_other; reflexivity || exact I.
    - apply Hinv, Q_batch, Hb. }
  assert (Htick : Forall Q (handleTickEvents handlers ts)).
  { unfold handleTickEvents. destruct ts; [constructor|]. apply Hinv, Q_batch, Ht. }
  assert (Hprice : forall c, Forall Q (snd (handlePriceChangeEvents handlers c ps))).
  { intros c. rewrite handlePriceChangeEvents_eq.
    destruct ps as [|p ps']; [constructor|]. cbn [snd].
    apply Forall_app. split; [apply Hinv, Q_batch, Hp|].
    apply (forEach_Forall _ (fun e => accepted group e = true)); [|exact Hp].
    intros s x Hx. apply priceChangeStep_delivery, Hx. }
  assert (Hlast : forall c, Forall Q (snd (handleLastTradeEvents handlers c ls))).
  { intros c. rewrite handleLastTradeEvents_eq.
    destruct ls as [|l ls']; [constructor|]. cbn [snd].
    apply Forall_app. split; [apply Hinv, Q_batch, Hl|].
    apply (forEach_Forall _ (fun e => accepted group e = true)); [|exact Hl].
    intros s x Hx. apply lastTradeStep_delivery, Hx. }
  specialize (Hbook cache).
  destruct (match bs with [] => (cache, []) | _ => _ end) as [c1 t1].
  specialize (Hprice c1).
  destruct (handlePriceChangeEvents handlers c1 ps) as [c3 t3].
  specialize (Hlast c3).
  destruct (handleLastTradeEvents handlers c3 ls) as [c4 t4].
  simpl in *. repeat (apply Forall_app; split); try assumption.
  eapply List.Forall_impl; [|apply unknownCalls_errors].
  intros eff [e ->]. apply Q_other; reflexivity || exact I.
Qed.

End Delivery.

Lemma accepted_is_held (registry : GroupRegistry) (group : WebSocketGroup)
    (e : PolymarketWSEvent) :
  In group registry -> accepted group e = true ->
  heldBySomeGroup registry (asset_id e) = true.
Proof.
  intros Hin Hacc. unfold accepted in Hacc. apply andb_true_iff in Hacc.
  unfold heldBySomeGroup. apply existsb_exists. exists group. tauto.
Qed.

(** X6. While a socket's group is in the manager's registry, the manager's
    subscription filter drops nothing of what that socket dispatches:
    every batch the socket hands to a wrapped handler, and every derived
    price update, passes [filterSubscribedEvents] whole, so the user's
    callback sees exactly the socket's batch. *)
Theorem registered_group_batches_pass_the_filter :
  forall (engine : JS.Engine) (R : Type) (handlers : WebSocketHandlers R)
         (registry : GroupRegistry) (group : WebSocketGroup)
         (cache : gmap string BookEntry) (events : list PolymarketWSEvent),
    In group registry ->
    Forall (Further.survivesFilter registry)
      (snd (handleEvents handlers group cache events)).
Proof.
  intros engine R h registry group cache events Hin.
  assert (Hkeep : forall evs : list PolymarketWSEvent,
             Forall (fun e => accepted group e = true) evs ->
             fst (filterSubscribedEvents registry evs) = evs).
  { intros evs Hevs. rewrite filterSubscribedEvents_eq. simpl.
    apply filter_all. eapply List.Forall_impl; [|exact Hevs].
    intros e He. apply (accepted_is_held registry group e Hin He). }
  apply handleEvents_delivery.
  - intros eff Hb Hu. destruct eff; simpl in *; try exact I.
    + subst events0. reflexivity.
    + subst events0. reflexivity.
    + subst events0. reflexivity.
    + subst events0. reflexivity.
    + contradiction.
  - intros evs Hevs. simpl. repeat split; apply Hkeep, Hevs.
  - intros e u He Htrig Hasset. unfold Further.survivesFilter.
    rewrite filterSubscribedEvents_eq. cbn [fst List.filter].
    unfold assetIdOf, PolymarketPriceUpdateEvent_asset. rewrite Hasset.
    rewrite (accepted_is_held registry group e Hin He). reflexivity.
Qed.

(** X6 for the sample group in a registry of its own. *)
Lemma registered_group_batches_pass_the_filter_witness :
  let engine := Sample.engine in
  Forall (Further.survivesFilter [Sample.group])
    (snd (handleEvents Sample.everyHandler Sample.group Sample.wideCache
            [Sample.lastTradeEvent; Sample.bookEvent])).
Proof.
  cbv zeta.
  apply (registered_group_batches_pass_the_filter Sample.engine unit
           Sample.everyHandler [Sample.group] Sample.group Sample.wideCache
           [Sample.lastTradeEvent; Sample.bookEvent]).
  left. reflexivity.
Defined.

(** Once the asset is held by no group of the registry, the user's
    callback gets an empty batch for it. *)
Example removed_asset_filtered_out :
  fst (filterSubscribedEvents [Sample.groupWithoutSocket]
         [Sample.event (Some "b") "book"]) = [].
Proof. reflexivity. Qed.

(** X7. Both subscription filters are idempotent: filtering a batch that
    has already been filtered against the same registry keeps all of it,
    so a batch that went through the filter can be handed on at once. *)
Theorem subscription_filters_are_idempotent :
  forall (registry : GroupRegistry) (userRegistry : User.UserGroupRegistry)
         (events : list PolymarketWSEvent)
         (updates : list PolymarketPriceUpdateEvent)
         (userEvents : list User.PolymarketUserWSEvent),
    fst (filterSubscribedEvents registry
           (fst (filterSubscribedEvents registry events)))
    = fst (filterSubscribedEvents registry events)
    /\ fst (filterSubscribedEvents registry
              (fst (filterSubscribedEvents registry updates)))
       = fst (filterSubscribedEvents registry updates)
    /\ fst (User.filterSubscribedEvents userRegistry
              (fst (User.filterSubscribedEvents userRegistry userEvents)))
       = fst (User.filterSubscribedEvents userRegistry userEvents).
Proof.
  intros registry userRegistry events updates userEvents.
  assert (Hff : forall (A : Type) (p : A -> bool) (l : list A),
             List.filter p (List.filter p l) = List.filter p l).
  { intros A p l. rewrite filter_filter_andb. apply filter_ext_bool.
    intros x. destruct (p x); reflexivity. }
  repeat split.
  - rewrite !filterSubscribedEvents_eq. simpl. apply Hff.
  - rewrite !filterSubscribedEvents_eq. simpl. apply Hff.
  - unfold User.filterSubscribedEvents.
    destruct (User.hasSubscribeToAll userRegistry); simpl; [reflexivity|apply Hff].
Qed.

(** ** The message pipeline of the user socket *)

Lemma user_hasEventType_eq (k : string) (e : User.PolymarketUserWSEvent) :
  User.hasEventType k e = true <-> User.event_type e = Some k.
Proof.
  unfold User.hasEventType. destruct (User.event_type e) as [k'|]; [|split; discriminate].
  rewrite String.eqb_eq. split; [intros ->; reflexivity | intros [= ->]; reflexivity].
Qed.

Lemma user_kinds_exclusive (e : User.PolymarketUserWSEvent) :
  User.isOrderEvent e = true -> User.isTradeEvent e = false.
Proof.
  unfold User.isOrderEvent, User.isTradeEvent. intros Ho.
  apply user_hasEventType_eq in Ho.
  destruct (User.hasEventType "trade" e) eqn:Ht; [|reflexivity].
  apply user_hasEventType_eq in Ht. congruence.
Qed.

Lemma user_bucketing_loop (events : list User.PolymarketUserWSEvent)
    (b : User.Buckets) :
  fold_left User.bucketStep events b
  = {| User.orderEvents := User.orderEvents b ++ List.filter User.isOrderEvent events;
       User.tradeEvents := User.tradeEvents b ++ List.filter User.isTradeEvent events |}.
Proof.
  revert b. induction events as [|e events IH]; intros b.
  - destruct b. simpl. rewrite !app_nil_r. reflexivity.
  - simpl. rewrite IH. unfold User.bucketStep.
    destruct (User.isOrderEvent e) eqn:Ho; simpl.
    + rewrite (user_kinds_exclusive e Ho), <- app_assoc. reflexivity.
    + destruct (User.isTradeEvent e); simpl; rewrite <- ?app_assoc; reflexivity.
Qed.

(** X8. On a frame that parses, the user socket calls [onOrder] at most
    once, with all the order events of the frame in arrival order, then
    [onTrade] at most once, with all its trade events in arrival order,
    and does nothing else; a handler is not called for an empty batch.
    Entries that are not objects, or whose [event_type] is missing or
    empty, count for nothing. *)
Theorem user_frame_is_two_batches :
  forall (R : Type) (handlers : User.UserWebSocketHandlers R)
         (entries : list User.Entry),
    let events := omap User.validStructure entries in
    let orders := List.filter User.isOrderEvent events in
    let trades := List.filter User.isTradeEvent events in
    User.handleEntries handlers entries
    = (match orders with
       | [] => []
       | _ => User.invoke (User.onOrder handlers) (User.CallOnOrder orders)
       end)
      ++ (match trades with
          | [] => []
          | _ => User.invoke (User.onTrade handlers) (User.CallOnTrade trades)
          end)
    /\ (forall entry e,
          User.validStructure entry = Some e
          <-> entry = User.Object e
              /\ exists k, User.event_type e = Some k /\ k <> "").
Proof.
  intros R h entries. cbv zeta. split.
  - unfold User.handleEntries. rewrite user_bucketing_loop. simpl.
    destruct (List.filter User.isOrderEvent (omap User.validStructure entries)),
      (List.filter User.isTradeEvent (omap User.validStructure entries));
      reflexivity.
  - intros entry e. unfold User.validStructure. split.
    + destruct entry as [ev|]; [|discriminate].
      destruct (User.event_type ev) as [k|] eqn:Hk; [|discriminate].
      destruct k as [|c k]; simpl; [discriminate|].
      intros [= ->]. split; [reflexivity|]. exists (String c k).
      split; [exact Hk|discriminate].
    + intros [-> [k [Hk Hne]]]. rewrite Hk.
      destruct k as [|c k]; [contradiction|reflexivity].
Qed.

(** A null entry, an object without [event_type], a trade and two
    orders. *)
Example user_frame_sample :
  User.handleEntries Sample.everyUserHandler
    [User.NotAnObject; User.Object (Sample.userEvent "order");
     User.Object {| User.event_type := None; User.market := Some "m"; User.id := "9" |};
     User.Object (Sample.userEvent "trade"); User.Object (Sample.userEvent "order")]
  = [User.CallOnOrder [Sample.userEvent "order"; Sample.userEvent "order"];
     User.CallOnTrade [Sample.userEvent "trade"]].
Proof. reflexivity. Qed.


(** ** The life of a socket *)

Ltac crush_step :=
  repeat (simpl;
          match goal with
          | |- context [match ?x with _ => _ end] =>
              lazymatch x with
              | context [match _ with _ => _ end] => fail
              | _ => destruct x eqn:?
              end
          end);
  simpl.

Section UserLife.
Context {R : Type}.
Variable JSON_parse : string -> option User.ParsedData.
Variable handlers : User.UserWebSocketHandlers R.

Lemma userStep_keys (s : BaseGroupSocket.Socket User.UserWebSocketGroup)
    (ev : Sockets.Event) :
  Further.userKeys
    (BaseGroupSocket.group (fst (Sockets.userStep JSON_parse handlers s ev)))
  = Further.userKeys (BaseGroupSocket.group s).
Proof.
  destruct s as [g held running made].
  destruct ev; unfold Sockets.userStep, BaseGroupSocket.connect,
    BaseGroupSocket.setupEventHandlers, BaseGroupSocket.pingTick,
    BaseGroupSocket.errorListener, BaseGroupSocket.closeListener,
    Sockets.opened, Sockets.isRunning, BaseGroupSocket.startPingInterval,
    BaseGroupSocket.stopWith, BaseGroupSocket.withStatus,
    BaseGroupSocket.withGroup,
    User.handleOpen, User.handleMessage; crush_step; reflexivity.
Qed.

Lemma userStep_cleanup (s : BaseGroupSocket.Socket User.UserWebSocketGroup)
    (ev : Sockets.Event) :
  User.shouldCleanup (BaseGroupSocket.group s) = false ->
  User.status (BaseGroupSocket.group s) <> CLEANUP ->
  User.status
    (BaseGroupSocket.group (fst (Sockets.userStep JSON_parse handlers s ev)))
  <> CLEANUP.
Proof.
  destruct s as [g held running made]. simpl. intros Hne Hst.
  destruct ev; unfold Sockets.userStep, BaseGroupSocket.connect,
    BaseGroupSocket.setupEventHandlers, BaseGroupSocket.pingTick,
    BaseGroupSocket.errorListener, BaseGroupSocket.closeListener,
    Sockets.opened, Sockets.isRunning, BaseGroupSocket.startPingInterval,
    BaseGroupSocket.stopWith, BaseGroupSocket.withStatus,
    BaseGroupSocket.withGroup,
    User.handleOpen, User.handleMessage; simpl; rewrite ?Hne;
    crush_step; try exact Hst; try discriminate;
    unfold User.shouldCleanup in *; simpl in *; congruence.
Qed.

Lemma userStep_alive (s : BaseGroupSocket.Socket User.UserWebSocketGroup)
    (ev : Sockets.Event) :
  Further.aliveHasSocket (BaseGroupSocket.group s) ->
  Further.aliveHasSocket
    (BaseGroupSocket.group (fst (Sockets.userStep JSON_parse handlers s ev))).
Proof.
  destruct s as [g held running made]. unfold Further.aliveHasSocket. simpl. intros Hinv.
  destruct ev; unfold Sockets.userStep, BaseGroupSocket.connect,
    BaseGroupSocket.setupEventHandlers, BaseGroupSocket.pingTick,
    BaseGroupSocket.errorListener, BaseGroupSocket.closeListener,
    Sockets.opened, Sockets.isRunning, BaseGroupSocket.startPingInterval,
    BaseGroupSocket.stopWith, BaseGroupSocket.withStatus,
    BaseGroupSocket.withGroup,
    User.handleOpen, User.handleMessage, User.getWebSocketClient in *;
    crush_step; try exact Hinv; try discriminate; try (intros _; congruence).
Qed.

End UserLife.

Lemma forEach_invariant {A S E : Type} (body : S -> A -> S * list E)
    (I : S -> Prop) :
  (forall s x, I s -> I (fst (body s x))) ->
  forall xs s, I s -> I (fst (JS.forEach body s xs)).
Proof.
  intros Hb xs. induction xs as [|x xs IH]; intros s Hs; [exact Hs|].
  rewrite forEach_cons. simpl. apply IH, Hb, Hs.
Qed.

Section MarketLife.
Context {engine : JS.Engine} {R : Type}.
Variable JSON_parse : string -> option ParsedData.
Variable handlers : WebSocketHandlers R.
Variable initialDump : bool.

Lemma handleMessage_group (g : WebSocketGroup) (cache : gmap string BookEntry)
    (data : string) :
  fst (fst (handleMessage JSON_parse handlers g cache data)) = g.
Proof.
  unfold handleMessage. destruct (JSON_parse data) as [parsed|]; [|reflexivity].
  destruct (handleParsed handlers g cache parsed). reflexivity.
Qed.

Lemma marketStep_keys
    (s : BaseGroupSocket.Socket WebSocketGroup * gmap string BookEntry)
    (ev : Sockets.Event) :
  let g' :=
    BaseGroupSocket.group
      (fst (fst (Sockets.marketStep JSON_parse handlers initialDump s ev))) in
  groupId g' = groupId (BaseGroupSocket.group (fst s))
  /\ assetIds g' = assetIds (BaseGroupSocket.group (fst s)).
Proof.
  destruct s as [[g held running made] cache]. cbv zeta.
  destruct ev;
    try (unfold Sockets.marketStep, Sockets.marketConnect,
           BaseGroupSocket.setupEventHandlers, BaseGroupSocket.pingTick,
           BaseGroupSocket.errorListener, BaseGroupSocket.closeListener,
           Sockets.opened, Sockets.isRunning, BaseGroupSocket.startPingInterval,
           BaseGroupSocket.stopWith, BaseGroupSocket.withStatus,
           BaseGroupSocket.withGroup,
           handleOpen; crush_step; split; reflexivity).
  unfold Sockets.marketStep, BaseGroupSocket.withGroup.
  cbn [BaseGroupSocket.group BaseGroupSocket.pingInterval
       BaseGroupSocket.intervals BaseGroupSocket.intervalsMade].
  pose proof (handleMessage_group g cache data) as H.
  destruct (handleMessage JSON_parse handlers g cache data) as [[g' c'] t].
  simpl in *. subst g'. split; reflexivity.
Qed.

Lemma marketStep_cleanup
    (s : BaseGroupSocket.Socket WebSocketGroup * gmap string BookEntry)
    (ev : Sockets.Event) :
  shouldCleanup (BaseGroupSocket.group (fst s)) = false ->
  status (BaseGroupSocket.group (fst s)) <> CLEANUP ->
  status
    (BaseGroupSocket.group
       (fst (fst (Sockets.marketStep JSON_parse handlers initialDump s ev))))
  <> CLEANUP.
Proof.
  destruct s as [[g held running made] cache]. simpl. intros Hne Hst.
  destruct ev;
    try (unfold Sockets.marketStep, Sockets.marketConnect,
           BaseGroupSocket.setupEventHandlers, BaseGroupSocket.pingTick,
           BaseGroupSocket.errorListener, BaseGroupSocket.closeListener,
           Sockets.opened, Sockets.isRunning, BaseGroupSocket.startPingInterval,
           BaseGroupSocket.stopWith, BaseGroupSocket.withStatus,
           BaseGroupSocket.withGroup,
           handleOpen; simpl; rewrite ?Hne;
         unfold shouldCleanup in *; simpl in *; rewrite ?Hne;
         crush_step; try exact Hst; try discriminate; congruence).
  unfold Sockets.marketStep, BaseGroupSocket.withGroup.
  cbn [BaseGroupSocket.group BaseGroupSocket.pingInterval
       BaseGroupSocket.intervals BaseGroupSocket.intervalsMade].
  pose proof (handleMessage_group g cache data) as H.
  destruct (handleMessage JSON_parse handlers g cache data) as [[g' c'] t].
  simpl in *. subst g'. exact Hst.
Qed.

End MarketLife.

(** X9. A socket never touches the keys of its group: whatever happens to
    a user or a market socket (connect calls, open, message, pong, error
    and close events, heartbeat turns, in any order), the group keeps its
    id and its keys, and a user group its credentials and its
    [subscribeToAll] flag. *)
Theorem sockets_never_touch_the_keys :
  forall (engine : JS.Engine) (R : Type) (userHandlers : User.UserWebSocketHandlers R)
         (handlers : WebSocketHandlers R) (initialDump : bool)
         (user_JSON_parse : string -> option User.ParsedData)
         (JSON_parse : string -> option ParsedData)
         (userSocket : BaseGroupSocket.Socket User.UserWebSocketGroup)
         (marketSocket : BaseGroupSocket.Socket WebSocketGroup)
         (cache : gmap string BookEntry) (events : list Sockets.Event),
    Further.userKeys
      (BaseGroupSocket.group
         (fst (Further.userRun user_JSON_parse userHandlers userSocket events)))
    = Further.userKeys (BaseGroupSocket.group userSocket)
    /\ (let g' :=
          BaseGroupSocket.group
            (fst (fst (Further.marketRun JSON_parse handlers initialDump
                         (marketSocket, cache) events))) in
        groupId g' = groupId (BaseGroupSocket.group marketSocket)
        /\ assetIds g' = assetIds (BaseGroupSocket.group marketSocket)).
Proof.
  intros engine R uh h d uP P us ms cache events. split.
  - unfold Further.userRun.
    apply (forEach_invariant (Sockets.userStep uP uh)
             (fun s => Further.userKeys (BaseGroupSocket.group s)
                       = Further.userKeys (BaseGroupSocket.group us)));
      [|reflexivity].
    intros s x Hs. rewrite userStep_keys. exact Hs.
  - unfold Further.marketRun. cbv zeta.
    apply (forEach_invariant (Sockets.marketStep P h d)
             (fun s => groupId (BaseGroupSocket.group (fst s))
                       = groupId (BaseGroupSocket.group ms)
                       /\ assetIds (BaseGroupSocket.group (fst s))
                          = assetIds (BaseGroupSocket.group ms)));
      [|split; reflexivity].
    intros s x [Hs1 Hs2].
    destruct (marketStep_keys P h d s x) as [H1 H2]. cbv zeta in H1, H2.
    split; congruence.
Qed.

(** X10. A socket never marks a group that still has keys for cleanup: if
    the group is not empty (a user group: or is pinned by
    [subscribeToAll]) and is not CLEANUP, it is not CLEANUP after any run
    of its socket. *)
Theorem group_with_keys_is_never_marked_cleanup :
  forall (engine : JS.Engine) (R : Type) (userHandlers : User.UserWebSocketHandlers R)
         (handlers : WebSocketHandlers R) (initialDump : bool)
         (user_JSON_parse : string -> option User.ParsedData)
         (JSON_parse : string -> option ParsedData)
         (userSocket : BaseGroupSocket.Socket User.UserWebSocketGroup)
         (marketSocket : BaseGroupSocket.Socket WebSocketGroup)
         (cache : gmap string BookEntry) (events : list Sockets.Event),
    User.shouldCleanup (BaseGroupSocket.group userSocket) = false ->
    User.status (BaseGroupSocket.group userSocket) <> CLEANUP ->
    shouldCleanup (BaseGroupSocket.group marketSocket) = false ->
    status (BaseGroupSocket.group marketSocket) <> CLEANUP ->
    User.status
      (BaseGroupSocket.group
         (fst (Further.userRun user_JSON_parse userHandlers userSocket events)))
    <> CLEANUP
    /\ status
         (BaseGroupSocket.group
            (fst (fst (Further.marketRun JSON_parse handlers initialDump
                         (marketSocket, cache) events))))
       <> CLEANUP.
Proof.
  intros engine R uh h d uP P us ms cache events Hu1 Hu2 Hm1 Hm2. split.
  - unfold Further.userRun.
    apply (forEach_invariant (Sockets.userStep uP uh)
             (fun s => User.shouldCleanup (BaseGroupSocket.group s) = false
                       /\ User.status (BaseGroupSocket.group s) <> CLEANUP));
      [|split; assumption].
    intros s x [Hs1 Hs2]. split; [|apply userStep_cleanup; assumption].
    pose proof (userStep_keys uP uh s x) as Hk.
    unfold Further.userKeys in Hk. injection Hk as _ Hm _ Hp.
    unfold User.shouldCleanup in *. rewrite Hm, Hp. exact Hs1.
  - unfold Further.marketRun.
    apply (forEach_invariant (Sockets.marketStep P h d)
             (fun s => shouldCleanup (BaseGroupSocket.group (fst s)) = false
                       /\ status (BaseGroupSocket.group (fst s)) <> CLEANUP));
      [|split; assumption].
    intros s x [Hs1 Hs2]. split; [|apply marketStep_cleanup; assumption].
    destruct (marketStep_keys P h d s x) as [_ Hk]. cbv zeta in Hk.
    unfold shouldCleanup in *. rewrite Hk. exact Hs1.
Qed.

(** X10 for the two sample groups through a failed dial, a dial, an open,
    a heartbeat turn and a close. *)
Lemma group_with_keys_is_never_marked_cleanup_witness :
  let engine := Sample.engine in
  User.status
    (BaseGroupSocket.group
       (fst (Further.userRun Further.parseOrder Sample.everyUserHandler
               Further.freshSocket
               [Sockets.ConnectCall (BaseGroupSocket.Rejected "ECONNREFUSED");
                Sockets.ConnectCall (BaseGroupSocket.Dialed Sample.socket);
                Sockets.OpenEvent; Sockets.IntervalFires 0;
                Sockets.CloseEvent 1006 None])))
  <> CLEANUP
  /\ status
       (BaseGroupSocket.group
          (fst (fst (Further.marketRun Sample.rejectAll Sample.everyHandler true
                       (Further.freshMarketSocket, ∅)
                       [Sockets.ConnectCall (BaseGroupSocket.Rejected "ECONNREFUSED");
                        Sockets.ConnectCall (BaseGroupSocket.Dialed Sample.socket);
                        Sockets.OpenEvent; Sockets.IntervalFires 0;
                        Sockets.CloseEvent 1006 None]))))
     <> CLEANUP.
Proof.
  cbv zeta.
  apply (group_with_keys_is_never_marked_cleanup Sample.engine unit
           Sample.everyUserHandler
           Sample.everyHandler true Further.parseOrder Sample.rejectAll
           Further.freshSocket Further.freshMarketSocket ∅
           [Sockets.ConnectCall (BaseGroupSocket.Rejected "ECONNREFUSED");
            Sockets.ConnectCall (BaseGroupSocket.Dialed Sample.socket);
            Sockets.OpenEvent; Sockets.IntervalFires 0;
            Sockets.CloseEvent 1006 None]);
    first [reflexivity | discriminate].
Defined.

(** X11. On the user socket a group marked ALIVE holds a socket handle,
    and no run of the socket breaks that: connect, open, message, error,
    close and the heartbeat all keep it. *)
Theorem user_alive_group_holds_a_socket :
  forall (R : Type) (handlers : User.UserWebSocketHandlers R)
         (JSON_parse : string -> option User.ParsedData)
         (s : BaseGroupSocket.Socket User.UserWebSocketGroup)
         (events : list Sockets.Event),
    Further.aliveHasSocket (BaseGroupSocket.group s) ->
    Further.aliveHasSocket
      (BaseGroupSocket.group (fst (Further.userRun JSON_parse handlers s events))).
Proof.
  intros R h P s events Hinv. unfold Further.userRun.
  apply (forEach_invariant (Sockets.userStep P h)
           (fun s => Further.aliveHasSocket (BaseGroupSocket.group s)));
    [|exact Hinv].
  intros s' x Hs. apply userStep_alive, Hs.
Qed.

(** X11 from a fresh PENDING group through a dial, an open and a frame. *)
Lemma user_alive_group_holds_a_socket_witness :
  Further.aliveHasSocket
    (BaseGroupSocket.group
       (fst (Further.userRun Further.parseOrder Sample.everyUserHandler
               Further.freshSocket
               [Sockets.ConnectCall (BaseGroupSocket.Dialed Sample.socket);
                Sockets.OpenEvent; Sockets.MessageEvent "{...}"]))).
Proof.
  apply (user_alive_group_holds_a_socket unit Sample.everyUserHandler
           Further.parseOrder Further.freshSocket
           [Sockets.ConnectCall (BaseGroupSocket.Dialed Sample.socket);
            Sockets.OpenEvent; Sockets.MessageEvent "{...}"]).
  intros H. discriminate H.
Defined.

(** The sample run does end ALIVE with the dialed socket. *)
Example user_run_sample :
  let g :=
    BaseGroupSocket.group
      (fst (Further.userRun Further.parseOrder Sample.everyUserHandler
              Further.freshSocket
              [Sockets.ConnectCall (BaseGroupSocket.Dialed Sample.socket);
               Sockets.OpenEvent; Sockets.MessageEvent "{...}"])) in
  User.status g = ALIVE /\ User.wsClient g = Some Sample.socket.
Proof. split; reflexivity. Qed.


(** ** Connecting *)

(** X12. [MarketGroupSocket.connect], which overrides the base method and
    works on the group's fields directly, does what the base [connect] does
    through the subclass's accessors, whatever happens to the group while
    the dial is awaited: the same socket state, the same thrown error, and
    the same actions but for the text of the log line. *)
Theorem market_connect_override_agrees_with_base :
  forall (R : Type) (handlers : WebSocketHandlers R)
         (dial : BaseGroupSocket.Dial)
         (meanwhile : WebSocketGroup -> WebSocketGroup)
         (s : BaseGroupSocket.Socket WebSocketGroup),
    let override := Sockets.marketConnect handlers dial meanwhile s in
    let base :=
      BaseGroupSocket.connect (H := Sockets.marketMethods handlers) dial
        meanwhile s in
    BaseGroupSocket.socket override = BaseGroupSocket.socket base
    /\ BaseGroupSocket.thrown override = BaseGroupSocket.thrown base
    /\ List.filter (fun eff => negb (Further.isLogInfo eff))
         (BaseGroupSocket.effects override)
       = List.filter (fun eff => negb (Further.isLogInfo eff))
           (BaseGroupSocket.effects base).
Proof.
  intros R handlers dial meanwhile [g held running made]. cbv zeta.
  unfold Sockets.marketConnect, BaseGroupSocket.connect,
    BaseGroupSocket.setupEventHandlers, BaseGroupSocket.withStatus,
    BaseGroupSocket.withGroup.
  simpl. unfold shouldCleanup. simpl.
  destruct (length (assetIds g) =? 0)%nat eqn:Hempty; simpl.
  - repeat split; reflexivity.
  - destruct dial; simpl;
      destruct (length (assetIds (meanwhile g)) =? 0)%nat; simpl;
      repeat split; reflexivity.
Qed.

(** X13. What [connect] can do to a group, on both sockets, [meanwhile]
    being what happened to the group while the limiter and the dial were
    awaited. It never touches the heartbeat. It dials exactly when the
    group has keys at the call, and a group without keys is marked CLEANUP
    and left. It throws exactly when the dial of a group with keys is
    rejected, and the group as it is by then is marked DEAD. After a dial
    that succeeds the group as it is by then holds the new socket; its
    status is CLEANUP when it lost its keys during the dial, and is
    otherwise what it was; the DEAD exit of [setupEventHandlers] is not
    taken from [connect]. So [connect] itself never marks a group ALIVE. *)
Theorem connect_dials_only_groups_with_keys_and_never_marks_alive :
  forall (R : Type) (userHandlers : User.UserWebSocketHandlers R)
         (handlers : WebSocketHandlers R) (dial : BaseGroupSocket.Dial)
         (userMeanwhile : User.UserWebSocketGroup -> User.UserWebSocketGroup)
         (meanwhile : WebSocketGroup -> WebSocketGroup)
         (userSocket : BaseGroupSocket.Socket User.UserWebSocketGroup)
         (marketSocket : BaseGroupSocket.Socket WebSocketGroup),
    let uo :=
      BaseGroupSocket.connect (H := Sockets.userMethods userHandlers) dial
        userMeanwhile userSocket in
    let mo := Sockets.marketConnect handlers dial meanwhile marketSocket in
    let ug := BaseGroupSocket.group userSocket in
    let mg := BaseGroupSocket.group marketSocket in
    let ug1 := userMeanwhile ug in
    let mg1 := meanwhile mg in
    let ug' := BaseGroupSocket.group (BaseGroupSocket.socket uo) in
    let mg' := BaseGroupSocket.group (BaseGroupSocket.socket mo) in
    (BaseGroupSocket.pingInterval (BaseGroupSocket.socket uo)
     = BaseGroupSocket.pingInterval userSocket
     /\ BaseGroupSocket.intervals (BaseGroupSocket.socket uo)
        = BaseGroupSocket.intervals userSocket
     /\ BaseGroupSocket.intervalsMade (BaseGroupSocket.socket uo)
        = BaseGroupSocket.intervalsMade userSocket
     /\ existsb Further.isSchedule (BaseGroupSocket.effects uo)
        = negb (User.shouldCleanup ug)
     /\ BaseGroupSocket.thrown uo
        = (if User.shouldCleanup ug then None
           else match dial with
                | BaseGroupSocket.Rejected message => Some message
                | BaseGroupSocket.Dialed _ => None
                end)
     /\ (User.shouldCleanup ug = true ->
         ug' = User.setGroupStatus ug CLEANUP
         /\ BaseGroupSocket.effects uo = [])
     /\ (forall message,
           User.shouldCleanup ug = false ->
           dial = BaseGroupSocket.Rejected message ->
           ug' = User.setGroupStatus ug1 DEAD)
     /\ (forall ws,
           User.shouldCleanup ug = false ->
           dial = BaseGroupSocket.Dialed ws ->
           User.wsClient ug' = Some ws
           /\ User.status ug'
              = (if User.shouldCleanup ug1 then CLEANUP else User.status ug1)
           /\ Further.userKeys ug' = Further.userKeys ug1)
     /\ (User.status ug' = ALIVE ->
         User.shouldCleanup ug = false /\ User.status ug1 = ALIVE))
    /\ (BaseGroupSocket.pingInterval (BaseGroupSocket.socket mo)
        = BaseGroupSocket.pingInterval marketSocket
        /\ BaseGroupSocket.intervals (BaseGroupSocket.socket mo)
           = BaseGroupSocket.intervals marketSocket
        /\ BaseGroupSocket.intervalsMade (BaseGroupSocket.socket mo)
           = BaseGroupSocket.intervalsMade marketSocket
        /\ existsb Further.isSchedule (BaseGroupSocket.effects mo)
           = negb (shouldCleanup mg)
        /\ BaseGroupSocket.thrown mo
           = (if shouldCleanup mg then None
              else match dial with
                   | BaseGroupSocket.Rejected message => Some message
                   | BaseGroupSocket.Dialed _ => None
                   end)
        /\ (shouldCleanup mg = true ->
            mg' = setGroupStatus mg CLEANUP
            /\ BaseGroupSocket.effects mo = [])
        /\ (forall message,
              shouldCleanup mg = false ->
              dial = BaseGroupSocket.Rejected message ->
              mg' = setGroupStatus mg1 DEAD)
        /\ (forall ws,
              shouldCleanup mg = false ->
              dial = BaseGroupSocket.Dialed ws ->
              wsClient mg' = Some ws
              /\ status mg' = (if shouldCleanup mg1 then CLEANUP else status mg1)
              /\ groupId mg' = groupId mg1
              /\ assetIds mg' = assetIds mg1)
        /\ (status mg' = ALIVE ->
            shouldCleanup mg = false /\ status mg1 = ALIVE)).
Proof.
  intros R uh h dial um mm [ug uheld urun umade] [mg mheld mrun mmade].
  cbv zeta. split.
  - unfold BaseGroupSocket.connect, BaseGroupSocket.setupEventHandlers,
      BaseGroupSocket.withStatus, BaseGroupSocket.withGroup.
    simpl. destruct (User.shouldCleanup ug) eqn:Hc; simpl.
    + repeat split; try discriminate; try congruence.
    + destruct dial as [ws|message]; simpl.
      * assert (Hc' : User.shouldCleanup
                        {| User.groupId := User.groupId (um ug);
                           User.marketIds := User.marketIds (um ug);
                           User.status := User.status (um ug);
                           User.wsClient := Some ws;
                           User.auth := User.auth (um ug);
                           User.subscribeToAll := User.subscribeToAll (um ug) |}
                      = User.shouldCleanup (um ug)) by reflexivity.
        rewrite Hc'.
        destruct (User.shouldCleanup (um ug)) eqn:Hc1; simpl;
          repeat split; try discriminate; try congruence;
          try (intros ws' _ [= <-]; reflexivity).
      * repeat split; try discriminate; try congruence.
  - unfold Sockets.marketConnect, BaseGroupSocket.setupEventHandlers,
      BaseGroupSocket.withStatus, BaseGroupSocket.withGroup.
    simpl. unfold shouldCleanup.
    destruct (length (assetIds mg) =? 0)%nat eqn:Hc; simpl.
    + repeat split; try discriminate; try congruence.
    + destruct dial as [ws|message]; simpl.
      * unfold shouldCleanup. simpl.
        destruct (length (assetIds (mm mg)) =? 0)%nat eqn:Hc1; simpl;
          repeat split; try discriminate; try congruence;
          try (intros ws' _ [= <-]; reflexivity).
      * repeat split; try discriminate; try congruence.
Qed.

(** The last key of a market group is removed while its socket dials: the
    socket arrives, and the group is marked CLEANUP. *)
Example keys_removed_during_the_dial :
  let emptied (g : WebSocketGroup) :=
    {| groupId := groupId g; assetIds := []; status := status g;
       wsClient := wsClient g |} in
  let o :=
    Sockets.marketConnect Sample.everyHandler
      (BaseGroupSocket.Dialed Sample.socket) emptied Further.freshMarketSocket in
  BaseGroupSocket.group (BaseGroupSocket.socket o)
  = {| groupId := "g1"; assetIds := []; status := CLEANUP;
       wsClient := Some Sample.socket |}
  /\ BaseGroupSocket.thrown o = None.
Proof. split; reflexivity. Qed.

(** ** The heartbeat *)




(** Clearing the held handle stops every interval when no other runs. *)
Lemma clearInterval_only_held (held : option nat) (running : list nat) :
  (forall h, In h running -> held = Some h) ->
  BaseGroupSocket.clearInterval held running = [].
Proof.
  intros Hheld. destruct held as [h|].
  - cbn [BaseGroupSocket.clearInterval].
    apply filter_none. apply List.Forall_forall. intros i Hi.
    specialize (Hheld i Hi). injection Hheld as ->.
    rewrite Nat.eqb_refl. reflexivity.
  - destruct running as [|h0 running]; [reflexivity|].
    specialize (Hheld h0 (or_introl eq_refl)). discriminate Hheld.
Qed.


Section Heartbeat.
Context {engine : JS.Engine} {R : Type}.
Variable user_JSON_parse : string -> option User.ParsedData.
Variable userHandlers : User.UserWebSocketHandlers R.
Variable JSON_parse : string -> option ParsedData.
Variable handlers : WebSocketHandlers R.
Variable initialDump : bool.




End Heartbeat.



(** While the same socket, left alone, is pinged at every turn. *)
Example ping_while_open :
  List.filter Further.isPing
    (snd (Further.userRun Further.parseOrder Sample.everyUserHandler
            {| BaseGroupSocket.group := Sample.userGroup;
               BaseGroupSocket.pingInterval := Some 0%nat;
               BaseGroupSocket.intervals := [0%nat];
               BaseGroupSocket.intervalsMade := 1 |}
            [Sockets.IntervalFires 0; Sockets.IntervalFires 0]))
  = [inl BaseGroupSocket.Ping; inl BaseGroupSocket.Ping].
Proof. reflexivity. Qed.

(** A socket that handled two open events runs two intervals and holds
    the handle of the second: a close clears that one only, and the first
    goes on pinging. *)
Example interval_of_an_earlier_open_survives_close :
  let run :=
    Further.userRun Further.parseOrder Sample.everyUserHandler
      (BaseGroupSocket.newSocket Sample.userGroup)
      [Sockets.OpenEvent; Sockets.OpenEvent; Sockets.CloseEvent 1006 None;
       Sockets.IntervalFires 1; Sockets.IntervalFires 0] in
  BaseGroupSocket.pingInterval (fst run) = Some 1%nat
  /\ BaseGroupSocket.intervals (fst run) = [0%nat]
  /\ List.filter Further.isPing (snd run) = [inl BaseGroupSocket.Ping].
Proof. repeat split; reflexivity. Qed.

(** X15. A group with keys whose socket handle is gone when the open event
    is handled is DEAD at the latest after the first turn of the heartbeat,
    with neither a subscription nor a ping sent: the user socket marks it
    DEAD at once and starts no interval, and the turn of an interval it
    held before stops that one; the market socket marks it ALIVE and
    starts the heartbeat, whose first turn marks it DEAD and clears the
    interval. *)
Theorem open_without_socket_is_dead_after_one_heartbeat :
  forall (engine : JS.Engine) (R : Type)
         (userHandlers : User.UserWebSocketHandlers R)
         (handlers : WebSocketHandlers R) (initialDump : bool)
         (user_JSON_parse : string -> option User.ParsedData)
         (JSON_parse : string -> option ParsedData)
         (userSocket : BaseGroupSocket.Socket User.UserWebSocketGroup)
         (marketSocket : BaseGroupSocket.Socket WebSocketGroup)
         (cache : gmap string BookEntry) (handle : nat),
    User.shouldCleanup (BaseGroupSocket.group userSocket) = false ->
    User.wsClient (BaseGroupSocket.group userSocket) = None ->
    shouldCleanup (BaseGroupSocket.group marketSocket) = false ->
    wsClient (BaseGroupSocket.group marketSocket) = None ->
    let started := BaseGroupSocket.intervalsMade marketSocket in
    let ur :=
      Further.userRun user_JSON_parse userHandlers userSocket
        [Sockets.OpenEvent; Sockets.IntervalFires handle] in
    let mr :=
      Further.marketRun JSON_parse handlers initialDump (marketSocket, cache)
        [Sockets.OpenEvent; Sockets.IntervalFires started] in
    (User.status (BaseGroupSocket.group (fst ur)) = DEAD
     /\ BaseGroupSocket.intervalsMade (fst ur)
        = BaseGroupSocket.intervalsMade userSocket
     /\ ((forall h, In h (BaseGroupSocket.intervals userSocket) ->
                     BaseGroupSocket.pingInterval userSocket = Some h) ->
         BaseGroupSocket.intervals userSocket = []
         \/ In handle (BaseGroupSocket.intervals userSocket) ->
         BaseGroupSocket.intervals (fst ur) = [])
     /\ snd ur = [])
    /\ (status (BaseGroupSocket.group (fst (fst mr))) = DEAD
        /\ BaseGroupSocket.pingInterval (fst (fst mr)) = Some started
        /\ Sockets.isRunning (fst (fst mr)) started = false
        /\ BaseGroupSocket.intervals (fst (fst mr))
           = List.filter (fun i => negb (Nat.eqb i started))
               (BaseGroupSocket.intervals marketSocket)
        /\ (BaseGroupSocket.intervals marketSocket = [] ->
            BaseGroupSocket.intervals (fst (fst mr)) = [])
        /\ snd mr
           = map inr
               (invoke (onWSOpen handlers)
                  (CallOnWSOpen (groupId (BaseGroupSocket.group marketSocket))
                     (assetIds (BaseGroupSocket.group marketSocket)))
                ++ [StartPingInterval])).
Proof.
  intros engine R uh h d uP P [ug uheld urun umade] [mg mheld mrun mmade]
    cache handle Hu1 Hu2 Hm1 Hm2.
  simpl in Hu1, Hu2, Hm1, Hm2. cbv zeta. split.
  - unfold Further.userRun. rewrite !forEach_cons. simpl.
    unfold User.handleOpen, User.getWebSocketClient. rewrite Hu1, Hu2. simpl.
    unfold Sockets.isRunning. simpl.
    destruct (existsb (Nat.eqb handle) urun) eqn:Hrun; simpl.
    + unfold BaseGroupSocket.pingTick. simpl.
      assert (Hc : User.shouldCleanup (User.setGroupStatus ug DEAD) = false)
        by exact Hu1.
      rewrite Hc, Hu2. simpl. repeat split; try reflexivity.
      intros Hheld _. apply clearInterval_only_held, Hheld.
    + repeat split; try reflexivity.
      intros _ [Hnone|Hin]; [exact Hnone|].
      assert (Ht : existsb (Nat.eqb handle) urun = true).
      { apply existsb_exists. exists handle.
        split; [exact Hin|apply Nat.eqb_refl]. }
      congruence.
  - unfold Further.marketRun. rewrite !forEach_cons. simpl.
    unfold handleOpen, getWebSocketClient. rewrite Hm1. simpl. rewrite Hm2.
    simpl.
    assert (Hstart :
      existsb Sockets.marketStartsPing
        (invoke (onWSOpen h) (CallOnWSOpen (groupId mg) (assetIds mg))
           ++ [StartPingInterval]) = true).
    { rewrite existsb_app. simpl. apply orb_true_r. }
    rewrite Hstart. simpl.
    unfold Sockets.isRunning. simpl. rewrite Nat.eqb_refl. simpl.
    unfold BaseGroupSocket.pingTick. simpl.
    assert (Hc : shouldCleanup (setGroupStatus mg ALIVE) = false) by exact Hm1.
    rewrite Hc, Hm2. simpl. rewrite Nat.eqb_refl. simpl.
    rewrite !List.app_nil_r.
    assert (Hoff : existsb (Nat.eqb mmade)
                     (List.filter (fun i => negb (Nat.eqb i mmade)) mrun) = false).
    { induction mrun as [|i mrun IH]; [reflexivity|]. simpl.
      destruct (Nat.eqb i mmade) eqn:Hi; simpl; [exact IH|].
      rewrite Nat.eqb_sym, Hi. exact IH. }
    repeat split; try reflexivity; try exact Hoff.
    intros ->. reflexivity.
Qed.

(** X15 on the two sample groups without a socket. *)
Lemma open_without_socket_is_dead_after_one_heartbeat_witness :
  let engine := Sample.engine in
  let userSocket := Further.freshSocket in
  let marketSocket := Further.freshMarketSocket in
  let started := BaseGroupSocket.intervalsMade marketSocket in
  let ur :=
    Further.userRun Further.parseOrder Sample.everyUserHandler userSocket
      [Sockets.OpenEvent; Sockets.IntervalFires 0] in
  let mr :=
    Further.marketRun Sample.rejectAll Sample.everyHandler true
      (marketSocket, ∅) [Sockets.OpenEvent; Sockets.IntervalFires started] in
  User.shouldCleanup (BaseGroupSocket.group userSocket) = false
  /\ User.wsClient (BaseGroupSocket.group userSocket) = None
  /\ shouldCleanup (BaseGroupSocket.group marketSocket) = false
  /\ wsClient (BaseGroupSocket.group marketSocket) = None
  /\ (User.status (BaseGroupSocket.group (fst ur)) = DEAD
      /\ BaseGroupSocket.intervalsMade (fst ur)
         = BaseGroupSocket.intervalsMade userSocket
      /\ ((forall h, In h (BaseGroupSocket.intervals userSocket) ->
                      BaseGroupSocket.pingInterval userSocket = Some h) ->
          BaseGroupSocket.intervals userSocket = []
          \/ In 0%nat (BaseGroupSocket.intervals userSocket) ->
          BaseGroupSocket.intervals (fst ur) = [])
      /\ snd ur = [])
  /\ (status (BaseGroupSocket.group (fst (fst mr))) = DEAD
      /\ BaseGroupSocket.pingInterval (fst (fst mr)) = Some started
      /\ Sockets.isRunning (fst (fst mr)) started = false
      /\ BaseGroupSocket.intervals (fst (fst mr))
         = List.filter (fun i => negb (Nat.eqb i started))
             (BaseGroupSocket.intervals marketSocket)
      /\ (BaseGroupSocket.intervals marketSocket = [] ->
          BaseGroupSocket.intervals (fst (fst mr)) = [])
      /\ snd mr
         = map inr
             (invoke (onWSOpen Sample.everyHandler)
                (CallOnWSOpen (groupId (BaseGroupSocket.group marketSocket))
                   (assetIds (BaseGroupSocket.group marketSocket)))
              ++ [StartPingInterval])).
Proof.
  cbv zeta.
  split; [reflexivity|]. split; [reflexivity|].
  split; [reflexivity|]. split; [reflexivity|].
  apply (open_without_socket_is_dead_after_one_heartbeat Sample.engine unit
           Sample.everyUserHandler Sample.everyHandler true Further.parseOrder
           Sample.rejectAll Further.freshSocket Further.freshMarketSocket ∅ 0%nat);
    reflexivity.
Defined.

(** ** The managers *)

Lemma orElse_truthy (a : option JS.number) (rest : JS.number) :
  JS.truthy rest = true ->
  JS.truthy (BaseSubscriptionManager.orElse a rest) = true.
Proof.
  intros Hrest. unfold BaseSubscriptionManager.orElse.
  destruct a as [n|]; [|exact Hrest].
  destruct (JS.truthy n) eqn:Hn; [exact Hn|exact Hrest].
Qed.

(** X16. The limits a manager runs with always count as true, whatever
    options and default options the base constructor is given: they are
    never 0, -0 or NaN. The constructor reads the options with [||], so an
    option that is given and counts as true is the limit, and an option of
    0, -0 or NaN counts as omitted. This holds of the constructors of both
    managers. *)
Theorem manager_limits_are_never_falsy :
  forall (getReconnectAndCleanupIntervalMs getMaxMarketsPerWS :
            BaseSubscriptionManager.Options -> option JS.number)
         (options defaultOptions : BaseSubscriptionManager.Options),
    let settings :=
      BaseSubscriptionManager.constructor getReconnectAndCleanupIntervalMs
        getMaxMarketsPerWS options defaultOptions in
    let interval := BaseSubscriptionManager.this_reconnectAndCleanupIntervalMs in
    let limit := BaseSubscriptionManager.this_maxMarketsPerWS in
    JS.truthy (interval settings) = true
    /\ JS.truthy (limit settings) = true
    /\ (forall falsy, In falsy [JS.ofZ 0; JS.NegZero; JS.NaN] ->
                      interval settings <> falsy /\ limit settings <> falsy)
    /\ (forall n, getMaxMarketsPerWS options = Some n -> JS.truthy n = true ->
                  limit settings = n)
    /\ (forall n, getReconnectAndCleanupIntervalMs options = Some n ->
                  JS.truthy n = true -> interval settings = n)
    /\ (forall n, getMaxMarketsPerWS options = Some n -> JS.truthy n = false ->
                  limit settings
                  = limit (BaseSubscriptionManager.constructor
                             getReconnectAndCleanupIntervalMs (fun _ => None)
                             options defaultOptions))
    /\ (forall every falsy,
          In falsy [JS.ofZ 0; JS.NegZero; JS.NaN] ->
          let given :=
            {| BaseSubscriptionManager.reconnectAndCleanupIntervalMs := every;
               BaseSubscriptionManager.maxMarketsPerWS := Some falsy |} in
          let omitted :=
            {| BaseSubscriptionManager.reconnectAndCleanupIntervalMs := every;
               BaseSubscriptionManager.maxMarketsPerWS := None |} in
          constructor (Some given) = constructor (Some omitted)
          /\ User.constructor given = User.constructor omitted).
Proof.
  intros get1 get2 options defaults. cbv zeta.
  unfold BaseSubscriptionManager.constructor. simpl.
  assert (H1 : JS.truthy
                 (BaseSubscriptionManager.orElse (get1 options)
                    (BaseSubscriptionManager.orElse
                       (BaseSubscriptionManager.reconnectAndCleanupIntervalMs
                          defaults)
                       BaseSubscriptionManager.DEFAULT_RECONNECT_AND_CLEANUP_INTERVAL_MS))
               = true)
    by (apply orElse_truthy, orElse_truthy; reflexivity).
  assert (H2 : JS.truthy
                 (BaseSubscriptionManager.orElse (get2 options)
                    (BaseSubscriptionManager.orElse
                       (BaseSubscriptionManager.maxMarketsPerWS defaults)
                       BaseSubscriptionManager.DEFAULT_MAX_MARKETS_PER_WS))
               = true)
    by (apply orElse_truthy, orElse_truthy; reflexivity).
  split; [exact H1|]. split; [exact H2|].
  split; [|split; [|split; [|split]]].
  - intros falsy Hin.
    assert (Hf : JS.truthy falsy = false).
    { destruct Hin as [<-|[<-|[<-|[]]]]; reflexivity. }
    split; intros Heq; rewrite Heq in *; congruence.
  - intros n -> Hn. simpl. rewrite Hn. reflexivity.
  - intros n -> Hn. simpl. rewrite Hn. reflexivity.
  - intros n -> Hn. simpl. rewrite Hn. reflexivity.
  - intros every falsy Hin.
    destruct Hin as [<-|[<-|[<-|[]]]]; split; reflexivity.
Qed.

(** NaN counts as omitted, a negative limit is taken as it is. *)
Example limits_sample :
  BaseSubscriptionManager.this_maxMarketsPerWS
    (User.constructor
       {| BaseSubscriptionManager.reconnectAndCleanupIntervalMs := None;
          BaseSubscriptionManager.maxMarketsPerWS := Some JS.NaN |})
  = JS.ofZ 100
  /\ BaseSubscriptionManager.this_maxMarketsPerWS
       (User.constructor
          {| BaseSubscriptionManager.reconnectAndCleanupIntervalMs := None;
             BaseSubscriptionManager.maxMarketsPerWS := Some (JS.ofZ (-5)) |})
     = JS.ofZ (-5).
Proof. split; reflexivity. Qed.

Section DialLoop.
Context {G : Type} `{M : BaseGroupSocket.Methods G} {X : Type}.
Variable onError : option X.
Variable connectGroupSocket :
  BaseGroupSocket.Dial -> BaseGroupSocket.Socket G -> BaseGroupSocket.Outcome G.

Hypothesis connect_id : forall dial s,
  BaseGroupSocket.getGroupId
    (BaseGroupSocket.group (BaseGroupSocket.socket (connectGroupSocket dial s)))
  = BaseGroupSocket.getGroupId (BaseGroupSocket.group s).
Hypothesis connect_keys : forall dial s,
  BaseGroupSocket.shouldCleanup
    (BaseGroupSocket.group (BaseGroupSocket.socket (connectGroupSocket dial s)))
  = BaseGroupSocket.shouldCleanup (BaseGroupSocket.group s).
Hypothesis connect_schedule : forall dial s,
  length (List.filter Further.isSchedule
            (BaseGroupSocket.effects (connectGroupSocket dial s)))
  = if BaseGroupSocket.shouldCleanup (BaseGroupSocket.group s) then 0%nat
    else 1%nat.
Hypothesis connect_silent : forall dial s,
  List.filter Further.isManagerError
    (BaseGroupSocket.effects (connectGroupSocket dial s)) = [].
Hypothesis connect_thrown : forall dial s,
  bool_decide (BaseGroupSocket.thrown (connectGroupSocket dial s) <> None)
  = negb (BaseGroupSocket.shouldCleanup (BaseGroupSocket.group s))
    && Further.isRejected dial.

Lemma writeBack_ids (registry : list G) (groupId : string) (g' : G) :
  (forall g, Managers.findGroupById registry groupId = Some g ->
             BaseGroupSocket.getGroupId g' = BaseGroupSocket.getGroupId g) ->
  map BaseGroupSocket.getGroupId (Managers.writeBack registry groupId g')
  = map BaseGroupSocket.getGroupId registry.
Proof.
  induction registry as [|g rest IH]; intros Hid; [reflexivity|].
  unfold Managers.findGroupById in *. simpl in *.
  destruct (String.eqb (BaseGroupSocket.getGroupId g) groupId) eqn:Heq; simpl.
  - rewrite (Hid g eq_refl). reflexivity.
  - rewrite IH; [reflexivity|exact Hid].
Qed.

Lemma find_writeBack (registry : list G) (groupId : string) (g g' : G)
    (other : string) :
  Managers.findGroupById registry groupId = Some g ->
  BaseGroupSocket.getGroupId g' = BaseGroupSocket.getGroupId g ->
  Managers.findGroupById (Managers.writeBack registry groupId g') other
  = if String.eqb other groupId then Some g'
    else Managers.findGroupById registry other.
Proof.
  unfold Managers.findGroupById.
  induction registry as [|g0 rest IH]; intros Hfind Hid; [discriminate|].
  simpl in *.
  destruct (String.eqb (BaseGroupSocket.getGroupId g0) groupId) eqn:Heq.
  - injection Hfind as <-. simpl. rewrite Hid.
    apply String.eqb_eq in Heq. rewrite Heq.
    rewrite (String.eqb_sym groupId other).
    destruct (String.eqb other groupId); reflexivity.
  - simpl. destruct (String.eqb (BaseGroupSocket.getGroupId g0) other) eqn:Hother.
    + apply String.eqb_eq in Hother. subst other.
      rewrite Heq. reflexivity.
    + apply IH; assumption.
Qed.

(** What the loop reads of the registry is the same after a call. *)
Lemma createWebSocketClient_view (registry : list G) (groupId : string)
    (dial : BaseGroupSocket.Dial) (other : string) :
  option_map BaseGroupSocket.shouldCleanup
    (Managers.findGroupById
       (fst (Managers.createWebSocketClient onError connectGroupSocket registry
               groupId dial)) other)
  = option_map BaseGroupSocket.shouldCleanup
      (Managers.findGroupById registry other).
Proof.
  unfold Managers.createWebSocketClient.
  destruct (Managers.findGroupById registry groupId) as [g|] eqn:Hfind;
    [|reflexivity].
  cbn [fst].
  rewrite (find_writeBack registry groupId g _ other Hfind
             (connect_id dial
                (BaseGroupSocket.newSocket g))).
  destruct (String.eqb other groupId) eqn:Heq; [|reflexivity].
  apply String.eqb_eq in Heq. subst other. rewrite Hfind. simpl.
  rewrite connect_keys. reflexivity.
Qed.

Lemma createWebSocketClient_ids (registry : list G) (groupId : string)
    (dial : BaseGroupSocket.Dial) :
  map BaseGroupSocket.getGroupId
    (fst (Managers.createWebSocketClient onError connectGroupSocket registry
            groupId dial))
  = map BaseGroupSocket.getGroupId registry.
Proof.
  unfold Managers.createWebSocketClient.
  destruct (Managers.findGroupById registry groupId) as [g|] eqn:Hfind;
    [|reflexivity].
  cbn [fst]. apply writeBack_ids. intros g0 Hg0. rewrite Hfind in Hg0.
  injection Hg0 as <-.
  exact (connect_id dial
           (BaseGroupSocket.newSocket g)).
Qed.

Lemma managerError_count (message : string) :
  length (List.filter Further.isManagerError
            (Managers.managerError onError message))
  = match onError with Some _ => 1%nat | None => 0%nat end.
Proof. destruct onError; reflexivity. Qed.

Lemma managerError_no_schedule (message : string) :
  List.filter Further.isSchedule (Managers.managerError onError message) = [].
Proof. destruct onError; reflexivity. Qed.

Lemma createWebSocketClient_counts (registry : list G) (groupId : string)
    (dial : string -> BaseGroupSocket.Dial) :
  let t :=
    snd (Managers.createWebSocketClient onError connectGroupSocket registry
           groupId (dial groupId)) in
  length (List.filter Further.isSchedule t)
  = (if Further.dialable registry groupId then 1%nat else 0%nat)
  /\ length (List.filter Further.isManagerError t)
     = match onError with
       | Some _ => if Further.reported dial registry groupId then 1%nat else 0%nat
       | None => 0%nat
       end.
Proof.
  cbv zeta. unfold Managers.createWebSocketClient, Further.dialable,
    Further.reported.
  destruct (Managers.findGroupById registry groupId) as [g|] eqn:Hfind;
    cbn [snd].
  - set (o := connectGroupSocket (dial groupId)
                (BaseGroupSocket.newSocket g)).
    pose proof (connect_schedule (dial groupId)
                  (BaseGroupSocket.newSocket g)) as Hs.
    pose proof (connect_silent (dial groupId)
                  (BaseGroupSocket.newSocket g)) as Hq.
    pose proof (connect_thrown (dial groupId)
                  (BaseGroupSocket.newSocket g)) as Ht.
    fold o in Hs, Hq, Ht.
    change (BaseGroupSocket.group (BaseGroupSocket.newSocket g)) with g in Hs, Ht.
    rewrite !List.filter_app, !length_app, Hq, Hs. cbn [length].
    rewrite <- Ht.
    destruct (BaseGroupSocket.thrown o) as [message|].
    + rewrite managerError_no_schedule, managerError_count. cbn [length].
      rewrite bool_decide_true by discriminate.
      split; [|reflexivity].
      destruct (BaseGroupSocket.shouldCleanup g); reflexivity.
    + rewrite bool_decide_false by (intros Hne; apply Hne; reflexivity).
      split; [destruct (BaseGroupSocket.shouldCleanup g); reflexivity|].
      destruct onError; reflexivity.
  - rewrite managerError_no_schedule, managerError_count.
    split; reflexivity.
Qed.

Lemma view_dialable (registry registry' : list G) (groupId : string) :
  option_map BaseGroupSocket.shouldCleanup
    (Managers.findGroupById registry' groupId)
  = option_map BaseGroupSocket.shouldCleanup
      (Managers.findGroupById registry groupId) ->
  forall dial,
    Further.dialable registry' groupId = Further.dialable registry groupId
    /\ Further.reported dial registry' groupId
       = Further.reported dial registry groupId.
Proof.
  unfold Further.dialable, Further.reported. intros Hview dial.
  destruct (Managers.findGroupById registry' groupId),
    (Managers.findGroupById registry groupId); simpl in Hview;
    try discriminate; [|split; reflexivity].
  injection Hview as ->. split; reflexivity.
Qed.

Lemma dialAll_counts (dial : string -> BaseGroupSocket.Dial)
    (groupIds : list string) :
  forall (registry0 registry : list G),
    (forall groupId,
       option_map BaseGroupSocket.shouldCleanup
         (Managers.findGroupById registry groupId)
       = option_map BaseGroupSocket.shouldCleanup
           (Managers.findGroupById registry0 groupId)) ->
    let r :=
      Managers.dialAll onError connectGroupSocket dial registry groupIds in
    map BaseGroupSocket.getGroupId (fst r)
    = map BaseGroupSocket.getGroupId registry
    /\ length (List.filter Further.isSchedule (snd r))
       = length (List.filter (Further.dialable registry0) groupIds)
    /\ length (List.filter Further.isManagerError (snd r))
       = match onError with
         | Some _ => length (List.filter (Further.reported dial registry0) groupIds)
         | None => 0%nat
         end.
Proof.
  unfold Managers.dialAll.
  induction groupIds as [|groupId groupIds IH]; intros registry0 registry Hview;
    cbv zeta.
  - simpl. destruct onError; repeat split; reflexivity.
  - rewrite forEach_cons. cbn [fst snd].
    pose proof (createWebSocketClient_counts registry groupId dial) as [Hs He].
    cbv zeta in Hs, He.
    destruct (view_dialable registry0 registry groupId (Hview groupId) dial)
      as [Hd Hr].
    rewrite Hd in Hs. rewrite Hr in He.
    specialize (IH registry0
                  (fst (Managers.createWebSocketClient onError
                          connectGroupSocket registry groupId (dial groupId)))).
    cbv zeta in IH.
    destruct IH as [Hids [Hs' He']].
    { intros other. rewrite createWebSocketClient_view. apply Hview. }
    split; [|split].
    + rewrite Hids. apply createWebSocketClient_ids.
    + rewrite List.filter_app, length_app, Hs, Hs'. cbn [List.filter].
      destruct (Further.dialable registry0 groupId); reflexivity.
    + rewrite List.filter_app, length_app, He, He'. cbn [List.filter].
      destruct onError; [|reflexivity].
      destruct (Further.reported dial registry0 groupId); reflexivity.
Qed.

(** The group a call leaves under an id. *)
Lemma createWebSocketClient_find (registry : list G) (groupId : string)
    (dial : BaseGroupSocket.Dial) (other : string) :
  Managers.findGroupById
    (fst (Managers.createWebSocketClient onError connectGroupSocket registry
            groupId dial)) other
  = if String.eqb other groupId
    then option_map
           (fun g =>
              BaseGroupSocket.group
                (BaseGroupSocket.socket
                   (connectGroupSocket dial (BaseGroupSocket.newSocket g))))
           (Managers.findGroupById registry groupId)
    else Managers.findGroupById registry other.
Proof.
  unfold Managers.createWebSocketClient.
  destruct (Managers.findGroupById registry groupId) as [g|] eqn:Hfind.
  - cbn [fst option_map].
    apply (find_writeBack registry groupId g _ other Hfind
             (connect_id dial (BaseGroupSocket.newSocket g))).
  - cbn [fst option_map].
    destruct (String.eqb other groupId) eqn:Heq; [|reflexivity].
    apply String.eqb_eq in Heq. subst other. exact Hfind.
Qed.

Lemma dialAll_unlisted (dial : string -> BaseGroupSocket.Dial)
    (groupIds : list string) (other : string) :
  ~ In other groupIds ->
  forall registry : list G,
    Managers.findGroupById
      (fst (Managers.dialAll onError connectGroupSocket dial registry groupIds))
      other
    = Managers.findGroupById registry other.
Proof.
  unfold Managers.dialAll.
  induction groupIds as [|groupId groupIds IH]; intros Hout registry;
    [reflexivity|].
  rewrite forEach_cons. cbn [fst].
  rewrite IH by (intros Hin; apply Hout; right; exact Hin).
  rewrite createWebSocketClient_find.
  destruct (String.eqb other groupId) eqn:Heq; [|reflexivity].
  apply String.eqb_eq in Heq. exfalso. apply Hout. left. symmetry. exact Heq.
Qed.

Lemma dialAll_listed (dial : string -> BaseGroupSocket.Dial)
    (groupIds : list string) (groupId : string) :
  List.NoDup groupIds -> In groupId groupIds ->
  forall registry : list G,
    Managers.findGroupById
      (fst (Managers.dialAll onError connectGroupSocket dial registry groupIds))
      groupId
    = option_map
        (fun g =>
           BaseGroupSocket.group
             (BaseGroupSocket.socket
                (connectGroupSocket (dial groupId) (BaseGroupSocket.newSocket g))))
        (Managers.findGroupById registry groupId).
Proof.
  intros Hnodup. induction Hnodup as [|x groupIds Hx Hnodup IH];
    intros Hin registry; [destruct Hin|].
  unfold Managers.dialAll. rewrite forEach_cons. cbn [fst].
  fold (Managers.dialAll onError connectGroupSocket dial
          (fst (Managers.createWebSocketClient onError connectGroupSocket
                  registry x (dial x))) groupIds).
  destruct Hin as [->|Hin].
  - rewrite dialAll_unlisted by exact Hx.
    rewrite createWebSocketClient_find, String.eqb_refl. reflexivity.
  - rewrite IH by exact Hin.
    rewrite createWebSocketClient_find.
    destruct (String.eqb groupId x) eqn:Heq; [|reflexivity].
    apply String.eqb_eq in Heq. subst x. contradiction.
Qed.

End DialLoop.

(** X17. The dial loop of [reconnectAndCleanupGroups] and
    [addSubscriptions], on both managers, nothing else touching the groups
    while it runs. Whatever dials fail, every listed id of a registered
    group with keys is dialed once and no other is; one error reaches
    [onError] (when supplied) for each listed id that is unknown or whose
    dial fails, and none otherwise; the loop leaves the registry's ids and
    their order as they are. When no id is listed twice, the group
    registered under a listed id ends as follows: without keys it is
    marked CLEANUP; with keys it holds the socket its own dial gave, its
    status as before, or is marked DEAD when that dial failed. A group
    whose id is not listed is as it was. *)
Theorem dial_loop_dials_each_listed_group_with_keys_once :
  forall (R : Type) (userHandlers : User.UserWebSocketHandlers R)
         (handlers : WebSocketHandlers R)
         (dial : string -> BaseGroupSocket.Dial)
         (users : list User.UserWebSocketGroup)
         (markets : list WebSocketGroup) (groupIds : list string),
    let userFind :=
      Managers.findGroupById (H := Sockets.userMethods userHandlers) in
    let marketFind :=
      Managers.findGroupById (H := Sockets.marketMethods handlers) in
    let ur :=
      Managers.dialAll (H := Sockets.userMethods userHandlers)
        (User.onError userHandlers)
        (fun d => BaseGroupSocket.connect
                    (H := Sockets.userMethods userHandlers) d id)
        dial users groupIds in
    let mr :=
      Managers.dialAll (H := Sockets.marketMethods handlers)
        (onError handlers) (fun d => Sockets.marketConnect handlers d id)
        dial markets groupIds in
    (map User.groupId (fst ur) = map User.groupId users
     /\ length (List.filter Further.isSchedule (snd ur))
        = length
            (List.filter
               (Further.dialable (H := Sockets.userMethods userHandlers) users)
               groupIds)
     /\ length (List.filter Further.isManagerError (snd ur))
        = match User.onError userHandlers with
          | Some _ =>
              length
                (List.filter
                   (Further.reported (H := Sockets.userMethods userHandlers)
                      dial users)
                   groupIds)
          | None => 0%nat
          end
     /\ (forall groupId,
           ~ In groupId groupIds ->
           userFind (fst ur) groupId = userFind users groupId)
     /\ (List.NoDup groupIds ->
         forall groupId g,
           In groupId groupIds ->
           userFind users groupId = Some g ->
           userFind (fst ur) groupId
           = Some (if User.shouldCleanup g then User.setGroupStatus g CLEANUP
                   else match dial groupId with
                        | BaseGroupSocket.Dialed ws =>
                            {| User.groupId := User.groupId g;
                               User.marketIds := User.marketIds g;
                               User.status := User.status g;
                               User.wsClient := Some ws;
                               User.auth := User.auth g;
                               User.subscribeToAll := User.subscribeToAll g |}
                        | BaseGroupSocket.Rejected _ =>
                            User.setGroupStatus g DEAD
                        end)))
    /\ (map groupId (fst mr) = map groupId markets
        /\ length (List.filter Further.isSchedule (snd mr))
           = length
               (List.filter
                  (Further.dialable (H := Sockets.marketMethods handlers) markets)
                  groupIds)
        /\ length (List.filter Further.isManagerError (snd mr))
           = match onError handlers with
             | Some _ =>
                 length
                   (List.filter
                      (Further.reported (H := Sockets.marketMethods handlers)
                         dial markets)
                      groupIds)
             | None => 0%nat
             end
        /\ (forall groupId,
              ~ In groupId groupIds ->
              marketFind (fst mr) groupId = marketFind markets groupId)
        /\ (List.NoDup groupIds ->
            forall groupId g,
              In groupId groupIds ->
              marketFind markets groupId = Some g ->
              marketFind (fst mr) groupId
              = Some (if shouldCleanup g then setGroupStatus g CLEANUP
                      else match dial groupId with
                           | BaseGroupSocket.Dialed ws =>
                               {| groupId := Market.groupId g;
                                  assetIds := assetIds g;
                                  status := status g;
                                  wsClient := Some ws |}
                           | BaseGroupSocket.Rejected _ =>
                               setGroupStatus g DEAD
                           end))).
Proof.
  intros R uh h dial users markets groupIds. cbv zeta.
  assert (Hu : forall d (s : BaseGroupSocket.Socket User.UserWebSocketGroup),
             let o := BaseGroupSocket.connect (H := Sockets.userMethods uh) d id s in
             let g := BaseGroupSocket.group s in
             BaseGroupSocket.group (BaseGroupSocket.socket o)
             = (if User.shouldCleanup g then User.setGroupStatus g CLEANUP
                else match d with
                     | BaseGroupSocket.Dialed ws =>
                         {| User.groupId := User.groupId g;
                            User.marketIds := User.marketIds g;
                            User.status := User.status g;
                            User.wsClient := Some ws;
                            User.auth := User.auth g;
                            User.subscribeToAll := User.subscribeToAll g |}
                     | BaseGroupSocket.Rejected _ => User.setGroupStatus g DEAD
                     end)
             /\ length (List.filter Further.isSchedule (BaseGroupSocket.effects o))
                = (if User.shouldCleanup g then 0%nat else 1%nat)
             /\ List.filter Further.isManagerError (BaseGroupSocket.effects o) = []
             /\ bool_decide (BaseGroupSocket.thrown o <> None)
                = negb (User.shouldCleanup g) && Further.isRejected d).
  { intros d [g held running made]. cbv zeta.
    unfold BaseGroupSocket.connect, BaseGroupSocket.setupEventHandlers,
      BaseGroupSocket.withStatus, BaseGroupSocket.withGroup; simpl.
    unfold User.shouldCleanup; simpl.
    destruct ((length (User.marketIds g) =? 0)%nat
              && negb (User.subscribeToAll g)) eqn:Hc;
      simpl; [repeat split; reflexivity|].
    destruct d; simpl; unfold User.shouldCleanup; simpl; rewrite ?Hc;
      repeat split; reflexivity. }
  assert (Hm : forall d (s : BaseGroupSocket.Socket WebSocketGroup),
             let o := Sockets.marketConnect h d id s in
             let g := BaseGroupSocket.group s in
             BaseGroupSocket.group (BaseGroupSocket.socket o)
             = (if shouldCleanup g then setGroupStatus g CLEANUP
                else match d with
                     | BaseGroupSocket.Dialed ws =>
                         {| groupId := Market.groupId g; assetIds := assetIds g;
                            status := status g; wsClient := Some ws |}
                     | BaseGroupSocket.Rejected _ => setGroupStatus g DEAD
                     end)
             /\ length (List.filter Further.isSchedule (BaseGroupSocket.effects o))
                = (if shouldCleanup g then 0%nat else 1%nat)
             /\ List.filter Further.isManagerError (BaseGroupSocket.effects o) = []
             /\ bool_decide (BaseGroupSocket.thrown o <> None)
                = negb (shouldCleanup g) && Further.isRejected d).
  { intros d [g held running made]. cbv zeta.
    unfold Sockets.marketConnect, BaseGroupSocket.setupEventHandlers,
      BaseGroupSocket.withStatus, BaseGroupSocket.withGroup; simpl.
    unfold shouldCleanup; simpl.
    destruct (length (assetIds g) =? 0)%nat eqn:Hc;
      simpl; [repeat split; reflexivity|].
    destruct d; simpl; unfold shouldCleanup; simpl; rewrite ?Hc;
      repeat split; reflexivity. }
  assert (Huid : forall d (s : BaseGroupSocket.Socket User.UserWebSocketGroup),
             User.groupId
               (BaseGroupSocket.group
                  (BaseGroupSocket.socket
                     (BaseGroupSocket.connect (H := Sockets.userMethods uh) d id s)))
             = User.groupId (BaseGroupSocket.group s)).
  { intros d s. rewrite (proj1 (Hu d s)).
    destruct (User.shouldCleanup _); [reflexivity|]. destruct d; reflexivity. }
  assert (Hmid : forall d (s : BaseGroupSocket.Socket WebSocketGroup),
             Market.groupId
               (BaseGroupSocket.group
                  (BaseGroupSocket.socket (Sockets.marketConnect h d id s)))
             = Market.groupId (BaseGroupSocket.group s)).
  { intros d s. rewrite (proj1 (Hm d s)).
    destruct (shouldCleanup _); [reflexivity|]. destruct d; reflexivity. }
  assert (Hukeys : forall d (s : BaseGroupSocket.Socket User.UserWebSocketGroup),
             User.shouldCleanup
               (BaseGroupSocket.group
                  (BaseGroupSocket.socket
                     (BaseGroupSocket.connect (H := Sockets.userMethods uh) d id s)))
             = User.shouldCleanup (BaseGroupSocket.group s)).
  { intros d s. rewrite (proj1 (Hu d s)).
    destruct (User.shouldCleanup (BaseGroupSocket.group s)) eqn:Hc;
      [exact Hc|destruct d; exact Hc]. }
  assert (Hmkeys : forall d (s : BaseGroupSocket.Socket WebSocketGroup),
             shouldCleanup
               (BaseGroupSocket.group
                  (BaseGroupSocket.socket (Sockets.marketConnect h d id s)))
             = shouldCleanup (BaseGroupSocket.group s)).
  { intros d s. rewrite (proj1 (Hm d s)).
    destruct (shouldCleanup (BaseGroupSocket.group s)) eqn:Hc;
      [exact Hc|destruct d; exact Hc]. }
  split.
  - destruct (dialAll_counts (M := Sockets.userMethods uh) (User.onError uh)
                (fun d => BaseGroupSocket.connect (H := Sockets.userMethods uh) d id)
                Huid
                Hukeys
                (fun d s => proj1 (proj2 (Hu d s)))
                (fun d s => proj1 (proj2 (proj2 (Hu d s))))
                (fun d s => proj2 (proj2 (proj2 (Hu d s))))
                dial groupIds users users (fun _ => eq_refl))
      as (H1 & H2 & H3).
    split; [exact H1|]. split; [exact H2|]. split; [exact H3|]. split.
    + intros groupId Hout.
      apply (dialAll_unlisted (M := Sockets.userMethods uh) (User.onError uh)
               _ Huid dial groupIds groupId Hout).
    + intros Hnodup groupId g Hin Hfind.
      rewrite (dialAll_listed (M := Sockets.userMethods uh) (User.onError uh)
                 _ Huid dial groupIds groupId Hnodup Hin), Hfind.
      cbn [option_map]. rewrite (proj1 (Hu _ _)). reflexivity.
  - destruct (dialAll_counts (M := Sockets.marketMethods h) (onError h)
                (fun d => Sockets.marketConnect h d id)
                Hmid
                Hmkeys
                (fun d s => proj1 (proj2 (Hm d s)))
                (fun d s => proj1 (proj2 (proj2 (Hm d s))))
                (fun d s => proj2 (proj2 (proj2 (Hm d s))))
                dial groupIds markets markets (fun _ => eq_refl))
      as (H1 & H2 & H3).
    split; [exact H1|]. split; [exact H2|]. split; [exact H3|]. split.
    + intros groupId Hout.
      apply (dialAll_unlisted (M := Sockets.marketMethods h) (onError h)
               _ Hmid dial groupIds groupId Hout).
    + intros Hnodup groupId g Hin Hfind.
      rewrite (dialAll_listed (M := Sockets.marketMethods h) (onError h)
                 _ Hmid dial groupIds groupId Hnodup Hin), Hfind.
      cbn [option_map]. rewrite (proj1 (Hm _ _)). reflexivity.
Qed.

(** Three listed ids: the first group is dialed, the dial of the second
    fails, the third id is unknown. *)
Example dial_loop_sample :
  let r :=
    Managers.dialAll (H := Sockets.userMethods Sample.everyUserHandler)
      (User.onError Sample.everyUserHandler)
      (fun d => BaseGroupSocket.connect
                  (H := Sockets.userMethods Sample.everyUserHandler) d id)
      Further.failsForU2 [Sample.userGroupWithoutSocket; Further.secondUserGroup]
      ["u1"; "u2"; "u3"] in
  map User.status (fst r) = [PENDING; DEAD]
  /\ map User.wsClient (fst r) = [Some Sample.socket; Some Further.brokenSocket]
  /\ List.filter Further.isManagerError (snd r)
     = [BaseGroupSocket.CallOnError
          "Error creating WebSocket client for group u2: ECONNREFUSED";
        BaseGroupSocket.CallOnError "Group u3 not found in registry"].
Proof. repeat split; reflexivity. Qed.

(** X17 at the three listed ids of the sample: the group "u1" holds the
    socket its dial gave and is PENDING as before; "u2", whose dial
    failed, is DEAD. *)
Lemma dial_loop_dials_each_listed_group_with_keys_once_witness :
  let find :=
    Managers.findGroupById (H := Sockets.userMethods Sample.everyUserHandler) in
  let users := [Sample.userGroupWithoutSocket; Further.secondUserGroup] in
  let groupIds := ["u1"; "u2"; "u3"] in
  let ur :=
    Managers.dialAll (H := Sockets.userMethods Sample.everyUserHandler)
      (User.onError Sample.everyUserHandler)
      (fun d => BaseGroupSocket.connect
                  (H := Sockets.userMethods Sample.everyUserHandler) d id)
      Further.failsForU2 users groupIds in
  List.NoDup groupIds
  /\ In "u1" groupIds
  /\ find users "u1" = Some Sample.userGroupWithoutSocket
  /\ find (fst ur) "u1"
     = Some {| User.groupId := "u1"; User.marketIds := ["m"];
               User.status := PENDING; User.wsClient := Some Sample.socket;
               User.auth := User.auth Sample.userGroupWithoutSocket;
               User.subscribeToAll := false |}
  /\ In "u2" groupIds
  /\ find users "u2" = Some Further.secondUserGroup
  /\ find (fst ur) "u2" = Some (User.setGroupStatus Further.secondUserGroup DEAD).
Proof.
  cbv zeta.
  assert (Hnodup : List.NoDup ["u1"; "u2"; "u3"]).
  { repeat constructor; simpl; intuition discriminate. }
  pose proof (dial_loop_dials_each_listed_group_with_keys_once unit
                Sample.everyUserHandler Sample.everyHandler Further.failsForU2
                [Sample.userGroupWithoutSocket; Further.secondUserGroup] []
                ["u1"; "u2"; "u3"]) as H.
  cbv zeta in H. destruct H as [(_ & _ & _ & _ & Hlisted) _].
  split; [exact Hnodup|].
  split; [left; reflexivity|].
  split; [reflexivity|].
  split; [exact (Hlisted Hnodup "u1" Sample.userGroupWithoutSocket
                   (or_introl eq_refl) eq_refl)|].
  split; [right; left; reflexivity|].
  split; [reflexivity|].
  exact (Hlisted Hnodup "u2" Further.secondUserGroup
           (or_intror (or_introl eq_refl)) eq_refl).
Defined.

Lemma reportedClosings_app (t u : list Managers.Teardown) :
  Further.reportedClosings (t ++ u)
  = Further.reportedClosings t ++ Further.reportedClosings u.
Proof.
  unfold Further.reportedClosings. apply omap_app.
Qed.

Lemma closeCalls_app (t u : list Managers.Teardown) :
  Further.closeCalls (t ++ u) = Further.closeCalls t ++ Further.closeCalls u.
Proof.
  unfold Further.closeCalls. apply omap_app.
Qed.

(** X18. [clearState()] of the user manager stops the reaper, empties the
    registry and then goes through every removed group, in registry order:
    [close()] is called on the socket of each group that holds one, once,
    and on no other; a close that throws is reported to [onError] (when
    supplied) right after that call, under the group's id, and does not
    keep the later sockets from being closed. *)
Theorem clearState_closes_every_socket :
  forall (R : Type) (handlers : User.UserWebSocketHandlers R)
         (registry : list User.UserWebSocketGroup),
    let r := Managers.userClearState handlers registry in
    fst r = []
    /\ snd r
       = Managers.ClearReconnectInterval
           :: flat_map
                (fun g =>
                   match User.wsClient g with
                   | None => []
                   | Some client =>
                       Managers.Closing (User.WsClose (User.groupId g))
                         :: (if closeThrows client
                             then match User.onError handlers with
                                  | Some _ =>
                                      [Managers.Closing
                                         (User.CallOnError
                                            (User.ErrorClosing (User.groupId g)))]
                                  | None => []
                                  end
                             else [])
                   end) registry
    /\ Further.closeCalls (snd r)
       = map User.groupId (List.filter Further.hasSocket registry)
    /\ Further.reportedClosings (snd r)
       = match User.onError handlers with
         | Some _ => map User.groupId (List.filter Further.closeFails registry)
         | None => []
         end.
Proof.
  intros R handlers registry. cbv zeta. unfold Managers.userClearState. simpl.
  split; [reflexivity|]. split.
  - f_equal. induction registry as [|g rest IH]; [reflexivity|].
    cbn [flat_map]. rewrite IH. f_equal.
    unfold User.disconnectGroup, User.invoke.
    destruct (User.wsClient g) as [client|]; [|reflexivity].
    destruct (closeThrows client); [|reflexivity].
    destruct (User.onError handlers); reflexivity.
  - change (Further.closeCalls (Managers.ClearReconnectInterval :: ?t))
      with (Further.closeCalls t).
    change (Further.reportedClosings (Managers.ClearReconnectInterval :: ?t))
      with (Further.reportedClosings t).
    induction registry as [|g rest [IHc IHr]].
    + simpl. destruct (User.onError handlers); split; reflexivity.
    + cbn [flat_map List.filter].
      rewrite closeCalls_app, reportedClosings_app, IHc, IHr.
      unfold User.disconnectGroup, Further.hasSocket, Further.closeFails.
      destruct (User.wsClient g) as [client|]; simpl.
      * destruct (closeThrows client); simpl.
        -- destruct (User.onError handlers); simpl; split; reflexivity.
        -- destruct (User.onError handlers); simpl; split; reflexivity.
      * destruct (User.onError handlers); simpl; split; reflexivity.
Qed.

(** A registry of three groups, the second with a socket whose close
    throws. *)
Example clearState_sample :
  Managers.userClearState Sample.everyUserHandler
    [Sample.userGroup; Further.secondUserGroup; Sample.userGroupWithoutSocket;
     Sample.userGroup]
  = ([], [Managers.ClearReconnectInterval;
          Managers.Closing (User.WsClose "u1");
          Managers.Closing (User.WsClose "u2");
          Managers.Closing (User.CallOnError (User.ErrorClosing "u2"));
          Managers.Closing (User.WsClose "u1")]).
Proof. reflexivity. Qed.

(** ** Subscribing *)

Section UserSubscribed.
Context {R : Type}.
Variable JSON_parse : string -> option User.ParsedData.
Variable handlers : User.UserWebSocketHandlers R.

Lemma clearInterval_incl (held : option nat) (running : list nat) :
  BaseGroupSocket.clearInterval held running <> [] -> running <> [].
Proof. intros H ->. apply H. destruct held; reflexivity. Qed.

Lemma userStep_subscribed (s : BaseGroupSocket.Socket User.UserWebSocketGroup)
    (ev : Sockets.Event) :
  let r := Sockets.userStep JSON_parse handlers s ev in
  (User.status (BaseGroupSocket.group (fst r)) = ALIVE ->
   User.status (BaseGroupSocket.group s) = ALIVE
   \/ existsb Further.isUserSend (snd r) = true)
  /\ (BaseGroupSocket.intervals (fst r) <> [] ->
      BaseGroupSocket.intervals s <> []
      \/ existsb Further.isUserSend (snd r) = true).
Proof.
  destruct s as [g held running made]. cbv zeta.
  destruct ev;
    unfold Sockets.userStep, BaseGroupSocket.connect,
      BaseGroupSocket.setupEventHandlers, BaseGroupSocket.pingTick,
      BaseGroupSocket.errorListener, BaseGroupSocket.closeListener,
      Sockets.opened, Sockets.isRunning, BaseGroupSocket.startPingInterval,
      BaseGroupSocket.stopWith, BaseGroupSocket.withStatus,
      BaseGroupSocket.withGroup,
      User.handleOpen, User.handleMessage;
    crush_step;
    split; intros Halive; simpl in *;
    first [discriminate Halive | left; exact Halive | right; reflexivity
          | left; exact (clearInterval_incl _ _ Halive)
          | idtac].
Qed.

Lemma userRun_subscribed (events : list Sockets.Event) :
  forall s : BaseGroupSocket.Socket User.UserWebSocketGroup,
    let r := Further.userRun JSON_parse handlers s events in
    (User.status (BaseGroupSocket.group (fst r)) = ALIVE ->
     User.status (BaseGroupSocket.group s) = ALIVE
     \/ existsb Further.isUserSend (snd r) = true)
    /\ (BaseGroupSocket.intervals (fst r) <> [] ->
        BaseGroupSocket.intervals s <> []
        \/ existsb Further.isUserSend (snd r) = true).
Proof.
  unfold Further.userRun.
  induction events as [|ev events IH]; intros s; cbv zeta.
  - simpl. split; intros H; left; exact H.
  - rewrite forEach_cons. cbn [fst snd]. rewrite existsb_app.
    destruct (IH (fst (Sockets.userStep JSON_parse handlers s ev))) as [IH1 IH2].
    destruct (userStep_subscribed s ev) as [S1 S2]. cbv zeta in *.
    split; intros H.
    + destruct (IH1 H) as [H'|H']; [|right; rewrite H'; apply orb_true_r].
      destruct (S1 H') as [H''|H'']; [left; exact H''|].
      right. rewrite H''. reflexivity.
    + destruct (IH2 H) as [H'|H']; [|right; rewrite H'; apply orb_true_r].
      destruct (S2 H') as [H''|H'']; [left; exact H''|].
      right. rewrite H''. reflexivity.
Qed.

End UserSubscribed.

(** X19. On the user socket nothing but a sent subscription makes a group
    ALIVE or starts its heartbeat: if a run of the socket ends with the
    group ALIVE (or with an interval running) and did not start so, the
    subscription message was sent during the run. *)
Theorem user_group_is_alive_only_after_subscribing :
  forall (R : Type) (handlers : User.UserWebSocketHandlers R)
         (JSON_parse : string -> option User.ParsedData)
         (s : BaseGroupSocket.Socket User.UserWebSocketGroup)
         (events : list Sockets.Event),
    User.status (BaseGroupSocket.group s) <> ALIVE ->
    BaseGroupSocket.intervals s = [] ->
    let r := Further.userRun JSON_parse handlers s events in
    User.status (BaseGroupSocket.group (fst r)) = ALIVE
    \/ BaseGroupSocket.intervals (fst r) <> [] ->
    existsb Further.isUserSend (snd r) = true.
Proof.
  intros R handlers P s events Hstatus Hoff r Hend.
  destruct (userRun_subscribed P handlers events s) as [H1 H2].
  cbv zeta in H1, H2. fold r in H1, H2.
  destruct Hend as [Halive|Hrunning].
  - destruct (H1 Halive) as [H|H]; [contradiction|exact H].
  - destruct (H2 Hrunning) as [H|H]; [congruence|exact H].
Qed.

(** X19 on a fresh group that is dialed and opens. *)
Lemma user_group_is_alive_only_after_subscribing_witness :
  let s := Further.freshSocket in
  let r :=
    Further.userRun Further.parseOrder Sample.everyUserHandler s
      [Sockets.ConnectCall (BaseGroupSocket.Dialed Sample.socket);
       Sockets.OpenEvent] in
  User.status (BaseGroupSocket.group s) <> ALIVE
  /\ BaseGroupSocket.intervals s = []
  /\ (User.status (BaseGroupSocket.group (fst r)) = ALIVE
      \/ BaseGroupSocket.intervals (fst r) <> [])
  /\ existsb Further.isUserSend (snd r) = true.
Proof.
  cbv zeta.
  split; [discriminate|]. split; [reflexivity|].
  split; [left; reflexivity|].
  apply (user_group_is_alive_only_after_subscribing unit
           Sample.everyUserHandler Further.parseOrder Further.freshSocket
           [Sockets.ConnectCall (BaseGroupSocket.Dialed Sample.socket);
            Sockets.OpenEvent]).
  - discriminate.
  - reflexivity.
  - left. reflexivity.
Defined.
